(** * NightVision MCP server: a shallow embedding and its checked properties

    The development follows the TypeScript sources of the repository:

    - [config/token.ts]            the persisted credential (load / save / clear);
    - [services/nightvision.ts]    the command / request executor and the domain
                                   operations built on it;
    - [tools/*.ts]                 the tool handlers registered with the MCP server;
    - [index.ts], [core/server.ts] the entry point of the process.

    JavaScript strings are modelled by [string]; a character stands for one
    UTF-16 code unit (the development only needs code units below 256), so
    [String.length] is the [length] property.  JavaScript numbers are modelled
    by [Z] (the pagination and status parameters are integers).  Effects
    (the in-process token, the token file, subprocesses, HTTP requests, the
    timer queue, the console) are threaded explicitly through a state and
    exception monad. *)

From Stdlib Require Import ZArith List Ascii String Bool Lia DecimalString.
From stdpp Require Import base option list gmap strings.

Open Scope string_scope.
Set Warnings "-register-all".

(* ================================================================== *)
(** * 1. JavaScript string primitives used by the sources              *)
(* ================================================================== *)

Module JsString.

(** The double quote, line feed and tab characters. *)
Definition dquote : string := String "034"%char EmptyString.
Definition LF : ascii := "010"%char.
Definition nl : string := String LF EmptyString.
Definition tab : string := String "009"%char EmptyString.

(** [s.startsWith(p)] *)
Definition startsWith (s p : string) : bool := String.prefix p s.

(** [s.includes(sub)] *)
Fixpoint includes (s sub : string) : bool :=
  String.prefix sub s ||
  match s with
  | EmptyString => false
  | String _ s' => includes s' sub
  end.

(** White space in the sense of [String.prototype.trim], restricted to code
    units below 256: TAB, LF, VT, FF, CR, SPACE and NBSP. *)
Definition isWhiteSpace (c : ascii) : bool :=
  let n := nat_of_ascii c in
  ((9 <=? n)%nat && (n <=? 13)%nat) || (n =? 32)%nat || (n =? 160)%nat.

Fixpoint trimStart (s : string) : string :=
  match s with
  | EmptyString => EmptyString
  | String c s' => if isWhiteSpace c then trimStart s' else s
  end.

Definition rev (s : string) : string :=
  string_of_list_ascii (List.rev (list_ascii_of_string s)).

Definition trimEnd (s : string) : string := rev (trimStart (rev s)).

(** [s.trim()] *)
Definition trim (s : string) : string := trimEnd (trimStart s).

(** [s.split(sep)] for a one-character separator. *)
Fixpoint split (sep : ascii) (s : string) : list string :=
  match s with
  | EmptyString => [EmptyString]
  | String c s' =>
      if Ascii.eqb c sep then EmptyString :: split sep s'
      else match split sep s' with
           | x :: xs => String c x :: xs
           | [] => [String c EmptyString]
           end
  end.

(** [parts.join(sep)] *)
Definition join (sep : string) (parts : list string) : string :=
  String.concat sep parts.

(** [s.repeat(n)] *)
Fixpoint repeat (s : string) (n : nat) : string :=
  match n with
  | O => EmptyString
  | S k => s ++ repeat s k
  end.

(** [s.padEnd(w)]; [w = None] is the call [s.padEnd(undefined)], which
    returns [s] unchanged. *)
Definition padEnd (s : string) (w : option nat) : string :=
  match w with
  | Some n => s ++ repeat " " (n - String.length s)
  | None => s
  end.

(** [s.substring(0, n)] *)
Definition take (n : nat) (s : string) : string := String.substring 0 n s.

(** The lines of a text: its pieces between line feeds. *)
Definition lines (s : string) : list string := split LF s.

(** [s] occurs in [t] as a contiguous piece. *)
Definition occursIn (s t : string) : Prop :=
  exists pre post : string, t = pre ++ s ++ post.

End JsString.

Import JsString.

(* ================================================================== *)
(** * 2. The ASCII table encoding ([formatAsTable])                    *)
(* ================================================================== *)

Module Table.

(** [r[i]?.toString().length || 0] *)
Definition cellLength (r : list string) (i : nat) : nat :=
  match r !! i with
  | Some c => String.length c
  | None => 0
  end.

(** [Math.max(...rows.map(r => r[i]?.toString().length || 0))], for the
    non-empty [rows] that reach this point. *)
Definition maxDataLength (rows : list (list string)) (i : nat) : nat :=
  foldr Nat.max 0 (map (fun r => cellLength r i) rows).

(** [colWidths] *)
Definition colWidths (headers : list string) (rows : list (list string)) : list nat :=
  imap (fun i h => Nat.max (String.length h) (maxDataLength rows i)) headers.

(** The padded cells of the header line. *)
Definition headerCells (headers : list string) (rows : list (list string)) : list string :=
  imap (fun i h => padEnd h (colWidths headers rows !! i)) headers.

(** The dash runs of the separator line. *)
Definition separatorCells (headers : list string) (rows : list (list string)) : list string :=
  map (fun w => JsString.repeat "-" w) (colWidths headers rows).

(** The padded cells of one data line: [(cell || '').toString().padEnd(colWidths[i])]. *)
Definition dataCells (widths : list nat) (row : list string) : list string :=
  imap (fun i cell => padEnd cell (widths !! i)) row.

Definition headerRow (headers : list string) (rows : list (list string)) : string :=
  join " | " (headerCells headers rows).

Definition separatorRow (headers : list string) (rows : list (list string)) : string :=
  join "-+-" (separatorCells headers rows).

Definition dataRows (headers : list string) (rows : list (list string)) : list string :=
  map (fun row => join " | " (dataCells (colWidths headers rows) row)) rows.

(** The row strings that are joined by line feeds. *)
Definition tableRows (headers : list string) (rows : list (list string)) : list string :=
  headerRow headers rows :: separatorRow headers rows :: dataRows headers rows.

(** [NightVisionService.formatAsTable] *)
Definition formatAsTable (headers : list string) (rows : list (list string)) : string :=
  if (Nat.eqb (length headers) 0 || Nat.eqb (length rows) 0)%bool
  then "No data to display"
  else join nl (tableRows headers rows).

End Table.

(* ================================================================== *)
(** * 3. Values, errors, the environment and the world                 *)
(* ================================================================== *)

(** Untyped JavaScript values as they come out of [JSON.parse] or are put
    into request bodies and query parameters. *)
Inductive Json : Type :=
| JUndefined
| JNull
| JBool (b : bool)
| JNum (n : Z)
| JStr (s : string)
| JArr (items : list Json)
| JObj (fields : list (string * Json)).

(** Truthiness: what [!v], [v || d] and [if (v)] test. *)
Definition truthy (v : Json) : bool :=
  match v with
  | JUndefined | JNull => false
  | JBool b => b
  | JNum n => negb (n =? 0)%Z
  | JStr s => negb (s =? "")
  | JArr _ | JObj _ => true
  end.

(** [v || d] *)
Definition orElse (v d : Json) : Json := if truthy v then v else d.

Fixpoint assoc (k : string) (fields : list (string * Json)) : Json :=
  match fields with
  | [] => JUndefined
  | (k', v) :: rest => if (k' =? k) then v else assoc k rest
  end.

(** [v?.k]: property access that yields [undefined] on a missing property and
    on [null] / [undefined]. *)
Definition prop (v : Json) (k : string) : Json :=
  match v with
  | JObj fields => assoc k fields
  | _ => JUndefined
  end.

(** Optional string and number parameters of a tool or an operation: absent
    ([None]) or present; [if (x)] is false for an absent value, for the empty
    string and for zero. *)
Definition truthyS (x : option string) : bool :=
  match x with
  | Some s => negb (s =? "")
  | None => false
  end.

Definition truthyZ (x : option Z) : bool :=
  match x with
  | Some n => negb (n =? 0)%Z
  | None => false
  end.

Definition truthyB (x : option bool) : bool :=
  match x with
  | Some b => b
  | None => false
  end.

(** [x || d] on an optional string. *)
Definition orS (x : option string) (d : string) : string :=
  match x with
  | Some s => if (s =? "") then d else s
  | None => d
  end.

(** [OutputFormat] *)
Inductive OutputFormat : Type := FText | FJson | FTable.

Definition formatName (f : OutputFormat) : string :=
  match f with
  | FText => "text"
  | FJson => "json"
  | FTable => "table"
  end.

Definition isFormat (f g : OutputFormat) : bool :=
  match f, g with
  | FText, FText | FJson, FJson | FTable, FTable => true
  | _, _ => false
  end.

(** Thrown values.  [AxiosError] is an error for which [axios.isAxiosError]
    holds; it carries [error.response?.status], [error.response?.data?.detail]
    and [error.message].  Every [new Error(msg)] is a [PlainError]. *)
Inductive JsError : Type :=
| AxiosError (status : option Z) (detail : option string) (msg : string)
| PlainError (msg : string)
| NativeError (name msg : string).   (* TypeError, SyntaxError, ... *)

(** [error.message] *)
Definition message (e : JsError) : string :=
  match e with
  | AxiosError _ _ m => m
  | PlainError m => m
  | NativeError _ m => m
  end.

(** [axios.isAxiosError(error)] *)
Definition isAxiosError (e : JsError) : bool :=
  match e with
  | AxiosError _ _ _ => true
  | _ => false
  end.

(** [error.response?.status] *)
Definition responseStatus (e : JsError) : option Z :=
  match e with
  | AxiosError st _ _ => st
  | _ => None
  end.

(** ENVIRONMENT.CURRENT_API_URL *)
Definition CURRENT_API_URL : string := "https://api.nightvision.net/api/v1/".

Inductive HttpMethod : Type := GET | POST | PUT | DELETE.

Inductive Body : Type :=
| NoBody
| JsonBody (data : Json)
| FormBody (filename content contentType : string).

(** The configuration object handed to [axios]. *)
Record ApiRequest : Type := mkApiRequest {
  req_method : HttpMethod;
  req_url : string;
  req_headers : list (string * string);
  req_params : gmap string Json;
  req_data : Body
}.

(** External calls, in the order in which they are attempted. *)
Inductive Event : Type :=
| EvExec (command : string)
| EvHttp (request : ApiRequest).

Inductive ExecOutcome : Type :=
| ExecOk (stdout stderr : string)
| ExecFail (msg : string).

Inductive HttpOutcome : Type :=
| HttpOk (data : Json)
| HttpFail (e : JsError).

(** Operations on the token file that can throw. *)
Inductive FsOp : Type := OpMkdir | OpWrite | OpRead | OpUnlink.

(** How a computation ends: with a value, or with a thrown error. *)
Inductive Completion (A : Type) : Type :=
| Return (a : A)
| Throw (e : JsError).

Arguments Return {A} a.
Arguments Throw {A} e.

(** What the program cannot decide itself.  The outcome of an external call
    may depend on the calls attempted before it. *)
Record Env : Type := mkEnv {
  (* child_process.exec, promisified *)
  env_exec : list Event -> string -> ExecOutcome;
  (* axios *)
  env_http : list Event -> ApiRequest -> HttpOutcome;
  (* the message of the error thrown by an operation on the token file or
     its directory, when it throws *)
  env_fsError : FsOp -> option string;
  (* fs.existsSync, fs.accessSync(_, W_OK) succeeding, fs.promises.readFile *)
  env_existsSync : string -> bool;
  env_writable : string -> bool;
  env_readFile : string -> Completion string;
  (* os.tmpdir(), os.homedir(), process.cwd() *)
  env_tmpdir : string;
  env_homedir : string;
  env_cwd : string;
  (* JSON.parse, JSON.stringify(v), JSON.stringify(v, null, 2) *)
  JSON_parse : string -> Completion Json;
  JSON_stringify : Json -> string;
  JSON_stringify2 : Json -> string;
  (* ToString, as applied by template literals, toString() and join() *)
  js_toString : Json -> string;
  (* v > n, for a value v compared with a length n *)
  js_gt : Json -> nat -> bool;
  (* results.sort((a, b) => new Date(b.created) - new Date(a.created)) *)
  js_sortNewestFirst : list Json -> Completion (list Json)
}.

(** Options of [startScan]. *)
Record ScanOptions : Type := mkScanOptions {
  so_auth : option string;
  so_auth_id : option string;
  so_no_auth : option bool;
  so_project : option string;
  so_project_id : option string
}.

(** Callbacks handed to [setTimeout], as data: the only callback of the
    program launches a scan in the background. *)
Inductive Task : Type :=
| LaunchScan (targetName : string) (options : ScanOptions) (format : OutputFormat).

(** The mutable state of the process and its surroundings. *)
Record World : Type := mkWorld {
  token : option string;        (* NightVisionService.token; None is null *)
  configDir : bool;             (* whether CONFIG_DIR exists *)
  tokenFile : option string;    (* contents of TOKEN_FILE, when it exists *)
  events : list Event;          (* external calls attempted so far, oldest first *)
  console : list string;        (* lines written with console.error *)
  timers : list Task            (* callbacks scheduled and not yet run *)
}.

Definition withToken (t : option string) (w : World) : World :=
  mkWorld t (configDir w) (tokenFile w) (events w) (console w) (timers w).

Definition withConfigDir (d : bool) (w : World) : World :=
  mkWorld (token w) d (tokenFile w) (events w) (console w) (timers w).

Definition withTokenFile (f : option string) (w : World) : World :=
  mkWorld (token w) (configDir w) f (events w) (console w) (timers w).

Definition withEvent (e : Event) (w : World) : World :=
  mkWorld (token w) (configDir w) (tokenFile w) (events w ++ [e]) (console w) (timers w).

Definition withLine (l : string) (w : World) : World :=
  mkWorld (token w) (configDir w) (tokenFile w) (events w) (console w ++ [l]) (timers w).

Definition withTimers (ts : list Task) (w : World) : World :=
  mkWorld (token w) (configDir w) (tokenFile w) (events w) (console w) ts.

(** ** The monad of effectful code *)

Definition M (A : Type) : Type := Env -> World -> Completion A * World.

Definition ret {A : Type} (a : A) : M A := fun _ w => (Return a, w).

Definition throw {A : Type} (e : JsError) : M A := fun _ w => (Throw e, w).

Definition bind {A B : Type} (m : M A) (k : A -> M B) : M B :=
  fun env w =>
    match m env w with
    | (Return a, w') => k a env w'
    | (Throw e, w') => (Throw e, w')
    end.

#[export] Instance M_ret : MRet M := @ret.
#[export] Instance M_bind : MBind M := fun A B k m => bind m k.

(** [try { body } catch (error) { handler }] *)
Definition tryCatch {A : Type} (body : M A) (handler : JsError -> M A) : M A :=
  fun env w =>
    match body env w with
    | (Return a, w') => (Return a, w')
    | (Throw e, w') => handler e env w'
    end.

(** A value obtained from the environment without any effect. *)
Definition ask {A : Type} (f : Env -> A) : M A := fun env w => (Return (f env), w).

(** A pure step that may throw. *)
Definition lift {A : Type} (f : Env -> Completion A) : M A := fun env w => (f env, w).

(** [console.error(line)] *)
Definition consoleError (line : string) : M unit := fun _ w => (Return tt, withLine line w).

(** [NightVisionService.getToken] and [NightVisionService.setToken] *)
Definition getToken : M (option string) := fun _ w => (Return (token w), w).

Definition setToken (t : option string) : M unit := fun _ w => (Return tt, withToken t w).

(** [await execAsync(command, ...)]: the call is attempted, then the child
    process decides. *)
Definition execAsync (command : string) : M (string * string) :=
  fun env w =>
    let w' := withEvent (EvExec command) w in
    match env_exec env (events w) command with
    | ExecOk out err => (Return (out, err), w')
    | ExecFail m => (Throw (PlainError m), w')
    end.

(** [await axios(request)] *)
Definition axios (request : ApiRequest) : M Json :=
  fun env w =>
    let w' := withEvent (EvHttp request) w in
    match env_http env (events w) request with
    | HttpOk data => (Return data, w')
    | HttpFail e => (Throw e, w')
    end.

(** [setTimeout(callback, 0)] *)
Definition setTimeout (callback : Task) : M unit :=
  fun _ w => (Return tt, withTimers (timers w ++ [callback]) w).

(** [`${error}`] for a thrown error. *)
Definition errorToString (e : JsError) : string :=
  match e with
  | AxiosError _ _ m => "AxiosError: " ++ m
  | PlainError m => "Error: " ++ m
  | NativeError name m => name ++ ": " ++ m
  end.

(** [v.k] where [v] may be [null] or [undefined]: a [TypeError] then. *)
Definition member (v : Json) (k : string) : M Json :=
  match v with
  | JUndefined =>
      throw (NativeError "TypeError"
               ("Cannot read properties of undefined (reading '" ++ k ++ "')"))
  | JNull =>
      throw (NativeError "TypeError"
               ("Cannot read properties of null (reading '" ++ k ++ "')"))
  | _ => mret (prop v k)
  end.

(** [`${v}`] *)
Definition toStr (v : Json) : M string := ask (fun env => js_toString env v).

(** The text of an element in [array.join(sep)]: [null] and [undefined]
    give the empty string. *)
Definition joinText (env : Env) (v : Json) : string :=
  match v with
  | JUndefined | JNull => ""
  | _ => js_toString env v
  end.

(** [for (const x of xs) ...] and [xs.map(async-free f)] with an effectful body. *)
Fixpoint forEach {A B : Type} (f : A -> M B) (xs : list A) : M (list B) :=
  match xs with
  | [] => mret []
  | x :: rest => y ← f x; ys ← forEach f rest; mret (y :: ys)
  end.

(* ================================================================== *)
(** * 4. The persisted credential ([config/token.ts])                  *)
(* ================================================================== *)

Module TokenStore.

(** [fs.existsSync(CONFIG_DIR)] and [fs.existsSync(TOKEN_FILE)] *)
Definition configDirExists : M bool := fun _ w => (Return (configDir w), w).

Definition tokenFileExists : M bool :=
  fun _ w => (Return (match tokenFile w with Some _ => true | None => false end), w).

(** An operation of [fs] on the token file: it throws, or changes the disk. *)
Definition fsDo (op : FsOp) (change : World -> World) : M unit :=
  fun env w =>
    match env_fsError env op with
    | Some m => (Throw (PlainError m), w)
    | None => (Return tt, change w)
    end.

(** [fs.readFileSync(TOKEN_FILE, 'utf8')] *)
Definition readTokenFile : M string :=
  fun env w =>
    match env_fsError env OpRead, tokenFile w with
    | Some m, _ => (Throw (PlainError m), w)
    | None, Some content => (Return content, w)
    | None, None => (Throw (PlainError "ENOENT: no such file or directory"), w)
    end.

(** [loadToken]: both the path that finds no file and the path that catches
    an error fall through to [return null]. *)
Definition loadToken : M (option string) :=
  tryCatch
    (present ← tokenFileExists;
     if (present : bool)
     then content ← readTokenFile; mret (Some (trim content))
     else mret None)
    (fun error =>
       consoleError ("Failed to load token: " ++ errorToString error);;
       mret None).

(** [saveToken] *)
Definition saveToken (t : string) : M unit :=
  tryCatch
    (present ← configDirExists;
     (if (present : bool) then mret tt
      else fsDo OpMkdir (withConfigDir true));;
     fsDo OpWrite (withTokenFile (Some t)))
    (fun error => consoleError ("Failed to save token: " ++ errorToString error)).

(** [clearToken] *)
Definition clearToken : M unit :=
  tryCatch
    (present ← tokenFileExists;
     if (present : bool) then fsDo OpUnlink (withTokenFile None) else mret tt)
    (fun error => consoleError ("Failed to clear token: " ++ errorToString error)).

End TokenStore.

(* ================================================================== *)
(** * 5. The POSIX [path] module of the runtime                        *)
(* ================================================================== *)

(** The operations of Node's [path] that the sources call, written after
    their POSIX definitions. *)
Module Path.

Definition isSlash (c : ascii) : bool := Ascii.eqb c "/"%char.

Fixpoint dropWhile (p : ascii -> bool) (l : list ascii) : list ascii :=
  match l with
  | [] => []
  | c :: l' => if p c then dropWhile p l' else l
  end.

Fixpoint takeWhile (p : ascii -> bool) (l : list ascii) : list ascii :=
  match l with
  | [] => []
  | c :: l' => if p c then c :: takeWhile p l' else []
  end.

Definition notSlash (c : ascii) : bool := negb (isSlash c).

(** [path.isAbsolute(p)] *)
Definition isAbsolute (p : string) : bool := startsWith p "/".

(** [path.basename(p)]: the last component, trailing slashes ignored. *)
Definition basename (p : string) : string :=
  let r := dropWhile isSlash (List.rev (list_ascii_of_string p)) in
  string_of_list_ascii (List.rev (takeWhile notSlash r)).

(** [path.dirname(p)] *)
Definition dirname (p : string) : string :=
  match p with
  | EmptyString => "."
  | String c0 rest =>
      let r := dropWhile isSlash (List.rev (list_ascii_of_string rest)) in
      match dropWhile notSlash r with
      | [] => if isSlash c0 then "/" else "."
      | _ :: before =>
          match before with
          | [] => if isSlash c0 then "//" else String c0 EmptyString
          | _ => String c0 (string_of_list_ascii (List.rev before))
          end
      end
  end.

(** [path.parse(p).dir] *)
Definition parseDir (p : string) : string :=
  match p with
  | EmptyString => ""
  | String c0 rest =>
      let r := dropWhile isSlash (List.rev (list_ascii_of_string rest)) in
      match dropWhile notSlash r with
      | [] => if isSlash c0 then "/" else ""
      | _ :: before => String c0 (string_of_list_ascii (List.rev before))
      end
  end.

(** The segment walk of [normalizeString]: empty and [.] segments are
    skipped, [..] removes the segment before it or, above the start of a
    relative path, is kept.  [acc] holds the result so far, last segment
    first. *)
Fixpoint normalizeSegments (allowAboveRoot : bool) (acc segs : list string) : list string :=
  match segs with
  | [] => List.rev acc
  | s :: rest =>
      if ((s =? "") || (s =? "."))%bool then normalizeSegments allowAboveRoot acc rest
      else if (s =? "..") then
        match acc with
        | top :: acc' =>
            if (top =? "..")
            then normalizeSegments allowAboveRoot
                   (if allowAboveRoot then ".." :: acc else acc) rest
            else normalizeSegments allowAboveRoot acc' rest
        | [] =>
            normalizeSegments allowAboveRoot
              (if allowAboveRoot then [".."] else []) rest
        end
      else normalizeSegments allowAboveRoot (s :: acc) rest
  end.

Definition normalizeString (p : string) (allowAboveRoot : bool) : string :=
  join "/" (normalizeSegments allowAboveRoot [] (split "/"%char p)).

Definition endsWithSlash (p : string) : bool :=
  match List.rev (list_ascii_of_string p) with
  | c :: _ => isSlash c
  | [] => false
  end.

(** [path.normalize(p)] *)
Definition normalize (p : string) : string :=
  if (p =? "") then "."
  else
    let isAbs := isAbsolute p in
    let trailing := endsWithSlash p in
    let q := normalizeString p (negb isAbs) in
    if (q =? "") then (if isAbs then "/" else if trailing then "./" else ".")
    else
      let q' := if trailing then q ++ "/" else q in
      if isAbs then "/" ++ q' else q'.

(** [path.join(a, b)] *)
Definition pathJoin (a b : string) : string :=
  match List.filter (fun s => negb (s =? "")) [a; b] with
  | [] => "."
  | parts => normalize (join "/" parts)
  end.

(** The right-to-left accumulation of [path.resolve]: arguments are
    prepended until an absolute one has been taken. *)
Fixpoint resolveFrom (reversedArgs : list string) (resolved : string) : string * bool :=
  match reversedArgs with
  | [] => (resolved, false)
  | p :: rest =>
      if (p =? "") then resolveFrom rest resolved
      else
        let resolved' := p ++ "/" ++ resolved in
        if isAbsolute p then (resolved', true) else resolveFrom rest resolved'
  end.

(** [path.resolve(a, b)]; [cwd] is [process.cwd()]. *)
Definition resolve (cwd a b : string) : string :=
  let '(resolved, isAbs) := resolveFrom [b; a; cwd] "" in
  let q := normalizeString resolved (negb isAbs) in
  if isAbs then "/" ++ q
  else if (q =? "") then "." else q.

End Path.

(* ================================================================== *)
(** * 6. The executor and the domain operations ([NightVisionService]) *)
(* ================================================================== *)

(** [`${n}`] for an integer, and for a length. *)
Definition showZ (n : Z) : string := NilZero.string_of_int (Z.to_int n).
Definition showNat (n : nat) : string := showZ (Z.of_nat n).

Module Service.

(** The value of the [Authorization] header. *)
Definition authorization (tok : option string) : string :=
  if truthyS tok then "Token " ++ default "" tok else "".

(** [getApiHeaders] *)
Definition getApiHeaders : M (list (string * string)) :=
  tok ← getToken;
  mret [("Authorization", authorization tok); ("Content-Type", "application/json")].

(** [getApiBaseUrl] *)
Definition getApiBaseUrl : string := CURRENT_API_URL.

(** [`${statusCode}`] for [error.response?.status] *)
Definition showStatus (st : option Z) : string :=
  match st with
  | Some n => showZ n
  | None => "undefined"
  end.

(** [error.response?.data?.detail || error.message] *)
Definition detailOrMessage (e : JsError) : string :=
  match e with
  | AxiosError _ detail m => orS detail m
  | _ => message e
  end.

(** [apiRequest] *)
Definition apiRequest (endpoint : string) (method : HttpMethod)
    (params : gmap string Json) (data : Body) (isFormData : bool) : M Json :=
  tryCatch
    (let url := getApiBaseUrl ++ endpoint in
     headers ← (if isFormData
                then tok ← getToken; mret [("Authorization", authorization tok)]
                else getApiHeaders);
     axios (mkApiRequest method url headers params data))
    (fun error =>
       if isAxiosError error
       then throw (PlainError ("API request failed (" ++ showStatus (responseStatus error)
                               ++ "): " ++ detailOrMessage error))
       else throw error).

(** [arg => arg.includes(' ') ? `"${arg}"` : arg] *)
Definition quoteArg (arg : string) : string :=
  if includes arg " " then dquote ++ arg ++ dquote else arg.

(** [commandArgs] of [executeCommand]: the arguments, the format flag (a
    format is always given), the API endpoint flag and, unless skipped or
    absent, the token flag. *)
Definition commandArgs (tok : option string) (args : list string)
    (format : OutputFormat) (skipToken : bool) : list string :=
  args ++ ["-F"; formatName format] ++ ["--api-url"; CURRENT_API_URL]
       ++ (if (truthyS tok && negb skipToken)%bool then ["--token"; default "" tok] else []).

(** The words of the command line, before they are joined by spaces. *)
Definition commandWords (tok : option string) (args : list string)
    (format : OutputFormat) (skipToken : bool) : list string :=
  map quoteArg ("nightvision" :: commandArgs tok args format skipToken).

(** [command] of [executeCommand] *)
Definition commandLine (tok : option string) (args : list string)
    (format : OutputFormat) (skipToken : bool) : string :=
  join " " (commandWords tok args format skipToken).

(** [stderr && stderr.trim() !== ''] *)
Definition nonBlank (s : string) : bool := negb (trim s =? "").

(** [args[0] === 'swagger' && args[1] === 'extract'] *)
Definition isSwaggerExtract (args : list string) : bool :=
  match args with
  | a0 :: a1 :: _ => ((a0 =? "swagger") && (a1 =? "extract"))%bool
  | _ => false
  end.

(** [executeCommand] *)
Definition executeCommand (args : list string) (format : OutputFormat)
    (skipToken : bool) : M string :=
  tryCatch
    (tok ← getToken;
     let command := commandLine tok args format skipToken in
     consoleError ("Executing: " ++ command);;
     out ← execAsync command;
     let '(stdout, stderr) := out in
     (if nonBlank stderr
      then consoleError ("NightVision CLI warning/error: " ++ stderr)
      else mret tt);;
     if (isSwaggerExtract args && nonBlank stderr)%bool
     then consoleError "Including stderr in command output for API discovery";;
          mret (stdout ++ (if (stdout =? "") then "" else nl) ++ stderr)
     else mret stdout)
    (fun error =>
       consoleError ("Failed to execute NightVision command: " ++ message error);;
       throw (PlainError ("NightVision command failed: " ++ message error))).

(** [isInstalled]: the version command is run for its success alone. *)
Definition isInstalled : M bool :=
  tryCatch
    (_ ← executeCommand ["version"] FText false;
     mret true)
    (fun _ => mret false).

(** [output.trim().split('\n').pop()?.trim() || ''] *)
Definition lastLineTrimmed (output : string) : string :=
  match last (split LF (trim output)) with
  | Some l => trim l
  | None => ""
  end.

(** [createToken] *)
Definition createToken (expiryDate : option string) : M string :=
  tryCatch
    (tryCatch
       (consoleError "Attempting to login to NightVision before creating a new token...";;
        _ ← execAsync ("nightvision login --api-url " ++ CURRENT_API_URL);
        consoleError "Login completed successfully.")
       (fun loginError =>
          consoleError ("Login attempt encountered an error: " ++ message loginError));;
     let args := (["token"; "create"]
                  ++ (if truthyS expiryDate then ["-d"; default "" expiryDate] else []))%list in
     output ← executeCommand args FText true;
     let newToken := lastLineTrimmed output in
     if (newToken =? "")
     then throw (PlainError ("Failed to create new token. Please manually run: nightvision login --api-url "
                             ++ CURRENT_API_URL))
     else
       (if (String.length newToken <? 20)%nat
        then consoleError ("Warning: Created token has an unexpected format: " ++ newToken)
        else mret tt);;
       consoleError ("Successfully created a new authentication token: "
                     ++ take 8 newToken ++ "...");;
       consoleError "This token can be used with both the NightVision CLI and API requests.";;
       mret newToken)
    (fun error =>
       throw (PlainError (message error ++ nl ++ nl
         ++ "Please manually run the following command in your terminal to authenticate:"
         ++ nl ++ "nightvision login --api-url " ++ CURRENT_API_URL))).

(** [verifyProductionAuth] *)
Definition verifyProductionAuth : M bool :=
  tryCatch
    (tok ← getToken;
     if truthyS tok
     then
       tryCatch
         (response ← apiRequest "user/me/" GET ∅ NoBody false;
          (* !!(response.user && response.user.id) *)
          user ← member response "user";
          mret (truthy user && truthy (prop user "id"))%bool)
         (fun error =>
            consoleError ("Token validation failed: " ++ errorToString error);;
            mret false)
     else mret false)
    (fun error =>
       consoleError ("Failed to verify authentication: " ++ errorToString error);;
       mret false).

(** [ensureProductionAuth] *)
Definition ensureProductionAuth : M bool :=
  verified ← verifyProductionAuth;
  if (verified : bool) then mret true
  else
    consoleError (nl ++ "⚠️  Not authenticated.");;
    consoleError "Please run the following command to login:";;
    consoleError ("$ nightvision login --api-url " ++ CURRENT_API_URL ++ nl);;
    mret false.

(** [listTargets] *)
Definition listTargets (all : option bool) (projects : option (list string))
    (format : OutputFormat) : M string :=
  let args :=
    (["target"; "list"]
     ++ (if truthyB all then ["-a"] else [])
     ++ (match projects with
         | Some (p :: ps) => ["-p"; join "," (p :: ps)]
         | _ => []
         end))%list in
  executeCommand args format false.

(** Options of [createTarget]. *)
Record CreateTargetOptions : Type := mkCreateTargetOptions {
  ct_project : string;
  ct_project_id : option string;
  ct_type : option string;
  ct_spec_file : option string;
  ct_spec_url : option string;
  ct_exclude_url : option (list string);
  ct_exclude_xpath : option (list string)
}.

(** [for (const p of patterns) args.push(flag, p)] *)
Definition flagEach (flag : string) (patterns : option (list string)) : list string :=
  concat (map (fun p => [flag; p]) (default [] patterns)).

(** [createTarget] *)
Definition createTarget (name url : string) (options : CreateTargetOptions)
    (format : OutputFormat) : M string :=
  let args :=
    (["target"; "create"; name; url]
     ++ ["-p"; ct_project options]
     ++ (if truthyS (ct_project_id options) then ["-P"; default "" (ct_project_id options)] else [])
     ++ (if truthyS (ct_type options) then ["-t"; default "" (ct_type options)] else [])
     ++ (if truthyS (ct_spec_file options) then ["-f"; default "" (ct_spec_file options)] else [])
     ++ (if truthyS (ct_spec_url options) then ["-s"; default "" (ct_spec_url options)] else [])
     ++ flagEach "--exclude-url" (ct_exclude_url options)
     ++ flagEach "--exclude-xpath" (ct_exclude_xpath options))%list in
  executeCommand args format false.

(** [deleteTarget] *)
Definition deleteTarget (name : string) (project project_id : option string)
    (format : OutputFormat) : M string :=
  let args :=
    (["target"; "delete"; name]
     ++ (if truthyS project then ["-p"; default "" project] else [])
     ++ (if truthyS project_id then ["-P"; default "" project_id] else []))%list in
  executeCommand args format false.

(** The arguments of the scan command. *)
Definition scanArgs (targetName : string) (options : ScanOptions) : list string :=
  (["scan"; targetName]
   ++ (if truthyS (so_auth options) then ["-c"; default "" (so_auth options)] else [])
   ++ (if truthyS (so_auth_id options) then ["-C"; default "" (so_auth_id options)] else [])
   ++ (if truthyB (so_no_auth options) then ["--no-auth"] else [])
   ++ (if truthyS (so_project options) then ["-p"; default "" (so_project options)] else [])
   ++ (if truthyS (so_project_id options) then ["-P"; default "" (so_project_id options)] else []))%list.

(** [resultObj.extracted_id = resultObj.id] on a parsed object: an existing
    property takes the value where it stands, a new property comes last. *)
Fixpoint setField (k : string) (v : Json) (fields : list (string * Json)) : list (string * Json) :=
  match fields with
  | [] => [(k, v)]
  | (k', v') :: rest =>
      if (k' =? k) then (k', v) :: rest else (k', v') :: setField k v rest
  end.

(** [startScan] *)
Definition startScan (targetName : string) (options : ScanOptions)
    (format : OutputFormat) : M string :=
  result ← executeCommand (scanArgs targetName options) format false;
  if isFormat format FJson
  then
    tryCatch
      (resultObj ← lift (fun env => JSON_parse env result);
       id ← member resultObj "id";
       if truthy id
       then
         shown ← toStr id;
         consoleError ("Extracted scan ID: " ++ shown);;
         match resultObj with
         | JObj fields =>
             ask (fun env => JSON_stringify2 env (JObj (setField "extracted_id" id fields)))
         | _ => ask (fun env => JSON_stringify2 env resultObj)
         end
       else mret result)
      (fun parseError =>
         consoleError ("Could not parse JSON result to extract scan ID: "
                       ++ errorToString parseError);;
         mret result)
  else mret result.

(** [if (c) params.k = v] *)
Definition setIf (c : bool) (k : string) (v : Json)
    (params : gmap string Json) : gmap string Json :=
  if c then <[k := v]> params else params.

(** The elements of a value on which an array method is called. *)
Definition arrayOf (v : Json) (method : string) : M (list Json) :=
  match v with
  | JArr items => mret items
  | JUndefined =>
      throw (NativeError "TypeError"
               ("Cannot read properties of undefined (reading '" ++ method ++ "')"))
  | JNull =>
      throw (NativeError "TypeError"
               ("Cannot read properties of null (reading '" ++ method ++ "')"))
  | _ => throw (NativeError "TypeError" (method ++ " is not a function"))
  end.

(** [`${v.k || d}`] *)
Definition fieldOr (v : Json) (k d : string) : M string :=
  x ← member v k;
  toStr (orElse x (JStr d)).

(** Options of [listScans]. *)
Record ListScansOptions : Type := mkListScansOptions {
  ls_target : option string;
  ls_project : option string;
  ls_project_id : option string;
  ls_limit : option Z;
  ls_status : option string
}.

Definition listScansParams (options : ListScansOptions) : gmap string Json :=
  let params : gmap string Json := ∅ in
  let params := setIf (truthyS (ls_target options)) "target_name"
                  (JStr (default "" (ls_target options))) params in
  let params := setIf (truthyS (ls_project options)) "project_name"
                  (JStr (default "" (ls_project options))) params in
  let params := setIf (truthyS (ls_project_id options)) "project_id"
                  (JStr (default "" (ls_project_id options))) params in
  let params := setIf (truthyZ (ls_limit options)) "limit"
                  (JNum (default 0%Z (ls_limit options))) params in
  let params := setIf (truthyS (ls_status options)
                       && negb (default "" (ls_status options) =? "all"))%bool "status"
                  (JStr (default "" (ls_status options))) params in
  params.

(** One line of the tab-separated scan table. *)
Definition scanRow (scan : Json) : M string :=
  id ← member scan "id";
  ask (fun env =>
         join tab (map (joinText env)
           [id;
            orElse (prop (prop scan "target") "name") (JStr "N/A");
            orElse (prop scan "status") (JStr "N/A");
            orElse (prop scan "created") (JStr "N/A");
            orElse (prop (prop scan "project") "name") (JStr "N/A")])).

(** [listScans] *)
Definition listScans (options : ListScansOptions) (format : OutputFormat) : M string :=
  tryCatch
    (consoleError "Listing scans via API endpoint...";;
     response ← apiRequest "scans/" GET (listScansParams options) NoBody false;
     match format with
     | FJson => ask (fun env => JSON_stringify2 env response)
     | FTable =>
         let headers := ["ID"; "Target"; "Status"; "Created"; "Project"] in
         results ← member response "results";
         items ← arrayOf results "map";
         rows ← forEach scanRow items;
         mret (join nl ([join tab headers; join tab (map (fun _ => "----") headers)] ++ rows)%list)
     | FText => ask (fun env => JSON_stringify env response)
     end)
    (fun error =>
       consoleError ("Error listing scans: " ++ message error);;
       throw (PlainError ("Failed to list scans: " ++ message error))).

(** [getScanStatus] *)
Definition getScanStatus (scanId : string) (format : OutputFormat) : M string :=
  tryCatch
    (consoleError "Getting scan status via API endpoint...";;
     response ← apiRequest ("scans/" ++ scanId ++ "/") GET ∅ NoBody false;
     match format with
     | FJson => ask (fun env => JSON_stringify2 env response)
     | FTable =>
         id ← fieldOr response "id" "N/A";
         target ← toStr (orElse (prop (prop response "target") "name") (JStr "N/A"));
         status ← fieldOr response "status" "N/A";
         created ← fieldOr response "created" "N/A";
         started ← fieldOr response "started" "N/A";
         completed ← fieldOr response "completed" "N/A";
         project ← toStr (orElse (prop (prop response "project") "name") (JStr "N/A"));
         progress ← toStr (orElse (prop response "progress") (JNum 0));
         mret (join nl (map (fun kv => fst kv ++ ": " ++ snd kv)
                 [("ID", id); ("Target", target); ("Status", status);
                  ("Created", created); ("Started", started);
                  ("Completed", completed); ("Project", project);
                  ("Progress", progress ++ "%")]))
     | FText => ask (fun env => JSON_stringify env response)
     end)
    (fun error =>
       consoleError ("Error getting scan status: " ++ message error);;
       throw (PlainError ("Failed to get scan status: " ++ message error))).

(** [!checks || !Array.isArray(checks.results)], negated: the result items. *)
Definition resultsOf (page : Json) : option (list Json) :=
  if truthy page
  then match prop page "results" with
       | JArr items => Some items
       | _ => None
       end
  else None.

(** [(i + 1).toString()] paired with the i-th item. *)
Definition numbered (items : list Json) : list (string * Json) :=
  imap (fun i item => (showNat (i + 1), item)) items.

(** [formatChecksAsText] *)
Definition formatChecksAsText (checks : Json) : M string :=
  match resultsOf checks with
  | None => mret "No vulnerabilities found or invalid response format."
  | Some results =>
      blocks ← forEach
        (fun '(n, check) =>
           kind ← fieldOr check "check_kind" "Unknown";
           id ← fieldOr check "id" "N/A";
           severity ← fieldOr check "severity" "N/A";
           status ← fieldOr check "status" "N/A";
           path ← fieldOr check "path" "N/A";
           created ← fieldOr check "created" "N/A";
           mret ("Vulnerability " ++ n ++ ": " ++ kind ++ nl
                 ++ "ID: " ++ id ++ nl
                 ++ "Severity: " ++ severity ++ nl
                 ++ "Status: " ++ status ++ nl
                 ++ "Path: " ++ path ++ nl
                 ++ "Created: " ++ created ++ nl ++ nl))
        (numbered results);
      more ← ask (fun env => js_gt env (prop checks "count") (length results));
      count ← toStr (prop checks "count");
      mret ("Scan Vulnerabilities (" ++ showNat (length results) ++ "):" ++ nl ++ nl
            ++ String.concat "" blocks
            ++ (if (more : bool)
                then "Note: Showing " ++ showNat (length results) ++ " of " ++ count
                     ++ " total vulnerabilities. Use 'limit' and 'offset' to see more." ++ nl
                else ""))
  end.

(** [formatChecksAsTable] *)
Definition formatChecksAsTable (checks : Json) : M string :=
  match resultsOf checks with
  | None => mret "No vulnerabilities found or invalid response format."
  | Some results =>
      let headers := ["#"; "Kind"; "Severity"; "Status"; "Path"; "Created"] in
      rows ← forEach
        (fun '(n, check) =>
           kind ← fieldOr check "check_kind" "N/A";
           severity ← fieldOr check "severity" "N/A";
           status ← fieldOr check "status" "N/A";
           path ← fieldOr check "path" "N/A";
           created ← fieldOr check "created" "N/A";
           mret [n; kind; severity; status; path; created])
        (numbered results);
      let table := Table.formatAsTable headers rows in
      more ← ask (fun env => js_gt env (prop checks "count") (length results));
      count ← toStr (prop checks "count");
      mret (table
            ++ (if (more : bool)
                then nl ++ "Note: Showing " ++ showNat (length results) ++ " of " ++ count
                     ++ " total vulnerabilities. Use 'limit' and 'offset' to see more." ++ nl
                else ""))
  end.

(** Options of [getScanChecks]. *)
Record ChecksOptions : Type := mkChecksOptions {
  ck_page : option Z;
  ck_page_size : option Z;
  ck_name : option string;
  ck_check_kind : option string;
  ck_severity : list string;
  ck_status : list Z
}.

(** The query parameters built by [getScanChecks]. *)
Definition getScanChecksParams (options : ChecksOptions) : gmap string Json :=
  let params : gmap string Json := ∅ in
  let params := setIf (truthyZ (ck_page options)) "page"
                  (JNum (default 0%Z (ck_page options))) params in
  (* params.page_size = options.page_size || 100 *)
  let params := <["page_size" :=
                   JNum (if truthyZ (ck_page_size options)
                         then default 0%Z (ck_page_size options) else 100%Z)]> params in
  let params := setIf (truthyS (ck_name options)) "name"
                  (JStr (default "" (ck_name options))) params in
  let params := setIf (truthyS (ck_check_kind options)) "check_kind"
                  (JStr (default "" (ck_check_kind options))) params in
  let params := <["severity" := JArr (map JStr (ck_severity options))]> params in
  let params := <["status" := JArr (map JNum (ck_status options))]> params in
  params.

(** [getScanChecks] *)
Definition getScanChecks (scanId : string) (options : ChecksOptions)
    (format : OutputFormat) : M string :=
  tryCatch
    (consoleError ("Getting scan checks for " ++ scanId ++ " via API endpoint...");;
     response ← apiRequest ("scans/" ++ scanId ++ "/checks/") GET
                  (getScanChecksParams options) NoBody false;
     match format with
     | FJson => ask (fun env => JSON_stringify2 env response)
     | FText => formatChecksAsText response
     | FTable => formatChecksAsTable response
     end)
    (fun error =>
       consoleError ("Error getting scan checks: " ++ errorToString error);;
       throw (PlainError ("Failed to get scan checks: " ++ message error))).

(** Options of [getScanPaths]. *)
Record PathsOptions : Type := mkPathsOptions {
  pa_page : option Z;
  pa_page_size : option Z;
  pa_filter : option string
}.

(** The query parameters built by [getScanPaths]. *)
Definition getScanPathsParams (options : PathsOptions) : gmap string Json :=
  let params : gmap string Json := ∅ in
  let params := setIf (truthyZ (pa_page options)) "page"
                  (JNum (default 0%Z (pa_page options))) params in
  let params := setIf (truthyZ (pa_page_size options)) "page_size"
                  (JNum (default 0%Z (pa_page_size options))) params in
  let params := setIf (truthyS (pa_filter options)) "filter"
                  (JStr (default "" (pa_filter options))) params in
  params.

(** [path.completed ? 'Yes' : 'No'] *)
Definition yesNo (v : Json) : string := if truthy v then "Yes" else "No".

(** [formatPathsAsText] *)
Definition formatPathsAsText (paths : Json) : M string :=
  match resultsOf paths with
  | None => mret "No paths found or invalid response format."
  | Some results =>
      blocks ← forEach
        (fun '(n, path) =>
           url ← fieldOr path "request_url" "N/A";
           method ← fieldOr path "request_method" "N/A";
           code ← fieldOr path "response_status_code" "N/A";
           date ← fieldOr path "added_date" "N/A";
           mret ("Path " ++ n ++ ": " ++ url ++ nl
                 ++ "Method: " ++ method ++ nl
                 ++ "Status Code: " ++ code ++ nl
                 ++ "Date: " ++ date ++ nl
                 ++ "Completed: " ++ yesNo (prop path "completed") ++ nl ++ nl))
        (numbered results);
      more ← ask (fun env => js_gt env (prop paths "count") (length results));
      count ← toStr (prop paths "count");
      mret ("Scan Checked Paths (" ++ showNat (length results) ++ "):" ++ nl ++ nl
            ++ String.concat "" blocks
            ++ (if (more : bool)
                then "Note: Showing " ++ showNat (length results) ++ " of " ++ count
                     ++ " total paths. Use 'page' and 'page_size' parameters for pagination."
                     ++ nl
                else ""))
  end.

(** [formatPathsAsTable] *)
Definition formatPathsAsTable (paths : Json) : M string :=
  match resultsOf paths with
  | None => mret "No paths found or invalid response format."
  | Some results =>
      let headers := ["#"; "Method"; "URL"; "Status"; "Completed"; "Date"] in
      rows ← forEach
        (fun '(n, path) =>
           method ← fieldOr path "request_method" "N/A";
           url ← fieldOr path "request_url" "N/A";
           code ← fieldOr path "response_status_code" "N/A";
           date ← fieldOr path "added_date" "N/A";
           mret [n; method; url; code; yesNo (prop path "completed"); date])
        (numbered results);
      let table := Table.formatAsTable headers rows in
      more ← ask (fun env => js_gt env (prop paths "count") (length results));
      count ← toStr (prop paths "count");
      mret (table
            ++ (if (more : bool)
                then nl ++ "Note: Showing " ++ showNat (length results) ++ " of " ++ count
                     ++ " total paths. Use 'page' and 'page_size' parameters for pagination."
                     ++ nl
                else ""))
  end.

(** [getScanPaths] *)
Definition getScanPaths (scanId : string) (options : PathsOptions)
    (format : OutputFormat) : M string :=
  tryCatch
    (consoleError ("Getting scan paths for " ++ scanId ++ " via API endpoint...");;
     response ← apiRequest ("scans/" ++ scanId ++ "/paths/") GET
                  (getScanPathsParams options) NoBody false;
     match format with
     | FJson => ask (fun env => JSON_stringify2 env response)
     | FText => formatPathsAsText response
     | FTable => formatPathsAsTable response
     end)
    (fun error =>
       consoleError ("Error getting scan paths: " ++ errorToString error);;
       throw (PlainError ("Failed to get scan paths: " ++ message error))).

(** [response.results[0]] *)
Definition first (v : Json) : Json :=
  match v with
  | JArr (x :: _) => x
  | JStr (String c _) => JStr (String c EmptyString)
  | JObj fields => assoc "0" fields
  | _ => JUndefined
  end.

(** [getProjectByName] *)
Definition getProjectByName (projectName : string) : M Json :=
  tryCatch
    (consoleError ("Getting details for project: " ++ projectName);;
     response ← apiRequest ("projects/name/" ++ projectName ++ "/") GET ∅ NoBody false;
     if (negb (truthy response) || negb (truthy (prop response "results"))
         || negb (truthy (first (prop response "results"))))%bool
     then throw (PlainError ("Project '" ++ projectName ++ "' not found or has no data."))
     else mret (first (prop response "results")))
    (fun error =>
       if (isAxiosError error && bool_decide (responseStatus error = Some 404%Z))%bool
       then throw (PlainError ("Project '" ++ projectName
                     ++ "' not found. Please check the project name and try again."))
       else
         consoleError ("Error getting project details: " ++ message error);;
         throw (PlainError ("Failed to get project details: " ++ message error))).

(** [format === 'json' ? JSON.stringify(r, null, 2) : format === 'table' ? table : JSON.stringify(r)] *)
Definition render (format : OutputFormat) (response : Json) (table : M string) : M string :=
  match format with
  | FJson => ask (fun env => JSON_stringify2 env response)
  | FTable => table
  | FText => ask (fun env => JSON_stringify env response)
  end.

(** [uploadNucleiTemplate] *)
Definition uploadNucleiTemplate (templateId filePath : string)
    (format : OutputFormat) : M string :=
  tryCatch
    (consoleError ("Uploading nuclei template from " ++ filePath ++ " to template ID "
                   ++ templateId ++ "...");;
     present ← ask (fun env => env_existsSync env filePath);
     if negb present
     then throw (PlainError ("Nuclei template file not found at: " ++ filePath))
     else
       fileContent ← lift (fun env => env_readFile env filePath);
       if (negb (includes fileContent "id:") || negb (includes fileContent "info:"))%bool
       then throw (PlainError "The file does not appear to be a valid nuclei template. It should contain 'id:' and 'info:' sections.")
       else
         consoleError "File validated as nuclei template, uploading...";;
         response ← apiRequest ("nuclei-templates/" ++ templateId ++ "/upload/") POST ∅
                      (FormBody (Path.basename filePath) fileContent "application/x-yaml") true;
         render format response
           (name ← fieldOr response "name" "N/A";
            type ← fieldOr response "type" "N/A";
            updated ← fieldOr response "updated" "N/A";
            mret ("Template successfully uploaded to ID: " ++ templateId ++ nl
                  ++ "Name: " ++ name ++ nl ++ "Type: " ++ type ++ nl
                  ++ "Updated: " ++ updated)))
    (fun error =>
       consoleError ("Error uploading nuclei template: " ++ message error);;
       if includes (message error) "404"
       then throw (PlainError ("Template ID " ++ templateId
              ++ " not found. Please check that the ID exists and you have access to it."))
       else if (includes (message error) "401" || includes (message error) "403")%bool
       then throw (PlainError "Authentication or permission error. Please ensure you're authenticated and have permission to upload templates.")
       else if includes (message error) "400"
       then throw (PlainError "Bad request when uploading template. The template may have invalid format or syntax.")
       else throw (PlainError ("Failed to upload nuclei template: " ++ message error))).

Definition isLineTerminator (c : ascii) : bool :=
  (Ascii.eqb c "010" || Ascii.eqb c "013")%bool.

Fixpoint untilLineEnd (s : string) : string :=
  match s with
  | EmptyString => EmptyString
  | String c s' => if isLineTerminator c then EmptyString else String c (untilLineEnd s')
  end.

(** [error.message.match(/\(400\): (.+)/)]: the first group of the leftmost
    match, if there is a match. *)
Fixpoint after400 (s : string) : option string :=
  let here :=
    if String.prefix "(400): " s
    then match untilLineEnd (String.substring 7 (String.length s - 7) s) with
         | EmptyString => None
         | d => Some d
         end
    else None in
  match here with
  | Some d => Some d
  | None =>
      match s with
      | EmptyString => None
      | String _ s' => after400 s'
      end
  end.

(** [createNucleiTemplate] *)
Definition createNucleiTemplate (name : string) (description : option string)
    (projectId : string) (format : OutputFormat) : M string :=
  tryCatch
    (if ((name =? "") || (trim name =? ""))%bool
     then throw (PlainError "Template name is required")
     else if ((projectId =? "") || (trim projectId =? ""))%bool
     then throw (PlainError "Project ID is required")
     else
       consoleError ("Creating a new nuclei template with name " ++ name
                     ++ " using project UUID " ++ projectId ++ "...");;
       let data :=
         ([("name", JStr name); ("project", JStr projectId)]
          ++ (if (truthyS description && negb (trim (default "" description) =? ""))%bool
              then [("description", JStr (default "" description))] else []))%list in
       response ← apiRequest "nuclei-templates/" POST ∅ (JsonBody (JObj data)) false;
       id ← member response "id";
       shownId ← toStr id;
       consoleError ("Successfully created nuclei template with ID: " ++ shownId);;
       render format response
         (shownName ← toStr (prop response "name");
          created ← fieldOr response "created" "N/A";
          mret ("Template successfully created:" ++ nl
                ++ "ID: " ++ shownId ++ nl
                ++ "Name: " ++ shownName ++ nl
                ++ (if truthyS description
                    then "Description: " ++ default "" description else "") ++ nl
                ++ "Project UUID: " ++ projectId ++ nl
                ++ "Created: " ++ created)))
    (fun error =>
       consoleError ("Error creating nuclei template: " ++ message error);;
       if (includes (message error) "401" || includes (message error) "403")%bool
       then throw (PlainError "Authentication or permission error. Please ensure you're authenticated and have permission to create templates.")
       else if includes (message error) "400"
       then throw (PlainError ("Bad request when creating template: "
                     ++ default (message error) (after400 (message error))
                     ++ ". Make sure all required fields are valid."))
       else if (includes (message error) "is required"
                || includes (message error) "not found")%bool
       then throw error
       else throw (PlainError ("Failed to create nuclei template: " ++ message error))).

(** Options of [listNucleiTemplates]. *)
Record ListTemplatesOptions : Type := mkListTemplatesOptions {
  lt_project_id : option string;
  lt_search : option string;
  lt_limit : option Z;
  lt_offset : option Z
}.

Definition listNucleiTemplatesParams (options : ListTemplatesOptions) : gmap string Json :=
  let params : gmap string Json := ∅ in
  let params := setIf (truthyS (lt_project_id options)) "project"
                  (JStr (default "" (lt_project_id options))) params in
  let params := setIf (truthyS (lt_search options)) "search"
                  (JStr (default "" (lt_search options))) params in
  let params := setIf (truthyZ (lt_limit options)) "limit"
                  (JNum (default 0%Z (lt_limit options))) params in
  let params := setIf (truthyZ (lt_offset options)) "offset"
                  (JNum (default 0%Z (lt_offset options))) params in
  params.

(** [(d || '').substring(0, 30) + (d && d.length > 30 ? '...' : '') || 'N/A'] *)
Definition shortDescription (description : Json) : M Json :=
  match description with
  | JStr d =>
      let short := take 30 d ++ (if (30 <? String.length d)%nat then "..." else "") in
      mret (JStr (if (short =? "") then "N/A" else short))
  | _ =>
      if truthy description
      then throw (NativeError "TypeError" "(template.description || '').substring is not a function")
      else mret (JStr "N/A")
  end.

(** [!response.results || response.results.length === 0] *)
Definition noResults (results : Json) : bool :=
  negb (truthy results)
  || match results with
     | JArr [] => true
     | JObj fields => match assoc "length" fields with JNum 0 => true | _ => false end
     | _ => false
     end.

(** [listNucleiTemplates] *)
Definition listNucleiTemplates (options : ListTemplatesOptions)
    (format : OutputFormat) : M string :=
  tryCatch
    (consoleError "Listing nuclei templates...";;
     response ← apiRequest "nuclei-templates/" GET (listNucleiTemplatesParams options)
                  NoBody false;
     match format with
     | FJson => ask (fun env => JSON_stringify2 env response)
     | FTable =>
         results ← member response "results";
         if noResults results then mret "No nuclei templates found."
         else
           let headers := ["ID"; "Name"; "Description"; "Project"; "Created"] in
           items ← arrayOf results "map";
           rows ← forEach
             (fun template =>
                id ← member template "id";
                short ← shortDescription (prop template "description");
                ask (fun env =>
                       join tab (map (joinText env)
                         [orElse id (JStr "N/A");
                          orElse (prop template "name") (JStr "N/A");
                          short;
                          orElse (prop (prop template "project") "name") (JStr "N/A");
                          orElse (prop template "created") (JStr "N/A")])))
             items;
           count ← toStr (orElse (prop response "count") (JNum 0));
           mret (join nl ([join tab headers; join tab (map (fun _ => "-----") headers)]
                          ++ rows)%list
                 ++ nl ++ "Total Templates: " ++ count)
     | FText =>
         results ← member response "results";
         if noResults results then mret "No nuclei templates found."
         else
           items ← arrayOf results "map";
           blocks ← forEach
             (fun template =>
                name ← member template "name";
                shownName ← toStr name;
                shownId ← toStr (prop template "id");
                project ← toStr (orElse (prop (prop template "project") "name") (JStr "N/A"));
                description ← fieldOr template "description" "N/A";
                created ← fieldOr template "created" "N/A";
                mret (shownName ++ " (ID: " ++ shownId ++ ")" ++ nl
                      ++ "  Project: " ++ project ++ nl
                      ++ "  Description: " ++ description ++ nl
                      ++ "  Created: " ++ created))
             items;
           count ← toStr (orElse (prop response "count") (JNum 0));
           mret (join (nl ++ nl) blocks ++ nl ++ nl ++ "Total Templates: " ++ count)
     end)
    (fun error =>
       consoleError ("Error listing nuclei templates: " ++ message error);;
       throw (PlainError ("Failed to list nuclei templates: " ++ message error))).

(** [assignNucleiTemplate] *)
Definition assignNucleiTemplate (targetId templateId : string)
    (format : OutputFormat) : M string :=
  tryCatch
    (consoleError ("Assigning nuclei template " ++ templateId ++ " to target "
                   ++ targetId ++ "...");;
     if ((targetId =? "") || (trim targetId =? ""))%bool
     then throw (PlainError "Target ID is required")
     else if ((templateId =? "") || (trim templateId =? ""))%bool
     then throw (PlainError "Template ID is required")
     else
       let data := JObj [("nuclei_templates", JArr [JStr templateId])] in
       response ← apiRequest ("targets/" ++ targetId ++ "/nuclei-templates/assign/") POST ∅
                    (JsonBody data) false;
       consoleError "Successfully assigned nuclei template to target";;
       match format with
       | FJson => ask (fun env => JSON_stringify2 env response)
       | FTable => mret ("Template " ++ templateId ++ " successfully assigned to target "
                         ++ targetId)
       | FText => mret ("Successfully assigned nuclei template " ++ templateId
                        ++ " to target " ++ targetId)
       end)
    (fun error =>
       consoleError ("Error assigning nuclei template to target: " ++ message error);;
       if includes (message error) "404"
       then throw (PlainError "Target ID or Template ID not found. Please check that both exist and you have access to them.")
       else if (includes (message error) "401" || includes (message error) "403")%bool
       then throw (PlainError "Authentication or permission error. Please ensure you're authenticated and have permission to assign templates.")
       else if includes (message error) "400"
       then throw (PlainError "Bad request when assigning template. The template may not be compatible with this target.")
       else throw (PlainError ("Failed to assign nuclei template to target: "
                               ++ message error))).

(** The [lang] option of [discoverApi]: a language name or, as one handler
    passes it on, a list of names.  The names that reach the operation are
    supported language names and contain no space. *)
Inductive LangArg : Type :=
| OneLang (name : string)
| ManyLangs (names : list string).

(** [if (options.lang)] *)
Definition truthyLang (l : LangArg) : bool :=
  match l with
  | OneLang s => negb (s =? "")
  | ManyLangs _ => true
  end.

(** [`${options.lang}`] *)
Definition showLang (l : LangArg) : string :=
  match l with
  | OneLang s => s
  | ManyLangs names => join "," names
  end.

(** Options of [discoverApi]. *)
Record DiscoverOptions : Type := mkDiscoverOptions {
  da_lang : LangArg;
  da_target : option string;
  da_target_id : option string;
  da_project : option string;
  da_project_id : option string;
  da_output : string;
  da_exclude : option string;
  da_version : option string;
  da_no_upload : option bool;
  da_dump_code : option bool;
  da_verbose : option bool
}.

(** The first choice of the output file: an absolute path whose directory
    is the root or does not exist is redirected to the temp directory, a
    relative path is resolved against the project path. *)
Definition chooseOutputFile (output workspacePath : string) : M string :=
  tempDir ← ask env_tmpdir;
  if startsWith output "/"
  then
    let dirname := Path.dirname output in
    let basename := Path.basename output in
    present ← ask (fun env => env_existsSync env dirname);
    if ((dirname =? "/") || negb present)%bool
    then
      let outputFile := Path.pathJoin tempDir basename in
      consoleError ("Warning: Redirecting output from " ++ output ++ " to " ++ outputFile
                    ++ " due to potential permissions issues");;
      mret outputFile
    else mret output
  else
    cwd ← ask env_cwd;
    let outputFile := Path.resolve cwd workspacePath output in
    consoleError ("Converting relative output path '" ++ output
                  ++ "' to absolute path '" ++ outputFile ++ "'");;
    mret outputFile.

(** The writability test of the chosen directory, with its redirection. *)
Definition vetOutputFile (outputFile : string) : M string :=
  tempDir ← ask env_tmpdir;
  writable ← ask (fun env => env_writable env (Path.dirname outputFile));
  if (writable : bool) then mret outputFile
  else
    consoleError "Output directory is not writable, redirecting to temp directory";;
    mret (Path.pathJoin tempDir (Path.basename outputFile)).

(** [`${result.substring(0, 500)}${result.length > 500 ? '...' : ''}`] *)
Definition preview (result : string) : string :=
  take 500 result ++ (if (500 <? String.length result)%nat then "..." else "").

(** The arguments of the extraction command, given the vetted output file. *)
Definition discoverArgs (absoluteSourcePaths : list string) (options : DiscoverOptions)
    (outputFile : string) : list string :=
  (["swagger"; "extract"] ++ absoluteSourcePaths
   ++ ["--lang"; showLang (da_lang options)]
   ++ (if truthyS (da_target options) then ["--target"; default "" (da_target options)] else [])
   ++ (if truthyS (da_target_id options)
       then ["--target-id"; default "" (da_target_id options)] else [])
   ++ (if truthyS (da_project options) then ["--project"; default "" (da_project options)] else [])
   ++ (if truthyS (da_project_id options)
       then ["--project-id"; default "" (da_project_id options)] else [])
   ++ ["--output"; outputFile]
   ++ (if truthyS (da_exclude options) then ["--exclude"; default "" (da_exclude options)] else [])
   ++ (if truthyS (da_version options) then ["--version"; default "" (da_version options)] else [])
   (* options.no_upload !== false *)
   ++ (match da_no_upload options with Some false => [] | _ => ["--no-upload"] end)
   ++ (if truthyB (da_dump_code options) then ["--dump-code"] else []))%list.

(** One element of [absoluteSourcePaths]: a relative source path is
    resolved against the project path. *)
Definition toAbsolute (cwd workspacePath sourcePath : string) : M string :=
  if negb (startsWith sourcePath "/")
  then
    let absolutePath := Path.resolve cwd workspacePath sourcePath in
    consoleError ("Converting relative path '" ++ sourcePath
                  ++ "' to absolute path '" ++ absolutePath ++ "'");;
    mret absolutePath
  else mret sourcePath.

(** [discoverApi] *)
Definition discoverApi (sourcePaths : list string) (options : DiscoverOptions)
    (format : OutputFormat) (projectPath : string) : M string :=
  tryCatch
    (consoleError "Discovering API endpoints for source code using swagger extract...";;
     let workspacePath := projectPath in
     cwd ← ask env_cwd;
     consoleError ("Using project path: " ++ workspacePath);;
     consoleError ("Current working directory: " ++ cwd);;
     absoluteSourcePaths ← forEach (toAbsolute cwd workspacePath) sourcePaths;
     if negb (truthyLang (da_lang options))
     then throw (PlainError "Language is required for API discovery")
     else
       chosen ← chooseOutputFile (da_output options) workspacePath;
       outputFile ← vetOutputFile chosen;
       let args := discoverArgs absoluteSourcePaths options outputFile in
       tryCatch
         (result ← executeCommand args format false;
          consoleError ("Command result: " ++ preview result);;
          consoleError ("Output file location: " ++ outputFile);;
          let outputInfo := nl ++ "OpenAPI Specification File: " ++ outputFile in
          consoleError "Returning the command output with file path information appended";;
          mret (result ++ outputInfo))
         (fun cliError =>
            let errorMessage := message cliError in
            if includes errorMessage "0 paths discovered"
            then throw (PlainError ("No API endpoints found in [" ++ join ", " sourcePaths
                          ++ "] using " ++ showLang (da_lang options)
                          ++ ". Try more specific directories."))
            else if (includes errorMessage "read-only file system"
                     || includes errorMessage "permission denied"
                     || includes errorMessage "no such file or directory")%bool
            then throw (PlainError ("File system error: Unable to write to " ++ outputFile
                          ++ ". " ++ nl ++ "          " ++ nl
                          ++ "This may be due to permissions issues. Try specifying a different output location where you have write permissions."))
            else if includes errorMessage "maxBuffer length exceeded"
            then throw (PlainError "Output too large. Try analyzing smaller directories or using the 'exclude' parameter to filter files.")
            else throw cliError))
    (fun error =>
       consoleError ("Error discovering API endpoints: " ++ message error);;
       throw (PlainError ("Failed to discover API endpoints: " ++ message error))).

End Service.

(* ================================================================== *)
(** * 7. The tool handlers ([tools/*.ts])                              *)
(* ================================================================== *)

(** Arguments of the tools, as the handlers destructure them.  An optional
    parameter that was not supplied is [None]. *)

Record AuthenticateArgs : Type := mkAuthenticateArgs {
  au_token : option string;
  au_create_new : option bool;
  au_expiry_date : option string
}.

Record StartScanArgs : Type := mkStartScanArgs {
  ss_target_name : string;
  ss_auth : option string;
  ss_auth_id : option string;
  ss_no_auth : option bool;
  ss_project : option string;
  ss_project_id : option string;
  ss_format : option OutputFormat
}.

Record ListScansArgs : Type := mkListScansArgs {
  lsa_target : option string;
  lsa_project : option string;
  lsa_project_id : option string;
  lsa_limit : option Z;
  lsa_status : option string;
  lsa_format : option OutputFormat
}.

Record GetScanStatusArgs : Type := mkGetScanStatusArgs {
  gs_scan_id : option string;
  gs_target_name : option string;
  gs_project : option string;
  gs_format : option OutputFormat
}.

Record GetScanChecksArgs : Type := mkGetScanChecksArgs {
  gc_scan_id : string;
  gc_page : option Z;
  gc_page_size : option Z;
  gc_name : option string;
  gc_check_kind : option string;
  gc_severity : option (list string);
  gc_status : option (list Z);
  gc_format : option OutputFormat
}.

Record GetScanPathsArgs : Type := mkGetScanPathsArgs {
  gp_scan_id : string;
  gp_page : option Z;
  gp_page_size : option Z;
  gp_filter : option string;
  gp_format : option OutputFormat
}.

Record CreateNucleiTemplateArgs : Type := mkCreateNucleiTemplateArgs {
  cn_name : string;
  cn_description : option string;
  cn_project_id : string;
  cn_format : option OutputFormat
}.

Record UploadNucleiTemplateArgs : Type := mkUploadNucleiTemplateArgs {
  un_template_id : string;
  un_file_path : string;
  un_project_path : option string;
  un_format : option OutputFormat
}.

Record ListNucleiTemplatesArgs : Type := mkListNucleiTemplatesArgs {
  ln_project_id : option string;
  ln_search : option string;
  ln_limit : option Z;
  ln_offset : option Z;
  ln_format : option OutputFormat
}.

Record ListProjectsArgs : Type := mkListProjectsArgs {
  lp_format : option OutputFormat
}.

Record GetProjectDetailsArgs : Type := mkGetProjectDetailsArgs {
  pd_name : string;
  pd_format : option OutputFormat
}.

Record ListTargetsArgs : Type := mkListTargetsArgs {
  lta_all : option bool;
  lta_projects : option (list string);
  lta_format : option OutputFormat
}.

Record GetTargetDetailsArgs : Type := mkGetTargetDetailsArgs {
  td_name : string;
  td_format : option OutputFormat
}.

Record CreateTargetArgs : Type := mkCreateTargetArgs {
  cta_name : string;
  cta_url : string;
  cta_project : option string;
  cta_project_id : option string;
  cta_type : option string;
  cta_spec_file : option string;
  cta_spec_url : option string;
  cta_exclude_url : option (list string);
  cta_exclude_xpath : option (list string);
  cta_format : option OutputFormat
}.

Record DeleteTargetArgs : Type := mkDeleteTargetArgs {
  dt_name : string;
  dt_format : option OutputFormat
}.

Record TrafficArgs : Type := mkTrafficArgs {
  tr_name : string;
  tr_url : string;
  tr_target : string;
  tr_project : string;
  tr_output_file : option string;
  tr_downloadPath : option string;
  tr_format : option OutputFormat
}.

Record DiscoverArgs : Type := mkDiscoverArgs {
  di_source_paths : option (list string);
  di_lang : option string;
  di_langs : option Service.LangArg;
  di_target : option string;
  di_target_id : option string;
  di_project : option string;
  di_project_id : option string;
  di_output : option string;
  di_exclude : option string;
  di_version : option string;
  di_no_upload : option bool;
  di_dump_code : option bool;
  di_verbose : option bool;
  di_format : option OutputFormat
}.

(** What a response carries besides its text blocks and its error flag. *)
Inductive Extra : Type :=
| NoExtra
(* promptResponse: { prompt: true, responseType, state } *)
| PromptResponse (responseType : string) (state : DiscoverArgs)
(* continueInNewTurn: true, turnAction: { name, onResponse }; the callback
   is the closure over the arguments of the call *)
| TurnAction (name : string) (closure : TrafficArgs).

(** [McpResponse]: the text blocks and the [isError] field, which is absent
    ([None]) from the responses that do not set it. *)
Record Envelope : Type := mkEnvelope {
  content : list string;
  isError : option bool;
  extra : Extra
}.

(** A response is error-flagged when [isError] is [true]. *)
Definition errorFlagged (r : Envelope) : bool :=
  match isError r with
  | Some true => true
  | _ => false
  end.

Definition textOk (text : string) : Envelope := mkEnvelope [text] None NoExtra.

Definition textError (text : string) : Envelope := mkEnvelope [text] (Some true) NoExtra.

(** The response of the credential check that opens the handlers. *)
Definition notAuthenticated : Envelope :=
  textError "Not authenticated. Please use the authenticate tool to set a token first.".

Module Tools.

Import TokenStore.

Definition loginHint : string := "nightvision login --api-url " ++ CURRENT_API_URL.

(** The handler of [authenticate].  The three cases ([create_new], a given
    token, neither) are exhaustive, so the trailing response of the source
    ("Please provide a token or set create_new to true") is never reached. *)
Definition authenticate (args : AuthenticateArgs) : M Envelope :=
  tryCatch
    (if truthyB (au_create_new args)
     then
       tryCatch
         (consoleError (nl ++ "⚠️ The NightVision CLI requires an interactive login session to create a new token.");;
          consoleError "A login prompt will appear in the terminal where the MCP server is running.";;
          consoleError ("Please switch to that terminal and complete the login process when prompted." ++ nl);;
          newToken ← Service.createToken (au_expiry_date args);
          setToken (Some newToken);;
          saveToken newToken;;
          isValid ← Service.verifyProductionAuth;
          if negb isValid
          then mret (textError
                 ("Created a new token (starts with: " ++ take 8 newToken
                  ++ "...) but it couldn't be validated." ++ nl ++ nl
                  ++ "The login process may not have completed successfully. Please try again or run the following command in your terminal:"
                  ++ nl ++ loginHint))
          else mret (textOk
                 ("Successfully created and saved a new authentication token. Token starts with: "
                  ++ take 8 newToken ++ "..." ++ nl
                  ++ "This token can be used with both the NightVision CLI and API requests.")))
         (fun error =>
            mret (textError
              ("Failed to create new token: " ++ message error ++ nl ++ nl
               ++ "The NightVision CLI requires an interactive login session. Please run the following command in your terminal:"
               ++ nl ++ loginHint)))
     else if truthyS (au_token args)
     then
       let token := default "" (au_token args) in
       setToken (Some token);;
       saveToken token;;
       tryCatch
         (isValid ← Service.verifyProductionAuth;
          if negb isValid
          then
            setToken None;;
            clearToken;;
            mret (textError
              ("The provided token is not valid." ++ nl ++ nl
               ++ "Please run the following command and then try again:" ++ nl ++ loginHint))
          else mret (textOk ("Successfully authenticated. Token starts with: "
                             ++ take 8 token ++ "...")))
         (fun _ =>
            setToken None;;
            clearToken;;
            mret (textError "Authentication failed: Invalid token."))
     else
       currentToken ← getToken;
       if truthyS currentToken
       then
         isValid ← Service.verifyProductionAuth;
         if (isValid : bool)
         then mret (textOk ("Authenticated successfully. Token starts with: "
                            ++ take 8 (default "" currentToken) ++ "..."))
         else mret (textError
                ("You have a token (starts with: " ++ take 8 (default "" currentToken)
                 ++ "...) but it appears to be invalid or expired." ++ nl ++ nl
                 ++ "Please run the following command and then try again:" ++ nl ++ loginHint))
       else mret (textOk "Not authenticated. Please provide a token or create a new one."))
    (fun error => mret (textError ("Authentication error: " ++ message error))).

(** The confirmation text of [start-scan]. *)
Definition scanInitiated (targetName : string) (project project_id : option string) : string :=
  "Scan initiated for target '" ++ targetName ++ "'." ++ nl ++ nl
  ++ "The scan is being processed in the background and may take several minutes to complete."
  ++ nl ++ nl
  ++ "To check the status of this scan, you can use the get-scan-status tool in either of these ways:"
  ++ nl ++ nl
  ++ "1. Using the target name:" ++ nl
  ++ "   {" ++ nl
  ++ "     " ++ dquote ++ "target_name" ++ dquote ++ ": " ++ dquote ++ targetName ++ dquote ++ "," ++ nl
  ++ "     " ++ dquote ++ "project" ++ dquote ++ ": " ++ dquote ++ orS project "" ++ dquote
  ++ (if truthyS project_id
      then "," ++ nl ++ "     " ++ dquote ++ "project_id" ++ dquote ++ ": " ++ dquote
           ++ default "" project_id ++ dquote
      else "")
  ++ nl ++ "   }" ++ nl ++ nl
  ++ "2. Or when the scan ID becomes available, you can use:" ++ nl
  ++ "   {" ++ nl
  ++ "     " ++ dquote ++ "scan_id" ++ dquote ++ ": " ++ dquote ++ "scan-id-here" ++ dquote ++ nl
  ++ "   }" ++ nl ++ nl
  ++ "You can also list all your scans with the list-scans tool.".

Definition scanOptionsOf (args : StartScanArgs) : ScanOptions :=
  mkScanOptions (ss_auth args) (ss_auth_id args) (ss_no_auth args)
    (ss_project args) (ss_project_id args).

(** [error.message.includes("not found") || error.message.includes("does not exist")] *)
Definition saysNotFound (m : string) : bool :=
  (includes m "not found" || includes m "does not exist")%bool.

(** The handler of [start-scan]. *)
Definition start_scan (args : StartScanArgs) : M Envelope :=
  tryCatch
    (let targetName := ss_target_name args in
     let project := ss_project args in
     let project_id := ss_project_id args in
     let format := default FJson (ss_format args) in
     tok ← getToken;
     if negb (truthyS tok) then mret notAuthenticated
     else if (negb (truthyS project) && negb (truthyS project_id))%bool
     then mret (textError "You must specify a project when starting a scan. Please include either the 'project' or 'project_id' parameter.")
     else
       tryCatch
         (consoleError ("Starting scan for target '" ++ targetName ++ "' in background...");;
          setTimeout (LaunchScan targetName (scanOptionsOf args) format);;
          mret (textOk (scanInitiated targetName project project_id)))
         (fun error =>
            consoleError ("Error starting scan: " ++ message error);;
            if includes (message error) "Project="
            then mret (textError
                   ("Project error: The project specified does not exist or you don't have permission to access it."
                    ++ nl ++ nl
                    ++ "You MUST specify a valid project when starting a scan. Please try again with:"
                    ++ nl ++ nl ++ "{" ++ nl
                    ++ "  " ++ dquote ++ "target_name" ++ dquote ++ ": " ++ dquote ++ targetName ++ dquote ++ "," ++ nl
                    ++ "  " ++ dquote ++ "project" ++ dquote ++ ": " ++ dquote ++ "ceylan" ++ dquote ++ "," ++ nl
                    ++ "  " ++ dquote ++ "format" ++ dquote ++ ": " ++ dquote ++ "json" ++ dquote ++ nl
                    ++ "}" ++ nl ++ nl
                    ++ "You can run the following command in your terminal to see available projects:"
                    ++ nl ++ "$ nightvision project list" ++ nl ++ nl
                    ++ "Error details: " ++ message error))
            else if saysNotFound (message error)
            then mret (textError
                   ("Target not found: The target '" ++ targetName
                    ++ "' was not found or you don't have permission to access it." ++ nl ++ nl
                    ++ "Please check that:" ++ nl
                    ++ "1. The target name is spelled correctly" ++ nl
                    ++ "2. The target exists in your account" ++ nl
                    ++ "3. You have permission to access the target" ++ nl ++ nl
                    ++ "You can run the following command in your terminal to list available targets:"
                    ++ nl ++ "$ nightvision target list -p " ++ dquote
                    ++ orS project "your-project" ++ dquote ++ nl ++ nl
                    ++ "Error details: " ++ message error))
            else mret (textError ("Failed to start scan: " ++ message error))))
    (fun error => mret (textError ("Failed to start scan: " ++ message error))).

(** The callback given to [setTimeout] by [start-scan]: the launch, whose
    result and whose failure are written to the console. *)
Definition runTask (task : Task) : M unit :=
  match task with
  | LaunchScan targetName options format =>
      tryCatch
        (result ← Service.startScan targetName options format;
         tryCatch
           (resultObj ← lift (fun env => JSON_parse env result);
            id ← member resultObj "id";
            let extracted := prop resultObj "extracted_id" in
            if (truthy id || truthy extracted)%bool
            then scanId ← toStr (orElse extracted id);
                 consoleError ("Scan started with ID: " ++ scanId)
            else mret tt)
           (fun parseError =>
              consoleError ("Could not parse scan result: " ++ errorToString parseError));;
         consoleError ("Scan started successfully in background: " ++ take 100 result ++ "..."))
        (fun err => consoleError ("Error in background scan execution: " ++ message err))
  end.

(** One turn of the timer phase of the event loop: the oldest scheduled
    callback is taken off the queue and run. *)
Definition runNextTimer : M unit :=
  fun env w =>
    match timers w with
    | [] => (Return tt, w)
    | task :: rest => runTask task env (withTimers rest w)
    end.

(** The handler of [list-scans]. *)
Definition list_scans (args : ListScansArgs) : M Envelope :=
  tryCatch
    (let format := default FJson (lsa_format args) in
     tok ← getToken;
     if negb (truthyS tok) then mret notAuthenticated
     else
       tryCatch
         (result ← Service.listScans
                     (Service.mkListScansOptions (lsa_target args) (lsa_project args)
                        (lsa_project_id args) (lsa_limit args) (lsa_status args))
                     format;
          mret (textOk result))
         (fun error =>
            consoleError ("Error listing scans: " ++ message error);;
            mret (textError ("Failed to list scans: " ++ message error))))
    (fun error => mret (textError ("Failed to list scans: " ++ message error))).

(** [resultObj.note = text] on a parsed value, in strict mode. *)
Definition assignField (k : string) (v : Json) (target : Json) : M Json :=
  match target with
  | JObj fields => mret (JObj (Service.setField k v fields))
  | JArr _ => mret target
  | JUndefined =>
      throw (NativeError "TypeError"
               ("Cannot set properties of undefined (setting '" ++ k ++ "')"))
  | JNull =>
      throw (NativeError "TypeError" ("Cannot set properties of null (setting '" ++ k ++ "')"))
  | _ => throw (NativeError "TypeError" ("Cannot create property '" ++ k ++ "'"))
  end.

Definition scanNotFound (scanId : string) : string :=
  "Scan not found: The scan with ID '" ++ scanId
  ++ "' was not found or you don't have permission to access it." ++ nl ++ nl
  ++ "Please check that the scan ID is correct and that you have access to the project containing this scan.".

(** The lookup of the latest scan of a target in [get-scan-status]: a
    response that ends the handler ([inl]) or the text to return ([inr]). *)
Definition latestScanStatus (targetName : string) (project : option string)
    (format : OutputFormat) : M (Envelope + string) :=
  tryCatch
    (scanList ← Service.listScans
                  (Service.mkListScansOptions (Some targetName) project None (Some 10%Z) None)
                  FJson;
     scans ← lift (fun env => JSON_parse env scanList);
     results ← member scans "results";
     if Service.noResults results
     then mret (inl (textError ("No scans found for target '" ++ targetName
                  ++ "'. Please check that you have run a scan for this target recently.")))
     else
       items ← Service.arrayOf results "sort";
       sorted ← lift (fun env => js_sortNewestFirst env items);
       let latestScan := default JUndefined (head sorted) in
       id ← member latestScan "id";
       scanId ← toStr id;
       result ← Service.getScanStatus scanId format;
       created ← toStr (prop latestScan "created");
       let note := "This is the latest scan for target '" ++ targetName
                   ++ "' (created: " ++ created ++ ")" in
       match format with
       | FJson =>
           resultObj ← lift (fun env => JSON_parse env result);
           noted ← assignField "note" (JStr note) resultObj;
           text ← ask (fun env => JSON_stringify2 env noted);
           mret (inr text)
       | FTable => mret (inr ("Note: " ++ note ++ nl ++ nl ++ result))
       | FText => mret (inr result)
       end)
    (fun lookupError =>
       mret (inl (textError ("Failed to find latest scan for target '" ++ targetName
                             ++ "': " ++ message lookupError)))).

(** The handler of [get-scan-status]. *)
Definition get_scan_status (args : GetScanStatusArgs) : M Envelope :=
  tryCatch
    (let scanId := gs_scan_id args in
     let targetName := gs_target_name args in
     let format := default FJson (gs_format args) in
     tok ← getToken;
     if negb (truthyS tok) then mret notAuthenticated
     else if (negb (truthyS scanId) && negb (truthyS targetName))%bool
     then mret (textError "Either scan_id or target_name is required. Please provide one of these parameters.")
     else
       tryCatch
         (if truthyS scanId
          then result ← Service.getScanStatus (default "" scanId) format;
               mret (textOk result)
          else
            consoleError ("Looking up latest scan for target: " ++ default "" targetName);;
            found ← latestScanStatus (default "" targetName) (gs_project args) format;
            match found with
            | inl response => mret response
            | inr result => mret (textOk result)
            end)
         (fun error =>
            consoleError ("Error getting scan status: " ++ message error);;
            if saysNotFound (message error)
            then
              if truthyS scanId
              then mret (textError (scanNotFound (default "" scanId)))
              else mret (textError ("No scans found for target '" ++ default "" targetName
                           ++ "'. Please check that the target name is correct and that you have run a scan for this target."))
            else mret (textError ("Failed to get scan status: " ++ message error))))
    (fun error => mret (textError ("Failed to get scan status: " ++ message error))).

(** [!xs || !Array.isArray(xs) || xs.length === 0] *)
Definition missingList {A : Type} (xs : option (list A)) : bool :=
  match xs with
  | Some (_ :: _) => false
  | _ => true
  end.

(** The handler of [get-scan-checks]. *)
Definition get_scan_checks (args : GetScanChecksArgs) : M Envelope :=
  tryCatch
    (let scanId := gc_scan_id args in
     let format := default FJson (gc_format args) in
     tok ← getToken;
     if negb (truthyS tok) then mret notAuthenticated
     else if missingList (gc_severity args)
     then mret (textError "Severity parameter is required and must be an array of severity values.")
     else if missingList (gc_status args)
     then mret (textError "Status parameter is required and must be an array of status codes (0, 1, 2, 3).")
     else
       tryCatch
         (result ← Service.getScanChecks scanId
                     (Service.mkChecksOptions (gc_page args) (gc_page_size args)
                        (gc_name args) (gc_check_kind args)
                        (default [] (gc_severity args)) (default [] (gc_status args)))
                     format;
          mret (textOk result))
         (fun error =>
            consoleError ("Error getting scan checks: " ++ message error);;
            if saysNotFound (message error)
            then mret (textError (scanNotFound scanId))
            else mret (textError ("Failed to get scan vulnerabilities: " ++ message error))))
    (fun error => mret (textError ("Failed to get scan vulnerabilities: " ++ message error))).

(** The handler of [get-scan-paths]. *)
Definition get_scan_paths (args : GetScanPathsArgs) : M Envelope :=
  tryCatch
    (tok ← getToken;
     if negb (truthyS tok) then mret notAuthenticated
     else if (gp_scan_id args =? "")
     then mret (textError "Scan ID is required. Please provide a 'scan_id' parameter with the UUID of the scan.")
     else
       output ← Service.getScanPaths (gp_scan_id args)
                  (Service.mkPathsOptions (gp_page args) (gp_page_size args) (gp_filter args))
                  (default FJson (gp_format args));
       mret (textOk output))
    (fun error => mret (textError ("Error getting scan paths: " ++ message error))).

(** [!s || s.trim() === ''] *)
Definition blank (s : string) : bool := ((s =? "") || (trim s =? ""))%bool.

(** The handler of [create-nuclei-template]. *)
Definition create_nuclei_template (args : CreateNucleiTemplateArgs) : M Envelope :=
  tryCatch
    (let name := cn_name args in
     let project_id := cn_project_id args in
     let format := default FJson (cn_format args) in
     tok ← getToken;
     if negb (truthyS tok) then mret notAuthenticated
     else if blank name
     then mret (textError "Template name is required. Please provide a name for your nuclei template.")
     else if blank project_id
     then mret (textError "Project ID is required. Please specify the project UUID to associate with this template.")
     else
       tryCatch
         (result ← Service.createNucleiTemplate name (cn_description args) project_id format;
          mret (textOk
            ("Successfully created nuclei template " ++ dquote ++ name ++ dquote
             ++ " with project ID " ++ dquote ++ project_id ++ dquote ++ "." ++ nl ++ nl
             ++ result ++ nl ++ nl
             ++ "You can now use the template ID shown above with the upload-nuclei-template tool to upload your YAML template file.")))
         (fun error =>
            consoleError ("Error creating nuclei template: " ++ message error);;
            mret (textError ("Failed to create nuclei template: " ++ message error))))
    (fun error => mret (textError ("Failed to create nuclei template: " ++ message error))).

(** The handler of [upload-nuclei-template]. *)
Definition upload_nuclei_template (args : UploadNucleiTemplateArgs) : M Envelope :=
  tryCatch
    (let templateId := un_template_id args in
     let filePath := un_file_path args in
     let projectPath := un_project_path args in
     let format := default FJson (un_format args) in
     tok ← getToken;
     if negb (truthyS tok) then mret notAuthenticated
     else
       tryCatch
         (cwd ← ask env_cwd;
          resolvedFilePath ←
            (if (negb (startsWith filePath "/") && truthyS projectPath)%bool
             then
               let resolved := Path.resolve cwd (default "" projectPath) filePath in
               consoleError ("Resolved relative path '" ++ filePath
                             ++ "' to absolute path '" ++ resolved ++ "'");;
               mret resolved
             else if negb (startsWith filePath "/")
             then
               let resolved := Path.resolve cwd cwd filePath in
               consoleError ("Resolved relative path '" ++ filePath
                             ++ "' using CWD to '" ++ resolved ++ "'");;
               mret resolved
             else mret filePath);
          present ← ask (fun env => env_existsSync env resolvedFilePath);
          if negb present
          then mret (textError
                 ("File not found: " ++ resolvedFilePath ++ nl ++ nl
                  ++ "Please check that the file path is correct and the file exists. If using a relative path, consider providing the 'project_path' parameter for accurate resolution."))
          else
            result ← Service.uploadNucleiTemplate templateId resolvedFilePath format;
            mret (textOk ("Successfully uploaded nuclei template from " ++ filePath
                          ++ " to template ID " ++ templateId ++ "." ++ nl ++ nl ++ result)))
         (fun error =>
            consoleError ("Error uploading nuclei template: " ++ message error);;
            if includes (message error) "not found"
            then mret (textError
                   (message error ++ nl ++ nl
                    ++ "Make sure you've created the nuclei template first before trying to upload a file to it. You can list available templates using NightVision CLI:"
                    ++ nl ++ nl ++ "$ nightvision nuclei-template list"))
            else if includes (message error) "valid nuclei template"
            then mret (textError
                   (message error ++ nl ++ nl
                    ++ "Nuclei templates are YAML files with a specific structure. They should include 'id:' and 'info:' sections. Please check the template format."))
            else mret (textError ("Failed to upload nuclei template: " ++ message error))))
    (fun error => mret (textError ("Failed to upload nuclei template: " ++ message error))).

(** The handler of [list-nuclei-templates]. *)
Definition list_nuclei_templates (args : ListNucleiTemplatesArgs) : M Envelope :=
  tryCatch
    (let format := default FJson (ln_format args) in
     tok ← getToken;
     if negb (truthyS tok) then mret notAuthenticated
     else
       tryCatch
         (result ← Service.listNucleiTemplates
                     (Service.mkListTemplatesOptions (ln_project_id args) (ln_search args)
                        (ln_limit args) (ln_offset args))
                     format;
          mret (textOk ("Nuclei Templates:" ++ nl ++ nl ++ result)))
         (fun error =>
            consoleError ("Error listing nuclei templates: " ++ message error);;
            mret (textError ("Failed to list nuclei templates: " ++ message error))))
    (fun error => mret (textError ("Failed to list nuclei templates: " ++ message error))).

(** [project.targets_count?.toString() || '0'] *)
Definition targetsCountText (env : Env) (v : Json) : string :=
  match v with
  | JUndefined | JNull => "0"
  | _ => if (js_toString env v =? "") then "0" else js_toString env v
  end.

(** The table and text encodings of the project list. *)
Definition formatProjects (format : OutputFormat) (response : Json) : M string :=
  match format with
  | FJson => ask (fun env => JSON_stringify2 env response)
  | FTable =>
      if Service.noResults (prop response "results") then mret "No projects found."
      else
        let headers := ["ID"; "Name"; "Targets"; "Created"] in
        items ← Service.arrayOf (prop response "results") "map";
        rows ← forEach
          (fun project =>
             id ← member project "id";
             ask (fun env =>
                    join tab
                      [joinText env (orElse id (JStr "N/A"));
                       joinText env (orElse (prop project "name") (JStr "N/A"));
                       targetsCountText env (prop project "targets_count");
                       joinText env (orElse (prop project "created_at") (JStr "N/A"))]))
          items;
        count ← toStr (orElse (prop response "count") (JNum 0));
        mret (join nl ([join tab headers; join tab (map (fun _ => "-----") headers)] ++ rows)%list
              ++ nl ++ nl ++ "Total Projects: " ++ count)
  | FText =>
      if Service.noResults (prop response "results") then mret "No projects found."
      else
        items ← Service.arrayOf (prop response "results") "map";
        lines ← forEach
          (fun project =>
             name ← member project "name";
             shownName ← toStr name;
             shownId ← toStr (prop project "id");
             targets ← toStr (orElse (prop project "targets_count") (JNum 0));
             mret (shownName ++ " (ID: " ++ shownId ++ ") - " ++ targets ++ " targets"))
          items;
        count ← toStr (orElse (prop response "count") (JNum 0));
        mret (join nl lines ++ nl ++ nl ++ "Total Projects: " ++ count)
  end.

(** The handler of [list-projects]. *)
Definition list_projects (args : ListProjectsArgs) : M Envelope :=
  tryCatch
    (let format := default FJson (lp_format args) in
     tok ← getToken;
     if negb (truthyS tok) then mret notAuthenticated
     else
       tryCatch
         (commandOutput ← Service.executeCommand ["project"; "list"] FJson false;
          response ← lift (fun env => JSON_parse env commandOutput);
          formattedResponse ← formatProjects format response;
          mret (textOk ("Projects in NightVision:" ++ nl ++ nl ++ formattedResponse)))
         (fun error =>
            consoleError ("Error listing projects: " ++ message error);;
            mret (textError ("Failed to list projects: " ++ message error))))
    (fun error => mret (textError ("Failed to list projects: " ++ message error))).

(** The encodings of one project in [get-project-details]. *)
Definition formatProject (format : OutputFormat) (projectData : Json) : M string :=
  match format with
  | FJson => ask (fun env => JSON_stringify2 env projectData)
  | FTable =>
      id ← toStr (orElse (prop projectData "id") (JStr "N/A"));
      name ← toStr (orElse (prop projectData "name") (JStr "N/A"));
      targets ← ask (fun env => targetsCountText env (prop projectData "targets_count"));
      created ← toStr (orElse (prop projectData "created_at") (JStr "N/A"));
      updated ← toStr (orElse (prop projectData "last_updated_at") (JStr "N/A"));
      mret (join nl (map (fun kv => fst kv ++ ": " ++ snd kv)
              [("ID", id); ("Name", name); ("Targets", targets); ("Created", created);
               ("Last Updated", updated);
               ("Is Default", Service.yesNo (prop projectData "is_default"))]))
  | FText =>
      name ← toStr (prop projectData "name");
      id ← toStr (prop projectData "id");
      targets ← toStr (orElse (prop projectData "targets_count") (JNum 0));
      created ← toStr (orElse (prop projectData "created_at") (JStr "N/A"));
      updated ← toStr (orElse (prop projectData "last_updated_at") (JStr "N/A"));
      mret ("Project: " ++ name ++ nl ++ "ID: " ++ id ++ nl ++ "Targets: " ++ targets ++ nl
            ++ "Created: " ++ created ++ nl ++ "Last Updated: " ++ updated ++ nl
            ++ "Is Default: " ++ Service.yesNo (prop projectData "is_default"))
  end.

(** The handler of [get-project-details]. *)
Definition get_project_details (args : GetProjectDetailsArgs) : M Envelope :=
  tryCatch
    (let name := pd_name args in
     let format := default FJson (pd_format args) in
     tok ← getToken;
     if negb (truthyS tok) then mret notAuthenticated
     else if blank name then mret (textError "Project name is required.")
     else
       tryCatch
         (projectData ← Service.getProjectByName name;
          formattedResponse ← formatProject format projectData;
          mret (textOk ("Project Details for " ++ dquote ++ name ++ dquote ++ ":"
                        ++ nl ++ nl ++ formattedResponse)))
         (fun error =>
            consoleError ("Error getting project details: " ++ message error);;
            mret (textError ("Failed to get project details: " ++ message error))))
    (fun error => mret (textError ("Failed to get project details: " ++ message error))).

(** [format === "json"] on the optional format of a call. *)
Definition isJson (format : option OutputFormat) : bool :=
  match format with
  | Some FJson => true
  | _ => false
  end.

(** The summary object of one target in [list-targets]. *)
Definition targetSummary (target : Json) : M Json :=
  name ← member target "name";
  mret (JObj [("name", name);
              ("id", prop target "id");
              ("location", prop target "location");
              ("project", prop target "project_name");
              ("type", prop target "type");
              ("isReadyToScan", prop target "is_ready_to_scan")]).

(** The handler of [list-targets]. *)
Definition list_targets (args : ListTargetsArgs) : M Envelope :=
  tryCatch
    (let format := lta_format args in
     tok ← getToken;
     if negb (truthyS tok) then mret notAuthenticated
     else
       output ← Service.listTargets (lta_all args) (lta_projects args) (default FJson format);
       if isJson format
       then
         tryCatch
           (parsed ← lift (fun env => JSON_parse env output);
            (* totalTargets: targets.length is read before targets.map *)
            _ ← member parsed "length";
            targets ← Service.arrayOf parsed "map";
            summaries ← forEach targetSummary targets;
            text ← ask (fun env =>
                          JSON_stringify2 env
                            (JObj [("totalTargets", JNum (Z.of_nat (length targets)));
                                   ("targets", JArr summaries)]));
            mret (textOk text))
           (fun parseError =>
              consoleError ("Failed to parse JSON output: " ++ errorToString parseError);;
              mret (textOk output))
       else mret (textOk output))
    (fun error => mret (textError ("Error listing targets: " ++ message error))).

(** [targets.find(t => t.name === name)] *)
Fixpoint findByName (name : string) (targets : list Json) : M Json :=
  match targets with
  | [] => mret JUndefined
  | t :: rest =>
      n ← member t "name";
      match n with
      | JStr s => if (s =? name) then mret t else findByName name rest
      | _ => findByName name rest
      end
  end.

(** The handler of [get-target-details]. *)
Definition get_target_details (args : GetTargetDetailsArgs) : M Envelope :=
  tryCatch
    (let name := td_name args in
     tok ← getToken;
     if negb (truthyS tok) then mret notAuthenticated
     else
       allTargets ← Service.listTargets (Some true) None FJson;
       tryCatch
         (if (allTargets =? "")
          then mret (textError "No target data received. Please try again later.")
          else
            parsed ← tryCatch
                       (v ← lift (fun env => JSON_parse env allTargets); mret (inr v))
                       (fun jsonError =>
                          mret (inl (textError ("Error parsing target data: "
                                                ++ errorToString jsonError))));
            match parsed with
            | inl response => mret response
            | inr targets =>
                items ← Service.arrayOf targets "find";
                targetMatch ← findByName name items;
                if negb (truthy targetMatch)
                then mret (textError ("No target found with name: " ++ name))
                else text ← ask (fun env => JSON_stringify2 env targetMatch);
                     mret (textOk text)
            end)
         (fun error => mret (textError ("Error getting target details: " ++ message error))))
    (fun error => mret (textError ("Error getting target details: " ++ message error))).

(** The handler of [create-target]. *)
Definition create_target (args : CreateTargetArgs) : M Envelope :=
  tryCatch
    (let name := cta_name args in
     let format := cta_format args in
     tok ← getToken;
     if negb (truthyS tok) then mret notAuthenticated
     else if negb (truthyS (cta_project args))
     then mret (textError "Project name is required. Please provide a 'project' parameter with the name of the project.")
     else
       output ← Service.createTarget name (cta_url args)
                  (Service.mkCreateTargetOptions (default "" (cta_project args))
                     (cta_project_id args) (cta_type args) (cta_spec_file args)
                     (cta_spec_url args) (cta_exclude_url args) (cta_exclude_xpath args))
                  (default FJson format);
       if isJson format
       then
         tryCatch
           (target ← lift (fun env => JSON_parse env output);
            id ← member target "id";
            shownId ← toStr id;
            text ← ask (fun env => JSON_stringify2 env target);
            mret (textOk ("Successfully created target " ++ dquote ++ name ++ dquote
                          ++ " with ID: " ++ shownId ++ nl ++ nl ++ text)))
           (fun parseError =>
              consoleError ("Failed to parse JSON output: " ++ errorToString parseError);;
              mret (textOk output))
       else mret (textOk ("Successfully created target " ++ dquote ++ name ++ dquote
                          ++ nl ++ nl ++ output)))
    (fun error => mret (textError ("Error creating target: " ++ message error))).

(** The existence check of [delete-target]: a response that ends the
    handler ([inl]) or the project name and id of the target found
    ([inr]), as the listing has them; a failure of the check leaves both
    undefined. *)
Definition findTargetProject (name : string) : M (Envelope + (Json * Json)) :=
  tryCatch
    (allTargets ← Service.listTargets (Some true) None FJson;
     if (allTargets =? "")
     then mret (inl (textError "No target data received. Please try again later."))
     else
       parsed ← tryCatch
                  (v ← lift (fun env => JSON_parse env allTargets); mret (inr v))
                  (fun jsonError =>
                     mret (inl (textError ("Error parsing target data: "
                                           ++ errorToString jsonError))));
       match parsed with
       | inl response => mret (inl response)
       | inr targets =>
           items ← Service.arrayOf targets "find";
           targetMatch ← findByName name items;
           if negb (truthy targetMatch)
           then mret (inl (textError ("Target " ++ dquote ++ name ++ dquote
                                      ++ " not found. Please check the name and try again.")))
           else mret (inr (prop targetMatch "project_name",
                           prop targetMatch "project_id"))
       end)
    (fun error =>
       consoleError ("Error checking if target exists: " ++ errorToString error);;
       mret (inr (JUndefined, JUndefined))).

(** An option of [deleteTarget] as the handler passes it: a string, or a
    value that [if (options.project)] takes for absent; [None] for a truthy
    value that is not a string. *)
Definition stringOption (v : Json) : option (option string) :=
  match v with
  | JStr s => Some (Some s)
  | _ => if truthy v then None else Some None
  end.

(** [arg.includes(' ')] on an array: one of its elements is the string
    of one space. *)
Definition hasSpaceElement (items : list Json) : bool :=
  existsb (fun item => match item with JStr s => (s =? " ") | _ => false end) items.

(** [arg => arg.includes(' ') ? `"${arg}"` : arg], then the text that
    [join] gives the word, for an argument read off the listing.  A number,
    a boolean and an object have no [includes]: the call throws. *)
Definition looseWord (arg : Json) : M string :=
  match arg with
  | JStr s => mret (Service.quoteArg s)
  | JArr items =>
      text ← toStr arg;
      mret (if hasSpaceElement items then dquote ++ text ++ dquote else text)
  | _ => throw (NativeError "TypeError" "arg.includes is not a function")
  end.

(** [nightvisionService.deleteTarget(name, { project, project_id }, format)]
    with the project name and id as the listing has them.  With strings and
    absent values this is [deleteTarget]; a truthy value of another kind is
    pushed on the arguments as it is and meets [executeCommand]. *)
Definition deleteTargetFound (name : string) (project project_id : Json)
    (format : OutputFormat) : M string :=
  match stringOption project, stringOption project_id with
  | Some p, Some q => Service.deleteTarget name p q format
  | _, _ =>
      tryCatch
        (tok ← getToken;
         words ← forEach looseWord
                   (map JStr ["nightvision"; "target"; "delete"; name]
                    ++ (if truthy project then [JStr "-p"; project] else [])
                    ++ (if truthy project_id then [JStr "-P"; project_id] else [])
                    ++ map JStr (["-F"; formatName format; "--api-url"; CURRENT_API_URL]
                                 ++ (if truthyS tok then ["--token"; default "" tok]
                                     else [])))%list;
         let command := join " " words in
         consoleError ("Executing: " ++ command);;
         out ← execAsync command;
         let '(stdout, stderr) := out in
         (if Service.nonBlank stderr
          then consoleError ("NightVision CLI warning/error: " ++ stderr)
          else mret tt);;
         mret stdout)
        (fun error =>
           consoleError ("Failed to execute NightVision command: " ++ message error);;
           throw (PlainError ("NightVision command failed: " ++ message error)))
  end.

(** The handler of [delete-target]. *)
Definition delete_target (args : DeleteTargetArgs) : M Envelope :=
  tryCatch
    (let name := dt_name args in
     let format := dt_format args in
     tok ← getToken;
     if negb (truthyS tok) then mret notAuthenticated
     else
       found ← findTargetProject name;
       match found with
       | inl response => mret response
       | inr (project, project_id) =>
           output ← deleteTargetFound name project project_id (default FJson format);
           if isJson format
           then
             tryCatch
               (result ← lift (fun env => JSON_parse env output);
                text ← ask (fun env => JSON_stringify2 env result);
                mret (textOk ("Successfully deleted target " ++ dquote ++ name ++ dquote
                              ++ nl ++ nl ++ text)))
               (fun parseError =>
                  consoleError ("Failed to parse JSON output: " ++ errorToString parseError);;
                  mret (textOk output))
           else mret (textOk ("Successfully deleted target " ++ dquote ++ name ++ dquote
                              ++ nl ++ nl ++ output))
       end)
    (fun error => mret (textError ("Error deleting target: " ++ message error))).

(** The traffic operations of the service.  They are defined outside the
    files embedded here, so the handlers take them as parameters. *)
Record TrafficService : Type := mkTrafficService {
  recordTraffic : string -> string -> string -> string -> OutputFormat -> M string;
  listTraffic : string -> string -> OutputFormat -> M string;
  downloadTraffic :
    string -> string -> string -> string -> string -> OutputFormat -> M string
}.

(** The handler of [record-traffic]. *)
Definition record_traffic (svc : TrafficService) (args : TrafficArgs) : M Envelope :=
  tryCatch
    (let url := tr_url args in
     let format := default FText (tr_format args) in
     tok ← getToken;
     if negb (truthyS tok) then mret notAuthenticated
     else
       tryCatch
         (let browserInfo :=
            nl
            ++ "This tool will open a browser window for you to interact with the target application."
            ++ nl ++ "1. The browser will open automatically at " ++ url ++ nl
            ++ "2. Navigate through the application to generate traffic" ++ nl
            ++ "3. When finished, close the browser window" ++ nl
            ++ "4. The traffic will be automatically recorded as a HAR file and uploaded to NightVision"
            ++ nl in
          result ← recordTraffic svc (tr_name args) url (tr_target args) (tr_project args) format;
          mret (textOk (browserInfo ++ nl ++ "Traffic recording completed:" ++ nl ++ nl ++ result)))
         (fun error =>
            consoleError ("Error recording traffic: " ++ message error);;
            mret (textError ("Failed to record traffic: " ++ message error))))
    (fun error => mret (textError ("Failed to record traffic: " ++ message error))).

(** The handler of [list-traffic]. *)
Definition list_traffic (svc : TrafficService) (args : TrafficArgs) : M Envelope :=
  tryCatch
    (let target := tr_target args in
     let project := tr_project args in
     let format := default FJson (tr_format args) in
     tok ← getToken;
     if negb (truthyS tok) then mret notAuthenticated
     else
       tryCatch
         (result ← listTraffic svc target project format;
          mret (textOk ("Traffic files for target " ++ target ++ " in project " ++ project
                        ++ ":" ++ nl ++ nl ++ result)))
         (fun error =>
            consoleError ("Error listing traffic files: " ++ message error);;
            mret (textError ("Failed to list traffic files: " ++ message error))))
    (fun error => mret (textError ("Failed to list traffic files: " ++ message error))).

Definition isQuote (c : ascii) : bool := (Ascii.eqb c "'" || Ascii.eqb c "034")%bool.

(** [s.replace(/^['"]|['"]$/g, '')] *)
Definition stripQuotes (s : string) : string :=
  let s1 := match s with
            | String c rest => if isQuote c then rest else s
            | EmptyString => s
            end in
  match List.rev (list_ascii_of_string s1) with
  | c :: before => if isQuote c then string_of_list_ascii (List.rev before) else s1
  | [] => s1
  end.

(** The download itself, shared by the call that brings a [downloadPath]
    ([viaCallback = false]) and by the [onResponse] callback of the prompt
    ([viaCallback = true]); the two differ in what they write to the console. *)
Definition downloadInto (svc : TrafficService) (args : TrafficArgs) (viaCallback : bool)
    (given : string) : M Envelope :=
  let name := tr_name args in
  let target := tr_target args in
  let project := tr_project args in
  let format := default FText (tr_format args) in
  let stripped := stripQuotes (trim given) in
  homeDir ← ask env_homedir;
  downloadPath ←
    (if blank stripped
     then
       consoleError ((if viaCallback then "No download path provided."
                      else "Provided downloadPath is empty.")
                     ++ " Using home directory: " ++ homeDir);;
       mret homeDir
     else if negb (Path.isAbsolute stripped)
     then
       consoleError ("Provided path '" ++ stripped
                     ++ "' is not absolute. Using home directory instead: " ++ homeDir);;
       mret homeDir
     else
       (if viaCallback then consoleError ("Using download path: " ++ stripped) else mret tt);;
       mret stripped);
  writable ← ask (fun env => env_writable env downloadPath);
  downloadPath ←
    (if (writable : bool) then mret downloadPath
     else
       tempDir ← ask env_tmpdir;
       consoleError ("Provided path '" ++ downloadPath
                     ++ "' is not writable. Falling back to temp directory: " ++ tempDir);;
       mret tempDir);
  let finalOutputPath :=
    if truthyS (tr_output_file args)
    then (if Path.isAbsolute (default "" (tr_output_file args))
          then default "" (tr_output_file args)
          else Path.pathJoin downloadPath (default "" (tr_output_file args)))
    else Path.pathJoin downloadPath (name ++ ".har") in
  result ← downloadTraffic svc name target project finalOutputPath downloadPath format;
  let downloadMessage :=
    "The traffic file " ++ dquote ++ name ++ dquote
    ++ " has been downloaded for target " ++ dquote ++ target ++ dquote
    ++ " in project " ++ dquote ++ project ++ dquote ++ "." ++ nl ++ nl
    ++ "The HAR file is saved at the absolute path: " ++ finalOutputPath ++ nl ++ nl
    ++ "Download directory used: " ++ downloadPath in
  mret (textOk (downloadMessage ++ nl ++ nl ++ result)).

(** The handler of [download-traffic]. *)
Definition download_traffic (svc : TrafficService) (args : TrafficArgs) : M Envelope :=
  tryCatch
    (let name := tr_name args in
     let target := tr_target args in
     let project := tr_project args in
     tok ← getToken;
     if negb (truthyS tok) then mret notAuthenticated
     else
       match tr_downloadPath args with
       | Some initialDownloadPath =>
           tryCatch
             (downloadInto svc args false initialDownloadPath)
             (fun error =>
                consoleError ("Error processing download with provided downloadPath: "
                              ++ message error);;
                mret (textError ("Failed to download traffic file: " ++ message error)))
       | None =>
           let downloadPathPrompt :=
             "I'll download the traffic file " ++ dquote ++ name ++ dquote ++ " for target "
             ++ dquote ++ target ++ dquote ++ " in project " ++ dquote ++ project ++ dquote
             ++ "." ++ nl ++ "        " ++ nl
             ++ "Please provide the 'downloadPath' parameter as an absolute directory path (e.g., /Users/username/Downloads) where I should download the file. This directory must exist and be writable:" in
           mret (mkEnvelope [downloadPathPrompt] None (TurnAction "prompt-for-info" args))
       end)
    (fun error => mret (textError ("Failed to download traffic file: " ++ message error))).

(** [turnAction.onResponse], applied to the path that answers the prompt. *)
Definition onResponse (svc : TrafficService) (closure : TrafficArgs)
    (downloadPath : string) : M Envelope :=
  tryCatch
    (downloadInto svc closure true downloadPath)
    (fun error =>
       consoleError ("Error in download-traffic callback: " ++ message error);;
       mret (textError ("Failed to download traffic file: " ++ message error))).

(** The first phase of the prompting [discover-api] registration: it asks
    for the project directory and hands the arguments back as state. *)
Definition discover_api_prompt (args : DiscoverArgs) : M Envelope :=
  tryCatch
    (mret (mkEnvelope
       ["Before I start the API discovery process, I need to confirm your project directory."
        ++ nl ++ nl ++ "Please provide the absolute path to your project directory. " ++ nl
        ++ "For example: " ++ dquote ++ "/Users/username/projects/my-api-project" ++ dquote
        ++ nl ++ nl
        ++ "This will help me correctly resolve relative paths in your codebase."]
       (Some false)
       (PromptResponse "discover-api-with-path" args)))
    (fun error => mret (textError ("Failed to start API discovery: " ++ message error))).

Record DiscoverWithPathArgs : Type := mkDiscoverWithPathArgs {
  dw_project_path : option string;
  dw_args : DiscoverArgs;
  dw_state : option DiscoverArgs
}.

Definition discoverOptionsOf (lang : Service.LangArg) (output : string) (verbose : option bool)
    (a : DiscoverArgs) : Service.DiscoverOptions :=
  Service.mkDiscoverOptions lang (di_target a) (di_target_id a) (di_project a)
    (di_project_id a) output (di_exclude a) (di_version a) (di_no_upload a)
    (di_dump_code a) verbose.

(** The handler of [discover-api-with-path], the second phase. *)
Definition discover_api_with_path (args : DiscoverWithPathArgs) : M Envelope :=
  tryCatch
    (let project_path := dw_project_path args in
     tok ← getToken;
     if negb (truthyS tok) then mret notAuthenticated
     else
       (* state.source_paths ? state : args *)
       let finalArgs :=
         match dw_state args with
         | Some state => match di_source_paths state with
                         | Some _ => state
                         | None => dw_args args
                         end
         | None => dw_args args
         end in
       if missingList (di_source_paths finalArgs)
       then mret (textError "Source paths are required. Please specify at least one path to analyze (e.g., '/path/to/code').")
       else if negb (truthyS (di_lang finalArgs))
       then mret (textError "Programming language is required. Please specify the 'lang' parameter with one of: csharp, go, java, js, python, ruby.")
       else if negb (truthyS (di_output finalArgs))
       then mret (textError "Output file path is required. Please specify where to save the OpenAPI specification (e.g., 'output': './openapi-spec.yml').")
       else if negb (truthyS project_path)
       then mret (textError "Project path is required. Please provide the absolute path to your project directory.")
       else
         let workspacePath := default "" project_path in
         let source_paths := default [] (di_source_paths finalArgs) in
         let lang := default "" (di_lang finalArgs) in
         cwd ← ask env_cwd;
         consoleError ("User-provided project path: " ++ workspacePath);;
         consoleError ("Current working directory: " ++ cwd);;
         tryCatch
           (shown ← ask (fun env => JSON_stringify env (JArr (map JStr source_paths)));
            consoleError ("Starting API discovery with source_paths: " ++ shown);;
            result ← Service.discoverApi source_paths
                       (discoverOptionsOf (Service.OneLang lang)
                          (default "" (di_output finalArgs)) (Some false) finalArgs)
                       (default FText (di_format finalArgs)) workspacePath;
            mret (textOk result))
           (fun error =>
              consoleError ("Error discovering API endpoints: " ++ message error);;
              if includes (message error) "lang"
              then mret (textError "Language error: Please specify a valid language with 'lang'. Valid options are: csharp, go, java, js, python, ruby.")
              else if (includes (message error) "read-only file system"
                       || includes (message error) "permission denied"
                       || includes (message error) "file system error")%bool
              then mret (textError
                     (message error ++ nl ++ nl
                      ++ "This is likely due to permissions issues. The server will try to write the output file to a writable location."
                      ++ nl ++ nl ++ "Using project path: " ++ workspacePath ++ nl
                      ++ "The current working directory is: " ++ cwd ++ nl ++ nl
                      ++ "You can try again with:" ++ nl
                      ++ "1. A different output location where you have write permissions"
                      ++ nl ++ "2. A different project path with correct permissions"
                      ++ nl ++ "3. Using a relative path like " ++ dquote
                      ++ "./output.yml" ++ dquote
                      ++ " which will be converted to an absolute path"))
              else if (includes (message error) "0 paths discovered"
                       || includes (message error) "No API endpoints found")%bool
              then
                let displayPaths :=
                  join ", " (map (fun p => dquote ++ p ++ dquote) source_paths) in
                mret (textError
                  ("No API endpoints found in " ++ displayPaths ++ " using language "
                   ++ lang ++ "." ++ nl ++ nl ++ "Using project path: "
                   ++ workspacePath ++ nl ++ "Current working directory: " ++ cwd ++ nl
                   ++ nl
                   ++ "Try analyzing more specific subdirectories where API code is likely located:"
                   ++ nl ++ "- For JS: Look in " ++ dquote ++ "src/routes" ++ dquote
                   ++ ", " ++ dquote ++ "src/controllers" ++ dquote ++ ", " ++ dquote
                   ++ "api" ++ dquote ++ " " ++ nl ++ "- For Java: Look in " ++ dquote
                   ++ "src/main/java/.../controllers" ++ dquote ++ " or " ++ dquote
                   ++ "src/main/java/.../resources" ++ dquote ++ nl
                   ++ "- For Python: Look in " ++ dquote ++ "app/routes" ++ dquote
                   ++ ", " ++ dquote ++ "api" ++ dquote ++ ", " ++ dquote ++ "views"
                   ++ dquote ++ nl ++ nl
                   ++ "Both relative and absolute paths are supported. " ++ nl
                   ++ "Examples:" ++ nl ++ "- Relative: " ++ dquote
                   ++ "./src/controllers" ++ dquote ++ " (relative to "
                   ++ workspacePath ++ ")" ++ nl ++ "- Absolute: " ++ dquote
                   ++ Path.resolve cwd workspacePath "src/controllers" ++ dquote ++ nl
                   ++ nl ++ "Make sure the language parameter (" ++ lang
                   ++ ") matches your codebase."))
              else if includes (message error) "maxBuffer"
              then mret (textError
                     ("The API discovery output was too large to process." ++ nl ++ nl
                      ++ "Please try:" ++ nl
                      ++ "1. Analyzing smaller, more specific directories" ++ nl
                      ++ "2. Using the 'exclude' parameter to filter files (e.g., "
                      ++ dquote ++ "exclude" ++ dquote ++ ": " ++ dquote
                      ++ "node_modules/*,*.test.js" ++ dquote ++ ")" ++ nl
                      ++ "3. Turning off verbose mode" ++ nl
                      ++ "4. Analyzing one directory at a time"))
              else mret (textError ("Failed to discover API endpoints: " ++ message error))))
    (fun error => mret (textError ("Failed to discover API endpoints: " ++ message error))).

Definition supportedLanguages : list string :=
  ["csharp"; "go"; "java"; "js"; "python"; "ruby"].

(** The first language of the list that is not supported, if any. *)
Definition unsupported (languages : list string) : option string :=
  head (List.filter (fun l => negb (bool_decide (l ∈ supportedLanguages))) languages).

(** The handler of the direct [discover-api] registration. *)
Definition discover_api (args : DiscoverArgs) : M Envelope :=
  tryCatch
    (tok ← getToken;
     if negb (truthyS tok) then mret notAuthenticated
     else if negb (truthyS (di_output args))
     then mret (textError "Output file path is required. Please specify where to save the API specification.")
     else
       let output := default "" (di_output args) in
       cwd ← ask env_cwd;
       let effectiveSourcePaths :=
         match di_source_paths args with
         | Some (p :: ps) => p :: ps
         | _ => [cwd]
         end in
       match di_langs args with
       | None | Some (Service.OneLang EmptyString) =>
           mret (textError
             ("No languages specified. You should analyze the source code to determine the appropriate language(s)."
              ++ nl ++ nl ++ "Supported languages are: csharp, go, java, js, python, ruby."
              ++ nl ++ nl
              ++ "Please analyze the file extensions and code patterns in the source paths to identify the language, then call this tool again with the appropriate 'langs' parameter as an array."))
       | Some langs =>
           let languages := match langs with
                            | Service.OneLang l => [l]
                            | Service.ManyLangs ls => ls
                            end in
           match unsupported languages with
           | Some language =>
               mret (textError ("Unsupported language: " ++ language
                                ++ ". Supported languages are: "
                                ++ join ", " supportedLanguages))
           | None =>
               let projectPath := cwd in
               tryCatch
                 (result ← Service.discoverApi effectiveSourcePaths
                             (discoverOptionsOf langs output (di_verbose args) args)
                             FText projectPath;
                  match langs with
                  | Service.ManyLangs (l1 :: l2 :: more) =>
                      let outputDir :=
                        if (Path.parseDir output =? "") then "." else Path.parseDir output in
                      let expectedFiles :=
                        map (fun lang => outputDir ++ "/openapi-crapi-discovered_" ++ lang ++ "$1")
                            (l1 :: l2 :: more) in
                      let renameInstructions :=
                        join nl (map (fun file => "mv " ++ dquote ++ file ++ dquote ++ " "
                                                  ++ dquote ++ file ++ ".yml" ++ dquote)
                                     expectedFiles) in
                      mret (textOk
                        (result ++ nl ++ nl
                         ++ "Multiple languages detected. You'll need to manually add .yml extensions to the generated files."
                         ++ nl ++ "Expected files:" ++ nl ++ join nl expectedFiles ++ nl ++ nl
                         ++ "Suggested commands to add extensions:" ++ nl ++ renameInstructions))
                  | _ => mret (textOk result)
                  end)
                 (fun apiError =>
                    mret (textError ("Error discovering API endpoints: " ++ message apiError)))
           end
       end)
    (fun error =>
       consoleError ("Error in discover-api tool: " ++ errorToString error);;
       mret (textError ("Error discovering API endpoints: " ++ message error))).

(** ** The registry

    One constructor per registration of the sources.  [discover-api] is
    registered in two forms: a prompting first phase, completed by
    [discover-api-with-path], and a direct form. *)
Inductive ToolCall : Type :=
| Authenticate (args : AuthenticateArgs)
| ListTargets (args : ListTargetsArgs)
| GetTargetDetails (args : GetTargetDetailsArgs)
| CreateTarget (args : CreateTargetArgs)
| DeleteTarget (args : DeleteTargetArgs)
| StartScan (args : StartScanArgs)
| ListScans (args : ListScansArgs)
| GetScanStatus (args : GetScanStatusArgs)
| GetScanChecks (args : GetScanChecksArgs)
| GetScanPaths (args : GetScanPathsArgs)
| DiscoverApiPrompt (args : DiscoverArgs)
| DiscoverApiWithPath (args : DiscoverWithPathArgs)
| DiscoverApi (args : DiscoverArgs)
| CreateNucleiTemplate (args : CreateNucleiTemplateArgs)
| UploadNucleiTemplate (args : UploadNucleiTemplateArgs)
| ListNucleiTemplates (args : ListNucleiTemplatesArgs)
| ListProjects (args : ListProjectsArgs)
| GetProjectDetails (args : GetProjectDetailsArgs)
| RecordTraffic (args : TrafficArgs)
| ListTraffic (args : TrafficArgs)
| DownloadTraffic (args : TrafficArgs).

(** The name under which the tool of a call is registered. *)
Definition toolName (call : ToolCall) : string :=
  match call with
  | Authenticate _ => "authenticate"
  | ListTargets _ => "list-targets"
  | GetTargetDetails _ => "get-target-details"
  | CreateTarget _ => "create-target"
  | DeleteTarget _ => "delete-target"
  | StartScan _ => "start-scan"
  | ListScans _ => "list-scans"
  | GetScanStatus _ => "get-scan-status"
  | GetScanChecks _ => "get-scan-checks"
  | GetScanPaths _ => "get-scan-paths"
  | DiscoverApiPrompt _ => "discover-api"
  | DiscoverApiWithPath _ => "discover-api-with-path"
  | DiscoverApi _ => "discover-api"
  | CreateNucleiTemplate _ => "create-nuclei-template"
  | UploadNucleiTemplate _ => "upload-nuclei-template"
  | ListNucleiTemplates _ => "list-nuclei-templates"
  | ListProjects _ => "list-projects"
  | GetProjectDetails _ => "get-project-details"
  | RecordTraffic _ => "record-traffic"
  | ListTraffic _ => "list-traffic"
  | DownloadTraffic _ => "download-traffic"
  end.

(** The handler that the server runs for a call. *)
Definition handle (svc : TrafficService) (call : ToolCall) : M Envelope :=
  match call with
  | Authenticate args => authenticate args
  | ListTargets args => list_targets args
  | GetTargetDetails args => get_target_details args
  | CreateTarget args => create_target args
  | DeleteTarget args => delete_target args
  | StartScan args => start_scan args
  | ListScans args => list_scans args
  | GetScanStatus args => get_scan_status args
  | GetScanChecks args => get_scan_checks args
  | GetScanPaths args => get_scan_paths args
  | DiscoverApiPrompt args => discover_api_prompt args
  | DiscoverApiWithPath args => discover_api_with_path args
  | DiscoverApi args => discover_api args
  | CreateNucleiTemplate args => create_nuclei_template args
  | UploadNucleiTemplate args => upload_nuclei_template args
  | ListNucleiTemplates args => list_nuclei_templates args
  | ListProjects args => list_projects args
  | GetProjectDetails args => get_project_details args
  | RecordTraffic args => record_traffic svc args
  | ListTraffic args => list_traffic svc args
  | DownloadTraffic args => download_traffic svc args
  end.

(** The calls whose handler opens with the credential check: all but
    [authenticate] and the prompting first phase of [discover-api]. *)
Definition guarded (call : ToolCall) : bool :=
  match call with
  | Authenticate _ | DiscoverApiPrompt _ => false
  | _ => true
  end.

End Tools.

(** ** The entry point ([index.ts], [core/server.ts]) *)

(** How the start-up ends: [process.exit(code)], or the server is left
    running. *)
Inductive Startup : Type :=
| Exited (code : Z)
| Serving.

(** The calls into the MCP SDK made at start-up.  They are defined outside
    the files embedded here, so the entry point takes them as parameters:
    the creation of the server with the registration of the tools on it,
    and [server.connect(transport)]. *)
Record Sdk : Type := mkSdk {
  registerTools : M unit;
  connect : M unit
}.

(** [connectServer] *)
Definition connectServer (sdk : Sdk) : M unit :=
  connect sdk;;
  consoleError "NightVision MCP Server running...".

(** [main] *)
Definition main (sdk : Sdk) : M Startup :=
  tryCatch
    (installed ← Service.isInstalled;
     if negb installed
     then
       consoleError "ERROR: NightVision CLI not found. Please install NightVision and make sure it's in your PATH.";;
       mret (Exited 1)
     else
       loaded ← TokenStore.loadToken;
       (if truthyS loaded
        then
          setToken loaded;;
          consoleError ("Loaded authentication token: " ++ take 8 (default "" loaded) ++ "...");;
          verified ← Service.verifyProductionAuth;
          if negb verified
          then
            consoleError "WARNING: Your authentication token appears to be invalid or expired.";;
            consoleError ("If you encounter authentication issues, please run: nightvision login --api-url "
                          ++ CURRENT_API_URL)
          else consoleError "Successfully verified authentication."
        else
          consoleError "No authentication token found. You will need to authenticate to use the tools.";;
          consoleError ("Please run: nightvision login --api-url " ++ CURRENT_API_URL));;
       registerTools sdk;;
       connectServer sdk;;
       consoleError "NightVision MCP Server running...";;
       consoleError ("IMPORTANT: This server connects to the NightVision API at "
                     ++ CURRENT_API_URL);;
       mret Serving)
    (fun error =>
       consoleError ("Failed to start MCP server: " ++ message error);;
       mret (Exited 1)).

(* ================================================================== *)
(** * 8. Sample surroundings and auxiliary notions                     *)
(* ================================================================== *)

(** A quiet environment: every external call succeeds with empty output,
    the disk never fails, nothing parses as JSON. *)
Definition quietEnv : Env :=
  mkEnv (fun _ _ => ExecOk "" "")
        (fun _ _ => HttpOk (JObj []))
        (fun _ => None)
        (fun _ => true)
        (fun _ => true)
        (fun _ => Return "")
        "/tmp" "/home/user" "/work"
        (fun _ => Throw (NativeError "SyntaxError" "Unexpected end of JSON input"))
        (fun _ => "{}")
        (fun _ => "{}")
        (fun _ => "")
        (fun _ _ => false)
        (fun items => Return items).

(** The quiet environment with other answers of the HTTP API and of the
    child processes. *)
Definition envWith (exec : string -> ExecOutcome) (http : ApiRequest -> HttpOutcome) : Env :=
  mkEnv (fun _ command => exec command)
        (fun _ request => http request)
        (env_fsError quietEnv) (env_existsSync quietEnv) (env_writable quietEnv)
        (env_readFile quietEnv) (env_tmpdir quietEnv) (env_homedir quietEnv)
        (env_cwd quietEnv) (JSON_parse quietEnv) (JSON_stringify quietEnv)
        (JSON_stringify2 quietEnv) (js_toString quietEnv) (js_gt quietEnv)
        (js_sortNewestFirst quietEnv).

(** An API that answers every request with status 404 and a detail. *)
Definition notFoundEnv : Env :=
  envWith (fun _ => ExecOk "" "")
          (fun _ => HttpFail (AxiosError (Some 404%Z) (Some "Not found.")
                                "Request failed with status code 404")).

(** A command-line tool that prints a fresh token, and an API that rejects
    it with status 401. *)
Definition rejectingEnv : Env :=
  envWith (fun _ => ExecOk ("Token created:" ++ nl ++ "nvtok-0123456789abcdefghij" ++ nl) "")
          (fun _ => HttpFail (AxiosError (Some 401%Z) (Some "Invalid token.")
                                "Request failed with status code 401")).

(** A discovery of a Python code base that asks for its specification at
    the root of the file system. *)
Definition rootOutputOptions : Service.DiscoverOptions :=
  Service.mkDiscoverOptions (Service.OneLang "python") None None None None
    "/spec.yml" None None None None None.

(** A process that has just started: no token, no token file, nothing
    attempted, nothing scheduled. *)
Definition freshWorld : World := mkWorld None false None [] [] [].

(** Traffic operations that do nothing but return. *)
Definition idleTraffic : Tools.TrafficService :=
  Tools.mkTrafficService (fun _ _ _ _ _ => mret "") (fun _ _ _ => mret "")
                   (fun _ _ _ _ _ _ => mret "").

(** [c] does not occur in [s]. *)
Fixpoint freeOf (c : ascii) (s : string) : bool :=
  match s with
  | EmptyString => true
  | String a s' => (negb (Ascii.eqb a c) && freeOf c s')%bool
  end.

(** [s] holds a white-space character. *)
Fixpoint hasWhiteSpace (s : string) : bool :=
  match s with
  | EmptyString => false
  | String a s' => (isWhiteSpace a || hasWhiteSpace s')%bool
  end.

(** The lengths that decide the width of column [i]: that of its header
    [h] and those of its cells, a missing cell counting for nothing. *)
Definition columnLengths (h : string) (rows : list (list string)) (i : nat) : list nat :=
  String.length h :: map (fun r => Table.cellLength r i) rows.

(** [w] is the greatest element of [xs]. *)
Definition isMaximumOf (w : nat) (xs : list nat) : Prop :=
  w ∈ xs /\ forall x, x ∈ xs -> x <= w.

(** Two worlds that differ at most in what was written to the console. *)
Definition sameButConsole (w w' : World) : Prop :=
  token w' = token w /\ configDir w' = configDir w /\ tokenFile w' = tokenFile w
  /\ events w' = events w /\ timers w' = timers w.

(** Two worlds that differ at most in the calls attempted and in the
    console: the credential and the timer queue are the same. *)
Definition sameCredentialAndTimers (w w' : World) : Prop :=
  token w' = token w /\ configDir w' = configDir w /\ tokenFile w' = tokenFile w
  /\ timers w' = timers w.

(** From [w] to [w'], exactly the calls [calls] were attempted and lines
    were written to the console; nothing else changed. *)
Definition onlyLogged (w w' : World) (calls : list Event) : Prop :=
  events w' = (events w ++ calls)%list
  /\ (exists lines, console w' = (console w ++ lines)%list)
  /\ sameCredentialAndTimers w w'.

(** The absolute form of a source path of [discoverApi]. *)
Definition absolutePath (cwd workspacePath sourcePath : string) : string :=
  if negb (startsWith sourcePath "/")
  then Path.resolve cwd workspacePath sourcePath
  else sourcePath.

(** A text that is empty or ends with a slash: what precedes the last
    component of a path. *)
Definition slashEnded (pre : string) : Prop :=
  pre = "" \/ exists p0, pre = p0 ++ "/".

(** A computation that leaves the world as it found it. *)
Definition Stateless {A : Type} (m : M A) : Prop :=
  forall env w, snd (m env w) = w.

(** ** Further sample surroundings *)

(** A process that holds a credential and has it on disk. *)
Definition signedInWorld : World :=
  mkWorld (Some "nvtok-0123456789abcdefghij") true (Some "nvtok-0123456789abcdefghij")
    [] [] [].

(** A process that has just restarted: the credential is on disk, followed
    by a line feed, and not yet in the process. *)
Definition restartedWorld : World :=
  mkWorld None true (Some ("nvtok-0123456789abcdefghij" ++ nl)) [] [] [].

(** An API that knows the caller. *)
Definition acceptingEnv : Env :=
  envWith (fun _ => ExecOk "" "")
          (fun _ => HttpOk (JObj [("user", JObj [("id", JNum 7)])])).

(** An API that answers every request with a page of two projects. *)
Definition projectsEnv : Env :=
  envWith (fun _ => ExecOk "" "")
          (fun _ => HttpOk (JObj [("count", JNum 2);
                                  ("results", JArr [JObj [("name", JStr "main")];
                                                    JObj [("name", JStr "main-copy")]])])).

(** A machine without the command-line tool. *)
Definition failingCliEnv : Env :=
  envWith (fun _ => ExecFail "spawn nightvision ENOENT") (fun _ => HttpOk (JObj [])).

(** A command-line tool whose output parses as the description of a scan. *)
Definition scanStartedEnv : Env :=
  mkEnv (fun _ _ => ExecOk "{}" "")
        (env_http quietEnv) (env_fsError quietEnv) (env_existsSync quietEnv)
        (env_writable quietEnv) (env_readFile quietEnv) (env_tmpdir quietEnv)
        (env_homedir quietEnv) (env_cwd quietEnv)
        (fun _ => Return (JObj [("id", JStr "scan-1"); ("status", JStr "queued")]))
        (JSON_stringify quietEnv) (JSON_stringify2 quietEnv) (js_toString quietEnv)
        (js_gt quietEnv) (js_sortNewestFirst quietEnv).

(** A command-line tool whose output parses as a list of one target. *)
Definition targetsEnv : Env :=
  mkEnv (fun _ _ => ExecOk "[...]" "")
        (env_http quietEnv) (env_fsError quietEnv) (env_existsSync quietEnv)
        (env_writable quietEnv) (env_readFile quietEnv) (env_tmpdir quietEnv)
        (env_homedir quietEnv) (env_cwd quietEnv)
        (fun _ => Return (JArr [JObj [("name", JStr "shop"); ("project_name", JStr "main")]]))
        (JSON_stringify quietEnv) (JSON_stringify2 quietEnv) (js_toString quietEnv)
        (js_gt quietEnv) (js_sortNewestFirst quietEnv).

(** An SDK whose calls do nothing but return. *)
Definition idleSdk : Sdk := mkSdk (mret tt) (mret tt).

(** ** Further auxiliary notions *)

(** The login command that [createToken] runs first. *)
Definition loginCommand : string := "nightvision login --api-url " ++ CURRENT_API_URL.

(** The arguments of the token creation command. *)
Definition tokenCreateArgs (expiryDate : option string) : list string :=
  (["token"; "create"]
   ++ (if truthyS expiryDate then ["-d"; default "" expiryDate] else []))%list.

(** What [createToken] appends to the message of every error it throws. *)
Definition manualLogin : string :=
  nl ++ nl
  ++ "Please manually run the following command in your terminal to authenticate:"
  ++ nl ++ "nightvision login --api-url " ++ CURRENT_API_URL.

(** The headers that [apiRequest] sends. *)
Definition apiHeaders (tok : option string) (isFormData : bool) : list (string * string) :=
  ("Authorization", Service.authorization tok)
  :: (if isFormData then [] else [("Content-Type", "application/json")]).

(** The error that [apiRequest] throws when the HTTP client throws [e]. *)
Definition apiFailure (e : JsError) : JsError :=
  if isAxiosError e
  then PlainError ("API request failed (" ++ Service.showStatus (responseStatus e)
                   ++ "): " ++ Service.detailOrMessage e)
  else e.

(** The message of the error that [apiRequest] throws for an error response. *)
Definition apiMessage (st : option Z) (detail : option string) (msg : string) : string :=
  "API request failed (" ++ Service.showStatus st ++ "): " ++ orS detail msg.

(** The command with which the target handlers list every target. *)
Definition listAllTargets (tok : option string) : string :=
  Service.commandLine tok ["target"; "list"; "-a"] FJson false.

(** The calls that fail the argument check which follows the credential
    check of their handler. *)
Definition lacksRequiredArguments (call : Tools.ToolCall) : bool :=
  match call with
  | Tools.StartScan a => negb (truthyS (ss_project a)) && negb (truthyS (ss_project_id a))
  | Tools.GetScanStatus a => negb (truthyS (gs_scan_id a)) && negb (truthyS (gs_target_name a))
  | Tools.GetScanChecks a =>
      Tools.missingList (gc_severity a) || Tools.missingList (gc_status a)
  | Tools.GetScanPaths a => (gp_scan_id a =? "")
  | Tools.CreateNucleiTemplate a => Tools.blank (cn_name a) || Tools.blank (cn_project_id a)
  | Tools.GetProjectDetails a => Tools.blank (pd_name a)
  | Tools.CreateTarget a => negb (truthyS (cta_project a))
  | Tools.DiscoverApi a => negb (truthyS (di_output a))
  | _ => false
  end.

(** A computation that leaves the credential, in the process and on disk,
    as it found it. *)
Definition keepsCredential (m : M unit) : Prop :=
  forall env w, token (snd (m env w)) = token w /\ tokenFile (snd (m env w)) = tokenFile w.

(** Unfolding of the monad operations. *)
Ltac unfoldM :=
  unfold mbind, mret, M_bind, M_ret, bind, ret, throw, tryCatch, ask, lift,
         consoleError, getToken, setToken, execAsync, axios, setTimeout in *.

(** The opening of a guarded handler: inside its [try], the token is read
    and, when there is none, the handler returns at once. *)
Ltac credentialCheck Htok :=
  unfold tryCatch at 1; unfold mbind, M_bind; unfold bind at 1; unfold getToken at 1;
  cbv beta iota zeta; rewrite Htok; reflexivity.

(* ================================================================== *)
(** * 9. Properties of the string primitives                           *)
(* ================================================================== *)

(** The library leaves string concatenation folded; the proofs below
    compute with it. *)
#[local] Arguments String.append : simpl nomatch.

Section StringFacts.

Lemma length_app (a b : string) :
  String.length (a ++ b) = String.length a + String.length b.
Proof.
  induction a as [|c a IH]; simpl; [reflexivity | now rewrite IH].
Qed.

Lemma app_assoc_string (a b c : string) : (a ++ b) ++ c = a ++ (b ++ c).
Proof.
  induction a as [|x a IH]; simpl; [reflexivity | now rewrite IH].
Qed.

Lemma app_empty_r (a : string) : a ++ "" = a.
Proof.
  induction a as [|x a IH]; simpl; [reflexivity | now rewrite IH].
Qed.

Lemma length_repeat_char (c : ascii) (n : nat) :
  String.length (JsString.repeat (String c "") n) = n.
Proof.
  induction n as [|n IH]; simpl; [reflexivity | now rewrite IH].
Qed.

Lemma length_padEnd (s : string) (n : nat) :
  String.length s <= n -> String.length (padEnd s (Some n)) = n.
Proof.
  intros Hle. unfold padEnd.
  rewrite length_app, (length_repeat_char " "%char). lia.
Qed.

Lemma freeOf_app (c : ascii) (a b : string) :
  freeOf c (a ++ b) = (freeOf c a && freeOf c b)%bool.
Proof.
  induction a as [|x a IH]; simpl; [reflexivity|].
  rewrite IH. now rewrite andb_assoc.
Qed.

Lemma freeOf_repeat (c : ascii) (s : string) (n : nat) :
  freeOf c s = true -> freeOf c (JsString.repeat s n) = true.
Proof.
  intros Hs. induction n as [|n IH]; simpl; [reflexivity|].
  rewrite freeOf_app, Hs, IH. reflexivity.
Qed.

Lemma freeOf_padEnd (c : ascii) (s : string) (w : option nat) :
  freeOf c " " = true -> freeOf c s = true -> freeOf c (padEnd s w) = true.
Proof.
  intros Hsp Hs. destruct w as [n|]; simpl; [|exact Hs].
  rewrite freeOf_app, Hs. simpl. now apply freeOf_repeat.
Qed.

Lemma join_cons2 (sep x y : string) (l : list string) :
  join sep (x :: y :: l) = x ++ sep ++ join sep (y :: l).
Proof. reflexivity. Qed.

Lemma freeOf_join (c : ascii) (sep : string) (parts : list string) :
  freeOf c sep = true ->
  Forall (fun p => freeOf c p = true) parts ->
  freeOf c (join sep parts) = true.
Proof.
  intros Hsep Hparts. induction Hparts as [|x l Hx Hl IH]; [reflexivity|].
  destruct l as [|y l]; [exact Hx|].
  rewrite join_cons2, !freeOf_app, Hx, Hsep. exact IH.
Qed.

(** Splitting at a separator that the first piece does not hold. *)
Lemma split_app_free (c : ascii) (a b : string) :
  freeOf c a = true ->
  split c (a ++ String c b) = a :: split c b.
Proof.
  induction a as [|x a IH]; simpl; intros Hfree.
  - now rewrite Ascii.eqb_refl.
  - apply andb_true_iff in Hfree as [Hx Ha].
    apply negb_true_iff in Hx. rewrite Hx, (IH Ha). reflexivity.
Qed.

Lemma split_free (c : ascii) (a : string) :
  freeOf c a = true -> split c a = [a].
Proof.
  induction a as [|x a IH]; simpl; intros Hfree; [reflexivity|].
  apply andb_true_iff in Hfree as [Hx Ha].
  apply negb_true_iff in Hx. rewrite Hx, (IH Ha). reflexivity.
Qed.

(** Joining pieces by a character and splitting at it gives the pieces
    back, when no piece holds the character. *)
Lemma split_join (c : ascii) (x : string) (l : list string) :
  Forall (fun p => freeOf c p = true) (x :: l) ->
  split c (join (String c "") (x :: l)) = x :: l.
Proof.
  revert x. induction l as [|y l IH]; intros x Hall.
  - apply split_free. now inversion Hall.
  - inversion Hall as [|? ? Hx Hrest]; subst.
    rewrite join_cons2. simpl String.append.
    rewrite (split_app_free c x _ Hx). f_equal. now apply IH.
Qed.

End StringFacts.

(* ================================================================== *)
(** * 10. The table encoding                                           *)
(* ================================================================== *)

Section TableFacts.

Import Table.

Lemma lookup_colWidths (headers : list string) (rows : list (list string)) (i : nat) :
  colWidths headers rows !! i
  = (fun h => Nat.max (String.length h) (maxDataLength rows i)) <$> headers !! i.
Proof. unfold colWidths. apply list_lookup_imap. Qed.

Lemma maxDataLength_upper (rows : list (list string)) (i : nat) (r : list string) :
  r ∈ rows -> cellLength r i <= maxDataLength rows i.
Proof.
  unfold maxDataLength. induction rows as [|x rows IH]; intros Hin.
  - inversion Hin.
  - simpl. apply elem_of_cons in Hin as [->|Hin]; [lia|].
    specialize (IH Hin). lia.
Qed.

Lemma maxDataLength_attained (rows : list (list string)) (i : nat) :
  rows <> [] ->
  exists r, r ∈ rows /\ cellLength r i = maxDataLength rows i.
Proof.
  unfold maxDataLength. induction rows as [|x rows IH]; intros Hne; [congruence|].
  destruct rows as [|y rows].
  - exists x. split; [left|]. simpl. lia.
  - destruct IH as (r & Hr & Heq); [congruence|].
    change (foldr Nat.max 0 (map (fun r0 => cellLength r0 i) (x :: y :: rows)))
      with (Nat.max (cellLength x i)
              (foldr Nat.max 0 (map (fun r0 => cellLength r0 i) (y :: rows)))).
    destruct (Nat.max_spec (cellLength x i)
                (foldr Nat.max 0 (map (fun r0 => cellLength r0 i) (y :: rows))))
      as [[_ ->]|[_ ->]].
    + exists r. split; [now right | exact Heq].
    + exists x. split; [left | reflexivity].
Qed.

(** The width of a column is the greatest length found in it. *)
Lemma colWidth_isMaximum (h : string) (rows : list (list string)) (i : nat) :
  isMaximumOf (Nat.max (String.length h) (maxDataLength rows i)) (columnLengths h rows i).
Proof.
  unfold isMaximumOf, columnLengths. split.
  - destruct (Nat.max_spec (String.length h) (maxDataLength rows i)) as [[Hlt ->]|[_ ->]].
    + destruct rows as [|x rows]; [unfold maxDataLength in Hlt; simpl in Hlt; lia|].
      destruct (maxDataLength_attained (x :: rows) i) as (r & Hr & <-); [congruence|].
      right. apply list_elem_of_fmap. now exists r.
    + left.
  - intros x Hx. apply elem_of_cons in Hx as [->|Hx]; [lia|].
    apply list_elem_of_fmap in Hx as (r & -> & Hr).
    pose proof (maxDataLength_upper rows i r Hr). lia.
Qed.

Lemma lookup_headerCells (headers : list string) (rows : list (list string))
    (i : nat) (h : string) :
  headers !! i = Some h ->
  headerCells headers rows !! i
  = Some (padEnd h (Some (Nat.max (String.length h) (maxDataLength rows i)))).
Proof.
  intros Hh. unfold headerCells.
  rewrite list_lookup_imap, Hh. simpl. now rewrite lookup_colWidths, Hh.
Qed.

Lemma lookup_separatorCells (headers : list string) (rows : list (list string))
    (i : nat) (h : string) :
  headers !! i = Some h ->
  separatorCells headers rows !! i
  = Some (JsString.repeat "-" (Nat.max (String.length h) (maxDataLength rows i))).
Proof.
  intros Hh. unfold separatorCells.
  now rewrite list_lookup_fmap, lookup_colWidths, Hh.
Qed.

Lemma lookup_dataCells (widths : list nat) (row : list string) (i : nat) (cell : string) :
  row !! i = Some cell ->
  dataCells widths row !! i = Some (padEnd cell (widths !! i)).
Proof.
  intros Hc. unfold dataCells. now rewrite list_lookup_imap, Hc.
Qed.

Lemma Forall_imap_lookup {A B : Type} (P : B -> Prop) (f : nat -> A -> B) (l : list A) :
  (forall i x, l !! i = Some x -> P (f i x)) -> Forall P (imap f l).
Proof.
  intros H. apply Forall_lookup. intros i y Hy.
  rewrite list_lookup_imap in Hy.
  destruct (l !! i) as [x|] eqn:Hx; simpl in Hy; [|discriminate].
  injection Hy as <-. now apply H.
Qed.

(** No row string holds a line feed when no header and no cell does. *)
Lemma tableRows_free (headers : list string) (rows : list (list string)) :
  Forall (fun h => freeOf LF h = true) headers ->
  Forall (Forall (fun c => freeOf LF c = true)) rows ->
  Forall (fun row => freeOf LF row = true) (tableRows headers rows).
Proof.
  intros Hh Hr. unfold tableRows. repeat constructor.
  - unfold headerRow, headerCells. apply freeOf_join; [reflexivity|].
    apply Forall_imap_lookup. intros i x Hx.
    apply freeOf_padEnd; [reflexivity|].
    rewrite Forall_lookup in Hh. now apply (Hh i).
  - unfold separatorRow, separatorCells. apply freeOf_join; [reflexivity|].
    apply Forall_fmap, Forall_forall. intros w _. now apply freeOf_repeat.
  - unfold dataRows. apply Forall_fmap.
    eapply Forall_impl; [exact Hr|]. intros row Hrow. simpl.
    apply freeOf_join; [reflexivity|]. unfold dataCells.
    apply Forall_imap_lookup. intros i x Hx.
    apply freeOf_padEnd; [reflexivity|].
    rewrite Forall_lookup in Hrow. now apply (Hrow i).
Qed.

Lemma formatAsTable_nonempty (headers : list string) (rows : list (list string)) :
  headers <> [] -> rows <> [] ->
  formatAsTable headers rows = join nl (tableRows headers rows).
Proof.
  intros Hh Hr. unfold formatAsTable.
  destruct headers; [congruence|]. destruct rows; [congruence|]. reflexivity.
Qed.

Lemma length_tableRows (headers : list string) (rows : list (list string)) :
  length (tableRows headers rows) = length rows + 2.
Proof. unfold tableRows, dataRows. simpl. rewrite length_map. lia. Qed.

(** The length of a joined text: the pieces and one separator per gap. *)
Lemma length_join (sep : string) (parts : list string) :
  String.length (join sep parts)
  = sum_list (String.length <$> parts) + String.length sep * (length parts - 1).
Proof.
  induction parts as [|x parts IH]; [simpl; lia|].
  destruct parts as [|y parts]; [simpl; lia|].
  rewrite join_cons2, !length_app, IH. simpl. lia.
Qed.

(** Padding the cells of a full row to the widths gives cells of exactly
    these lengths, when no cell is longer than its width. *)
Lemma lengths_padded (widths : list nat) (cells : list string) :
  length cells = length widths ->
  (forall i c w, cells !! i = Some c -> widths !! i = Some w -> String.length c <= w) ->
  String.length <$> imap (fun i c => padEnd c (widths !! i)) cells = widths.
Proof.
  intros Hlen Hle. apply list_eq. intros i.
  rewrite list_lookup_fmap, list_lookup_imap.
  destruct (cells !! i) as [c|] eqn:Hc; simpl.
  - destruct (widths !! i) as [w|] eqn:Hw.
    + simpl. f_equal. apply length_padEnd. exact (Hle i c w Hc Hw).
    + apply lookup_lt_Some in Hc. apply lookup_ge_None in Hw. lia.
  - symmetry. apply lookup_ge_None. apply lookup_ge_None in Hc. lia.
Qed.

Lemma lengths_dashes (widths : list nat) :
  String.length <$> map (JsString.repeat "-") widths = widths.
Proof.
  induction widths as [|w widths IH]; [reflexivity|].
  simpl. f_equal; [apply (length_repeat_char "-"%char) | exact IH].
Qed.

Lemma length_colWidths (headers : list string) (rows : list (list string)) :
  length (colWidths headers rows) = length headers.
Proof. unfold colWidths. apply length_imap. Qed.

End TableFacts.

(** Claim C6, as amended.  When there is at least one header and at least
    one row, there is one width per header such that the output of
    [formatAsTable] is the join by line feeds of exactly N+2 row strings:
    the header line (every header padded with spaces to the width of its
    column, joined by " | "), the separator line (one run of dashes per
    width, joined by "-+-") and, for every row, its cells padded in the
    same way and joined by " | "; these are exactly the lines of the output
    when no header and no cell holds a line feed.  For every column, the
    width is the greatest string length among the column's header and its N
    cells (a row without the cell counting for length 0), and the padded
    header, the run of dashes and every padded cell of the column, as they
    stand in these lines, have exactly that length.  When every row has one
    cell per header, all N+2 lines have one length: the sum of the widths
    and three characters per gap between columns. *)
Theorem formatAsTable_shape_nonempty (headers : list string) (rows : list (list string)) :
  headers <> [] -> rows <> [] ->
  exists widths : list nat,
    let headerLine := join " | " (imap (fun i h => padEnd h (widths !! i)) headers) in
    let separatorLine := join "-+-" (map (JsString.repeat "-") widths) in
    let dataLine := fun row : list string =>
                      join " | " (imap (fun i cell => padEnd cell (widths !! i)) row) in
    let rendered := headerLine :: separatorLine :: map dataLine rows in
    length widths = length headers
    /\ Table.formatAsTable headers rows = join nl rendered
    /\ length rendered = length rows + 2
    /\ (Forall (fun h => freeOf LF h = true) headers ->
        Forall (Forall (fun c => freeOf LF c = true)) rows ->
        lines (Table.formatAsTable headers rows) = rendered
        /\ length (lines (Table.formatAsTable headers rows)) = length rows + 2)
    /\ (forall i h, headers !! i = Some h ->
          exists w,
            widths !! i = Some w
            /\ isMaximumOf w (columnLengths h rows i)
            /\ String.length (padEnd h (widths !! i)) = w
            /\ String.length (JsString.repeat "-" w) = w
            /\ (forall row cell, row ∈ rows -> row !! i = Some cell ->
                  String.length (padEnd cell (widths !! i)) = w))
    /\ (Forall (fun row => length row = length headers) rows ->
        Forall (fun line => String.length line
                            = sum_list widths + 3 * (length headers - 1)) rendered).
Proof.
  intros Hh Hr. exists (Table.colWidths headers rows). cbv zeta.
  assert (Hout : Table.formatAsTable headers rows
                 = join nl (Table.tableRows headers rows))
    by now apply formatAsTable_nonempty.
  change (join " | " (imap (fun i h => padEnd h (Table.colWidths headers rows !! i)) headers)
          :: join "-+-" (map (JsString.repeat "-") (Table.colWidths headers rows))
          :: map (fun row : list string =>
                    join " | " (imap (fun i cell =>
                       padEnd cell (Table.colWidths headers rows !! i)) row)) rows)
    with (Table.tableRows headers rows).
  split; [apply length_colWidths|].
  split; [exact Hout|].
  split; [apply length_tableRows|].
  split; [|split].
  - intros Fh Fr.
    assert (Hlines : lines (Table.formatAsTable headers rows) = Table.tableRows headers rows).
    { rewrite Hout. unfold lines, nl, Table.tableRows. apply split_join.
      now apply tableRows_free. }
    split; [exact Hlines|]. rewrite Hlines. apply length_tableRows.
  - intros i h Hi.
    exists (Nat.max (String.length h) (Table.maxDataLength rows i)).
    rewrite lookup_colWidths, Hi. simpl.
    split; [reflexivity|].
    split; [apply colWidth_isMaximum|].
    split; [apply length_padEnd; lia|].
    split; [apply (length_repeat_char "-"%char)|].
    intros row cell Hrow Hcell. apply length_padEnd.
    pose proof (maxDataLength_upper rows i row Hrow) as Hup.
    unfold Table.cellLength in Hup. rewrite Hcell in Hup. lia.
  - intros Hfull.
    assert (Hgap : forall cells : list string,
               length cells = length headers ->
               sum_list (Table.colWidths headers rows)
               + String.length " | " * (length cells - 1)
               = sum_list (Table.colWidths headers rows) + 3 * (length headers - 1)).
    { intros cells ->. reflexivity. }
    unfold Table.tableRows. repeat constructor.
    + unfold Table.headerRow, Table.headerCells.
      rewrite length_join, length_imap, lengths_padded.
      * now apply Hgap.
      * now rewrite length_colWidths.
      * intros i c w Hc Hw. rewrite lookup_colWidths, Hc in Hw.
        injection Hw as <-. lia.
    + unfold Table.separatorRow, Table.separatorCells.
      rewrite length_join, length_map, lengths_dashes, length_colWidths. reflexivity.
    + unfold Table.dataRows. apply Forall_fmap, Forall_forall.
      intros row Hrow. simpl.
      assert (Hlen : length row = length headers)
        by (rewrite Forall_forall in Hfull; now apply Hfull).
      unfold Table.dataCells.
      rewrite length_join, length_imap, lengths_padded.
      * now apply Hgap.
      * now rewrite length_colWidths.
      * intros i c w Hc Hw.
        destruct (headers !! i) as [h|] eqn:Hi;
          rewrite lookup_colWidths, Hi in Hw; [|discriminate].
        injection Hw as <-.
        pose proof (maxDataLength_upper rows i row Hrow) as Hup.
        unfold Table.cellLength in Hup. rewrite Hc in Hup. lia.
Qed.

(** The shape theorem at a two-column table of one row. *)
Lemma formatAsTable_shape_nonempty_witness :
  ["#"; "Kind"] <> [] /\ [["1"; "xss"]] <> []
  /\ exists widths : list nat,
       length widths = 2
       /\ Table.formatAsTable ["#"; "Kind"] [["1"; "xss"]]
          = join nl [join " | " (imap (fun i h => padEnd h (widths !! i)) ["#"; "Kind"]);
                     join "-+-" (map (JsString.repeat "-") widths);
                     join " | " (imap (fun i cell => padEnd cell (widths !! i)) ["1"; "xss"])].
Proof.
  split; [discriminate|]. split; [discriminate|].
  destruct (formatAsTable_shape_nonempty ["#"; "Kind"] [["1"; "xss"]])
    as (widths & Hlen & Hout & _); [discriminate | discriminate |].
  exists widths. split; [exact Hlen | exact Hout].
Defined.

(** Claim C6 as stated fails on a result set without rows: for N = 0 the
    output has one line, not N+2 = 2. *)
Lemma formatAsTable_no_rows_one_line :
  length (lines (Table.formatAsTable ["ID"; "Name"] []))
  <> length (@nil (list string)) + 2.
Proof. vm_compute. discriminate. Qed.

(** Claim C10.  When the header list is empty or the row list is empty,
    [formatAsTable] returns exactly the text "No data to display", a single
    line, instead of a header line and a separator line. *)
Theorem formatAsTable_no_data (headers : list string) (rows : list (list string)) :
  headers = [] \/ rows = [] ->
  Table.formatAsTable headers rows = "No data to display"
  /\ lines (Table.formatAsTable headers rows) = ["No data to display"].
Proof.
  intros Hempty.
  assert (H : Table.formatAsTable headers rows = "No data to display").
  { unfold Table.formatAsTable. destruct Hempty as [-> | ->]; [reflexivity|].
    destruct headers; reflexivity. }
  rewrite H. split; reflexivity.
Qed.

(** The no-data theorem at a table with headers and no rows. *)
Lemma formatAsTable_no_data_witness :
  (["ID"; "Name"] = [] \/ @nil (list string) = [])
  /\ Table.formatAsTable ["ID"; "Name"] [] = "No data to display".
Proof.
  split; [right; reflexivity|].
  apply (formatAsTable_no_data ["ID"; "Name"] []). right. reflexivity.
Defined.

(* ================================================================== *)
(** * 11. Reasoning about effectful code                               *)
(* ================================================================== *)

Section Effects.

(** One step of a sequence. *)
Lemma run_bind {A B : Type} (m : M A) (k : A -> M B) (env : Env) (w : World) :
  (m ≫= k) env w
  = match m env w with
    | (Return a, w') => k a env w'
    | (Throw e, w') => (Throw e, w')
    end.
Proof. reflexivity. Qed.


Lemma Stateless_ret {A : Type} (a : A) : Stateless (mret a : M A).
Proof. intros env w. reflexivity. Qed.

Lemma Stateless_throw {A : Type} (e : JsError) : Stateless (throw e : M A).
Proof. intros env w. reflexivity. Qed.

Lemma Stateless_ask {A : Type} (f : Env -> A) : Stateless (ask f).
Proof. intros env w. reflexivity. Qed.

Lemma Stateless_lift {A : Type} (f : Env -> Completion A) : Stateless (lift f).
Proof. intros env w. reflexivity. Qed.

Lemma Stateless_bind {A B : Type} (m : M A) (k : A -> M B) :
  Stateless m -> (forall a, Stateless (k a)) -> Stateless (m ≫= k).
Proof.
  intros Hm Hk env w. unfoldM. specialize (Hm env w).
  destruct (m env w) as [[a|e] w']; simpl in *; subst; [apply Hk | reflexivity].
Qed.

Lemma Stateless_member (v : Json) (k : string) : Stateless (member v k).
Proof. intros env w. destruct v; reflexivity. Qed.

Lemma Stateless_toStr (v : Json) : Stateless (toStr v).
Proof. apply Stateless_ask. Qed.

Lemma Stateless_fieldOr (v : Json) (k d : string) : Stateless (Service.fieldOr v k d).
Proof.
  apply Stateless_bind; [apply Stateless_member | intros; apply Stateless_toStr].
Qed.

Lemma Stateless_arrayOf (v : Json) (method : string) : Stateless (Service.arrayOf v method).
Proof. intros env w. destruct v; reflexivity. Qed.

Lemma Stateless_forEach {A B : Type} (f : A -> M B) (xs : list A) :
  (forall x, Stateless (f x)) -> Stateless (forEach f xs).
Proof.
  intros Hf. induction xs as [|x xs IH]; simpl; [apply Stateless_ret|].
  apply Stateless_bind; [apply Hf|]. intros y.
  apply Stateless_bind; [exact IH|]. intros ys. apply Stateless_ret.
Qed.

(** The external call made by [executeCommand]: exactly one subprocess,
    with the command line built from the arguments. *)
Lemma executeCommand_events (env : Env) (w : World) (args : list string)
    (format : OutputFormat) (skip : bool) :
  events (snd (Service.executeCommand args format skip env w))
  = (events w ++ [EvExec (Service.commandLine (token w) args format skip)])%list.
Proof.
  unfold Service.executeCommand. unfoldM. simpl.
  destruct (env_exec env _ _) as [out err|m]; simpl; [|reflexivity].
  destruct (Service.nonBlank err); simpl;
    destruct (Service.isSwaggerExtract args); simpl; reflexivity.
Qed.

End Effects.

(* ================================================================== *)
(** * 12. The command line of [executeCommand]                         *)
(* ================================================================== *)

(** Claim C7, as amended.  In the command line that [executeCommand] hands
    to the shell (words joined by single spaces, the program name first),
    the word of every argument is the argument wrapped in double quotes when
    the argument holds a space character (U+0020), and the argument itself,
    unquoted, when it holds none. *)
Theorem executeCommand_quotes_spaces (env : Env) (w : World) (args : list string)
    (format : OutputFormat) (skip : bool) (i : nat) (arg : string) :
  args !! i = Some arg ->
  exists words,
    events (snd (Service.executeCommand args format skip env w))
    = (events w ++ [EvExec (join " " words)])%list
    /\ words !! S i = Some (if includes arg " " then dquote ++ arg ++ dquote else arg).
Proof.
  intros Harg. exists (Service.commandWords (token w) args format skip). split.
  - apply executeCommand_events.
  - unfold Service.commandWords. simpl.
    rewrite list_lookup_fmap. unfold Service.commandArgs.
    rewrite lookup_app_l by (eapply lookup_lt_Some; exact Harg).
    rewrite Harg. reflexivity.
Qed.

(** The quoting theorem at the second argument of a target listing. *)
Lemma executeCommand_quotes_spaces_witness :
  ["target"; "my project"] !! 1 = Some "my project"
  /\ exists words,
       events (snd (Service.executeCommand ["target"; "my project"] FJson false
                      quietEnv freshWorld))
       = ([] ++ [EvExec (join " " words)])%list
       /\ words !! 2 = Some (dquote ++ "my project" ++ dquote).
Proof.
  split; [reflexivity|].
  apply (executeCommand_quotes_spaces quietEnv freshWorld ["target"; "my project"]
           FJson false 1 "my project").
  reflexivity.
Defined.

(** Claim C7 as stated fails on white space other than the space character:
    an argument that holds a tab reaches the command line unquoted. *)
Lemma executeCommand_tab_unquoted :
  hasWhiteSpace ("a" ++ tab ++ "b") = true
  /\ events (snd (Service.executeCommand ["target"; "a" ++ tab ++ "b"] FText false
                    quietEnv freshWorld))
     = [EvExec ("nightvision target a" ++ tab
                ++ "b -F text --api-url https://api.nightvision.net/api/v1/")]
  /\ Service.commandWords None ["target"; "a" ++ tab ++ "b"] FText false !! 2
     <> Some (dquote ++ ("a" ++ tab ++ "b") ++ dquote).
Proof.
  split; [reflexivity|]. split; [reflexivity|]. vm_compute. discriminate.
Qed.

(* ================================================================== *)
(** * 13. The persisted credential                                     *)
(* ================================================================== *)

(** Claim C3, as amended.  When the operations on the token file succeed,
    [saveToken t] followed by [loadToken] returns [t] with its leading and
    trailing white space removed, hence exactly [t] when [t] has none;
    [clearToken] followed by [loadToken] returns null. *)
Theorem token_round_trip (env : Env) (w : World) (t : string) :
  env_fsError env OpMkdir = None ->
  env_fsError env OpWrite = None ->
  env_fsError env OpRead = None ->
  env_fsError env OpUnlink = None ->
  fst (TokenStore.loadToken env (snd (TokenStore.saveToken t env w)))
  = Return (Some (trim t))
  /\ (trim t = t ->
      fst (TokenStore.loadToken env (snd (TokenStore.saveToken t env w)))
      = Return (Some t))
  /\ fst (TokenStore.loadToken env (snd (TokenStore.clearToken env w))) = Return None.
Proof.
  intros Hmk Hwr Hrd Hun.
  assert (Hsave : fst (TokenStore.loadToken env (snd (TokenStore.saveToken t env w)))
                  = Return (Some (trim t))).
  { unfold TokenStore.loadToken, TokenStore.saveToken, TokenStore.configDirExists,
      TokenStore.tokenFileExists, TokenStore.readTokenFile, TokenStore.fsDo.
    unfoldM. simpl. destruct (configDir w); simpl; rewrite ?Hmk; simpl;
      rewrite Hwr; simpl; rewrite Hrd; reflexivity. }
  split; [exact Hsave|]. split; [intros Ht; rewrite Hsave, Ht; reflexivity|].
  unfold TokenStore.loadToken, TokenStore.clearToken, TokenStore.tokenFileExists,
    TokenStore.readTokenFile, TokenStore.fsDo.
  unfoldM. simpl. destruct (tokenFile w) as [old|] eqn:Hfile; simpl.
  - rewrite Hun. simpl. reflexivity.
  - rewrite Hfile. reflexivity.
Qed.

(** The round trip at a token without surrounding white space, on a disk
    that never fails. *)
Lemma token_round_trip_witness :
  env_fsError quietEnv OpMkdir = None
  /\ env_fsError quietEnv OpWrite = None
  /\ env_fsError quietEnv OpRead = None
  /\ env_fsError quietEnv OpUnlink = None
  /\ fst (TokenStore.loadToken quietEnv
            (snd (TokenStore.saveToken "nv-0123456789abcdef" quietEnv freshWorld)))
     = Return (Some (trim "nv-0123456789abcdef")).
Proof.
  repeat (split; [reflexivity|]).
  apply (token_round_trip quietEnv freshWorld "nv-0123456789abcdef"); reflexivity.
Defined.

(** Claim C3 as stated fails on a token with surrounding white space:
    what is loaded is the trimmed token, not the identical string. *)
Lemma token_round_trip_trims :
  fst (TokenStore.loadToken quietEnv
         (snd (TokenStore.saveToken " secret-token " quietEnv freshWorld)))
  <> Return (Some " secret-token ").
Proof. vm_compute. discriminate. Qed.

(* ================================================================== *)
(** * 14. The requests of the scan operations                          *)
(* ================================================================== *)

Section Requests.

Import Service.

Lemma lookup_setIf_ne (c : bool) (k k' : string) (v : Json) (m : gmap string Json) :
  k <> k' -> setIf c k v m !! k' = m !! k'.
Proof.
  intros Hne. unfold setIf. destruct c; [|reflexivity]. now apply lookup_insert_ne.
Qed.

(** The external call made by [apiRequest]: exactly one HTTP request, to
    the base URL followed by the endpoint, with the given parameters. *)
Lemma apiRequest_events (env : Env) (w : World) (endpoint : string) (method : HttpMethod)
    (params : gmap string Json) (data : Body) (isFormData : bool) :
  exists headers,
    events (snd (apiRequest endpoint method params data isFormData env w))
    = (events w
       ++ [EvHttp (mkApiRequest method (CURRENT_API_URL ++ endpoint) headers params data)])%list.
Proof.
  unfold apiRequest, getApiHeaders, getApiBaseUrl. unfoldM.
  destruct isFormData; simpl; eexists;
    (destruct (env_http env _ _) as [d|e]; simpl;
     [reflexivity | destruct (isAxiosError e); reflexivity]).
Qed.

Lemma Stateless_formatChecksAsText (checks : Json) : Stateless (formatChecksAsText checks).
Proof.
  unfold formatChecksAsText. destruct (resultsOf checks); [|apply Stateless_ret].
  apply Stateless_bind.
  - apply Stateless_forEach. intros [n check].
    repeat (apply Stateless_bind; [apply Stateless_fieldOr | intros ?]).
    apply Stateless_ret.
  - intros blocks. apply Stateless_bind; [apply Stateless_ask | intros more].
    apply Stateless_bind; [apply Stateless_toStr | intros count]. apply Stateless_ret.
Qed.

Lemma Stateless_formatChecksAsTable (checks : Json) : Stateless (formatChecksAsTable checks).
Proof.
  unfold formatChecksAsTable. destruct (resultsOf checks); [|apply Stateless_ret].
  apply Stateless_bind.
  - apply Stateless_forEach. intros [n check].
    repeat (apply Stateless_bind; [apply Stateless_fieldOr | intros ?]).
    apply Stateless_ret.
  - intros rows. apply Stateless_bind; [apply Stateless_ask | intros more].
    apply Stateless_bind; [apply Stateless_toStr | intros count]. apply Stateless_ret.
Qed.

Lemma Stateless_formatPathsAsText (paths : Json) : Stateless (formatPathsAsText paths).
Proof.
  unfold formatPathsAsText. destruct (resultsOf paths); [|apply Stateless_ret].
  apply Stateless_bind.
  - apply Stateless_forEach. intros [n path].
    repeat (apply Stateless_bind; [apply Stateless_fieldOr | intros ?]).
    apply Stateless_ret.
  - intros blocks. apply Stateless_bind; [apply Stateless_ask | intros more].
    apply Stateless_bind; [apply Stateless_toStr | intros count]. apply Stateless_ret.
Qed.

Lemma Stateless_formatPathsAsTable (paths : Json) : Stateless (formatPathsAsTable paths).
Proof.
  unfold formatPathsAsTable. destruct (resultsOf paths); [|apply Stateless_ret].
  apply Stateless_bind.
  - apply Stateless_forEach. intros [n path].
    repeat (apply Stateless_bind; [apply Stateless_fieldOr | intros ?]).
    apply Stateless_ret.
  - intros rows. apply Stateless_bind; [apply Stateless_ask | intros more].
    apply Stateless_bind; [apply Stateless_toStr | intros count]. apply Stateless_ret.
Qed.

(** The one request of [getScanChecks]. *)
Lemma getScanChecks_events (env : Env) (w : World) (scanId : string)
    (options : ChecksOptions) (format : OutputFormat) :
  exists headers,
    events (snd (getScanChecks scanId options format env w))
    = (events w
       ++ [EvHttp (mkApiRequest GET (CURRENT_API_URL ++ "scans/" ++ scanId ++ "/checks/")
                     headers (getScanChecksParams options) NoBody)])%list.
Proof.
  destruct (apiRequest_events env
              (withLine ("Getting scan checks for " ++ scanId ++ " via API endpoint...") w)
              ("scans/" ++ scanId ++ "/checks/") GET (getScanChecksParams options)
              NoBody false) as (headers & Hev).
  exists headers. unfold getScanChecks.
  unfold tryCatch at 1. unfold mbind, M_bind, bind at 1. unfold consoleError at 1.
  unfold bind at 1.
  destruct (apiRequest _ _ _ _ _ env _) as [[response|e] w1]; simpl in Hev |- *.
  - destruct format.
    + pose proof (Stateless_formatChecksAsText response env w1) as Hs.
      destruct (formatChecksAsText response env w1) as [[t|e] w2]; simpl in Hs; subst w2;
        simpl; exact Hev.
    + simpl. exact Hev.
    + pose proof (Stateless_formatChecksAsTable response env w1) as Hs.
      destruct (formatChecksAsTable response env w1) as [[t|e] w2]; simpl in Hs; subst w2;
        simpl; exact Hev.
  - exact Hev.
Qed.

(** The one request of [getScanPaths]. *)
Lemma getScanPaths_events (env : Env) (w : World) (scanId : string)
    (options : PathsOptions) (format : OutputFormat) :
  exists headers,
    events (snd (getScanPaths scanId options format env w))
    = (events w
       ++ [EvHttp (mkApiRequest GET (CURRENT_API_URL ++ "scans/" ++ scanId ++ "/paths/")
                     headers (getScanPathsParams options) NoBody)])%list.
Proof.
  destruct (apiRequest_events env
              (withLine ("Getting scan paths for " ++ scanId ++ " via API endpoint...") w)
              ("scans/" ++ scanId ++ "/paths/") GET (getScanPathsParams options)
              NoBody false) as (headers & Hev).
  exists headers. unfold getScanPaths.
  unfold tryCatch at 1. unfold mbind, M_bind, bind at 1. unfold consoleError at 1.
  unfold bind at 1.
  destruct (apiRequest _ _ _ _ _ env _) as [[response|e] w1]; simpl in Hev |- *.
  - destruct format.
    + pose proof (Stateless_formatPathsAsText response env w1) as Hs.
      destruct (formatPathsAsText response env w1) as [[t|e] w2]; simpl in Hs; subst w2;
        simpl; exact Hev.
    + simpl. exact Hev.
    + pose proof (Stateless_formatPathsAsTable response env w1) as Hs.
      destruct (formatPathsAsTable response env w1) as [[t|e] w2]; simpl in Hs; subst w2;
        simpl; exact Hev.
  - exact Hev.
Qed.

End Requests.

(** Claim C8 (the code departs from it).  A call of [getScanChecks] with
    severity ["critical"] and status [0] issues one GET request whose
    parameter object holds the two lists themselves, as array values under
    the keys [severity] and [status], and no key besides the six that the
    function sets; the request goes to the HTTP client as method, URL,
    headers, parameters and body, with nothing that says how an array is to
    be written.  The separate entries severity=critical and status=0 of the
    claim, which the comments of the function announce, are thus not
    produced by the code: the query string is left to the default of the
    client, which writes an array value under its key followed by brackets.
    The rest of the claim holds: the parameter object holds page_size = 100
    when the caller omits it, and a call of [getScanPaths] with page_size
    omitted issues one request without any page_size parameter. *)
Theorem scan_query_parameters (env : Env) (w : World) (scanId : string)
    (format : OutputFormat) (checks : Service.ChecksOptions) (paths : Service.PathsOptions) :
  Service.ck_severity checks = ["critical"] ->
  Service.ck_status checks = [0%Z] ->
  (exists request,
     events (snd (Service.getScanChecks scanId checks format env w))
     = (events w ++ [EvHttp request])%list
     /\ req_method request = GET
     /\ req_url request = CURRENT_API_URL ++ "scans/" ++ scanId ++ "/checks/"
     /\ req_data request = NoBody
     /\ req_params request !! "severity" = Some (JArr [JStr "critical"])
     /\ req_params request !! "status" = Some (JArr [JNum 0])
     /\ (forall k, k ∉ ["page"; "page_size"; "name"; "check_kind"; "severity"; "status"] ->
           req_params request !! k = None)
     /\ (Service.ck_page_size checks = None ->
         req_params request !! "page_size" = Some (JNum 100)))
  /\ (Service.pa_page_size paths = None ->
      exists request,
        events (snd (Service.getScanPaths scanId paths format env w))
        = (events w ++ [EvHttp request])%list
        /\ req_method request = GET
        /\ req_url request = CURRENT_API_URL ++ "scans/" ++ scanId ++ "/paths/"
        /\ req_params request !! "page_size" = None).
Proof.
  intros Hsev Hst. split.
  - destruct (getScanChecks_events env w scanId checks format) as (headers & Hev).
    eexists. split; [exact Hev|]. cbn [req_method req_url req_data req_params].
    do 3 (split; [reflexivity|]).
    split.
    { unfold Service.getScanChecksParams. rewrite Hsev.
      rewrite lookup_insert_ne by discriminate. now rewrite lookup_insert_eq. }
    split.
    { unfold Service.getScanChecksParams. rewrite Hst. now rewrite lookup_insert_eq. }
    split.
    { intros k Hk. repeat (apply not_elem_of_cons in Hk as [? Hk]).
      unfold Service.getScanChecksParams. cbv zeta.
      rewrite !lookup_insert_ne by congruence.
      rewrite !lookup_setIf_ne by congruence.
      rewrite !lookup_insert_ne by congruence.
      rewrite !lookup_setIf_ne by congruence.
      apply lookup_empty. }
    intros Hps. unfold Service.getScanChecksParams. rewrite Hps. simpl.
    rewrite !lookup_insert_ne by discriminate.
    rewrite !lookup_setIf_ne by discriminate. now rewrite lookup_insert_eq.
  - intros Hps.
    destruct (getScanPaths_events env w scanId paths format) as (headers & Hev).
    eexists. split; [exact Hev|]. cbn [req_method req_url req_data req_params].
    do 2 (split; [reflexivity|]).
    unfold Service.getScanPathsParams. rewrite Hps. simpl.
    rewrite !lookup_setIf_ne by discriminate. apply lookup_empty.
Qed.

(** The parameter theorem at a call that asks for the critical findings in
    status 0 and leaves the pagination to the defaults. *)
Lemma scan_query_parameters_witness :
  Service.ck_severity (Service.mkChecksOptions None None None None ["critical"] [0%Z])
  = ["critical"]
  /\ Service.ck_status (Service.mkChecksOptions None None None None ["critical"] [0%Z])
     = [0%Z]
  /\ exists request,
       events (snd (Service.getScanChecks "scan-1"
                      (Service.mkChecksOptions None None None None ["critical"] [0%Z])
                      FJson quietEnv freshWorld))
       = ([] ++ [EvHttp request])%list
       /\ req_method request = GET
       /\ req_url request = CURRENT_API_URL ++ "scans/" ++ "scan-1" ++ "/checks/"
       /\ req_data request = NoBody
       /\ req_params request !! "severity" = Some (JArr [JStr "critical"])
       /\ req_params request !! "status" = Some (JArr [JNum 0])
       /\ (forall k, k ∉ ["page"; "page_size"; "name"; "check_kind"; "severity"; "status"] ->
             req_params request !! k = None)
       /\ (@None Z = None -> req_params request !! "page_size" = Some (JNum 100)).
Proof.
  split; [reflexivity|]. split; [reflexivity|].
  apply (scan_query_parameters quietEnv freshWorld "scan-1" FJson
           (Service.mkChecksOptions None None None None ["critical"] [0%Z])
           (Service.mkPathsOptions None None None)); reflexivity.
Defined.

(* ================================================================== *)
(** * 15. The project lookup                                           *)
(* ================================================================== *)

Section ProjectLookup.

Import Service.

(** Whatever the API answers, a failing [getProjectByName] fails with a
    plain error whose message opens with the general prefix: the branch for
    status 404 is never taken, because [apiRequest] has already replaced
    the error of the HTTP client by a plain error. *)
Lemma getProjectByName_failure_prefix (env : Env) (w : World) (projectName : string) :
  (exists v, fst (getProjectByName projectName env w) = Return v)
  \/ (exists m, fst (getProjectByName projectName env w)
                = Throw (PlainError ("Failed to get project details: " ++ m))).
Proof.
  unfold getProjectByName, apiRequest, getApiHeaders, getApiBaseUrl. unfoldM. simpl.
  destruct (env_http env _ _) as [response|e]; simpl.
  - destruct (negb (truthy response) || negb (truthy (prop response "results"))
              || negb (truthy (first (prop response "results"))))%bool; simpl.
    + right. eexists. reflexivity.
    + left. eexists. reflexivity.
  - destruct e as [st d m|m|n m]; simpl; right; eexists; reflexivity.
Qed.

End ProjectLookup.

(** Claim C5 (the code departs from it).  With an API that answers 404,
    [getProjectByName] fails with the general message that wraps the
    message of [apiRequest], not with the message "Project '<name>' not
    found. Please check the project name and try again." that its own
    branch for status 404 would give. *)
Theorem getProjectByName_on_404 :
  fst (Service.getProjectByName "demo" notFoundEnv freshWorld)
  = Throw (PlainError
             "Failed to get project details: API request failed (404): Not found.")
  /\ includes "Failed to get project details: API request failed (404): Not found."
              "Project 'demo' not found" = false.
Proof. split; reflexivity. Qed.

(** The first half of claim C5 holds: with an empty result list the lookup
    fails with a message that says "not found". *)
Lemma getProjectByName_on_empty_results :
  fst (Service.getProjectByName "demo"
         (envWith (fun _ => ExecOk "" "")
                  (fun _ => HttpOk (JObj [("count", JNum 0); ("results", JArr [])])))
         freshWorld)
  = Throw (PlainError
             "Failed to get project details: Project 'demo' not found or has no data.").
Proof. reflexivity. Qed.

(* ================================================================== *)
(** * 16. The authenticate tool                                        *)
(* ================================================================== *)

(** Claim C4 (the code departs from it).  In the create-new branch, a
    freshly created token that fails the remote validation stays in place:
    the handler returns its error response while the in-process token and
    the token file still hold the new token. *)
Theorem authenticate_create_new_keeps_rejected_token :
  let result := Tools.authenticate (mkAuthenticateArgs None (Some true) None)
                  rejectingEnv freshWorld in
  (exists response, fst result = Return response /\ errorFlagged response = true)
  /\ token (snd result) = Some "nvtok-0123456789abcdefghij"
  /\ tokenFile (snd result) = Some "nvtok-0123456789abcdefghij".
Proof.
  vm_compute. split; [|split; reflexivity].
  eexists. split; reflexivity.
Qed.

(** The sibling branch does clear: a given token that fails the validation
    leaves no token in the process and no token file. *)
Lemma authenticate_given_token_clears_rejected_token :
  let result := Tools.authenticate (mkAuthenticateArgs (Some "stale-token") None None)
                  rejectingEnv freshWorld in
  (exists response, fst result = Return response /\ errorFlagged response = true)
  /\ token (snd result) = None
  /\ tokenFile (snd result) = None.
Proof.
  vm_compute. split; [|split; reflexivity].
  eexists. split; reflexivity.
Qed.

Section ProvidedToken.

Lemma verifyProductionAuth_run (env : Env) (w : World) :
  exists b w1,
    Service.verifyProductionAuth env w = (Return b, w1)
    /\ token w1 = token w /\ configDir w1 = configDir w /\ tokenFile w1 = tokenFile w
    /\ timers w1 = timers w.
Proof.
  unfold Service.verifyProductionAuth, Service.apiRequest, Service.getApiHeaders, member.
  unfoldM. cbv beta iota zeta.
  destruct (truthyS (token w)); cbv beta iota.
  - destruct (env_http env _ _) as [d|e]; cbv beta iota.
    + destruct d; cbv beta iota;
        (eexists; eexists; split; [reflexivity | repeat split]).
    + destruct (isAxiosError e); cbv beta iota;
        (eexists; eexists; split; [reflexivity | repeat split]).
  - eexists. eexists. split; [reflexivity | repeat split].
Qed.

(** In the provided-token branch of [authenticate], the handler returns a
    response, and every error response leaves no token in the process and,
    when the deletion succeeds, no token file. *)
Lemma authenticate_given_token_clears (env : Env) (w : World) (t : string)
    (expiry : option string) :
  truthyS (Some t) = true ->
  env_fsError env OpUnlink = None ->
  exists response,
    fst (Tools.authenticate (mkAuthenticateArgs (Some t) None expiry) env w) = Return response
    /\ (errorFlagged response = true ->
        token (snd (Tools.authenticate (mkAuthenticateArgs (Some t) None expiry) env w)) = None
        /\ tokenFile (snd (Tools.authenticate (mkAuthenticateArgs (Some t) None expiry) env w))
           = None).
Proof.
  intros Ht Hun.
  remember (Tools.authenticate (mkAuthenticateArgs (Some t) None expiry) env w) as run
    eqn:Hrun.
  unfold Tools.authenticate in Hrun. cbn [au_create_new au_token truthyB] in Hrun.
  rewrite Ht in Hrun. cbv beta iota zeta in Hrun.
  unfold tryCatch at 1 in Hrun. rewrite run_bind in Hrun.
  unfold setToken at 1 in Hrun. cbv beta iota in Hrun. rewrite run_bind in Hrun.
  destruct (TokenStore.saveToken (default "" (Some t)) env
              (withToken (Some (default "" (Some t))) w)) as [[[]|e] w0] eqn:Hsave.
  2:{ exfalso. revert Hsave. unfold TokenStore.saveToken, TokenStore.configDirExists,
        TokenStore.fsDo. unfoldM. cbv beta iota zeta.
      repeat match goal with
             | |- context [match ?x with _ => _ end] => destruct x; cbv beta iota
             end; discriminate. }
  unfold tryCatch at 1 in Hrun. rewrite run_bind in Hrun.
  destruct (verifyProductionAuth_run env w0) as (b & w1 & Hv & _ & _ & _ & _).
  rewrite Hv in Hrun. cbv beta iota in Hrun.
  destruct b; cbn [negb] in Hrun; cbv beta iota in Hrun.
  - subst run. eexists. split; [reflexivity|]. discriminate.
  - unfold TokenStore.clearToken, TokenStore.tokenFileExists, TokenStore.fsDo in Hrun.
    unfoldM. cbv beta iota zeta in Hrun. cbn [tokenFile withToken] in Hrun.
    destruct (tokenFile w1) eqn:Hfile; cbv beta iota in Hrun.
    + rewrite Hun in Hrun. cbv beta iota in Hrun. subst run.
      eexists. split; [reflexivity|]. intros _. split; reflexivity.
    + subst run. eexists. split; [reflexivity|]. intros _. split; [reflexivity|].
      cbn. exact Hfile.
Qed.

End ProvidedToken.

(* ================================================================== *)
(** * 17. Redirected output paths                                      *)
(* ================================================================== *)

Section PathFacts.

Import Path.

Lemma list_of_app (a b : string) :
  list_ascii_of_string (a ++ b)
  = (list_ascii_of_string a ++ list_ascii_of_string b)%list.
Proof.
  induction a as [|c a IH]; simpl; [reflexivity | now rewrite IH].
Qed.

Lemma split_nonempty (c : ascii) (s : string) : split c s <> [].
Proof.
  induction s as [|x s IH]; simpl; [discriminate|].
  destruct (Ascii.eqb x c); [discriminate|].
  destruct (split c s); [congruence | discriminate].
Qed.

(** Splitting a text at an occurrence of the separator. *)
Lemma split_app_sep (c : ascii) (a b : string) :
  split c (a ++ String c b) = (split c a ++ split c b)%list.
Proof.
  induction a as [|x a IH]; simpl.
  - now rewrite Ascii.eqb_refl.
  - destruct (Ascii.eqb x c); [now rewrite IH|].
    rewrite IH. pose proof (split_nonempty c a) as Hne.
    destruct (split c a); [congruence | reflexivity].
Qed.

(** The base name of a path that ends with the component [spec.yml]. *)
Lemma basename_spec_yml (pre : string) :
  slashEnded pre -> basename (pre ++ "spec.yml") = "spec.yml".
Proof.
  intros Hpre. unfold basename. rewrite list_of_app, rev_app_distr. simpl.
  destruct Hpre as [-> | (p0 & ->)]; [reflexivity|].
  rewrite list_of_app, rev_app_distr. reflexivity.
Qed.

(** An ordinary name at the end of the segments stays at the end. *)
Lemma normalizeSegments_snoc (allow : bool) (s : string) (segs acc : list string) :
  (s =? "") = false -> (s =? ".") = false -> (s =? "..") = false ->
  exists l, normalizeSegments allow acc (segs ++ [s]) = (l ++ [s])%list.
Proof.
  intros H1 H2 H3. revert acc. induction segs as [|x segs IH]; intros acc; simpl.
  - rewrite H1, H2, H3. simpl. now exists (List.rev acc).
  - destruct ((x =? "") || (x =? "."))%bool; [apply IH|].
    destruct (x =? ".."); [|apply IH].
    destruct acc as [|top acc']; [apply IH|].
    destruct (top =? ".."); apply IH.
Qed.

Lemma join_snoc (sep x : string) (l : list string) :
  join sep (l ++ [x]) = match l with
                        | [] => x
                        | _ => join sep l ++ sep ++ x
                        end.
Proof.
  induction l as [|y l IH]; [reflexivity|].
  destruct l as [|z l]; [reflexivity|].
  change (join sep ((y :: z :: l) ++ [x])) with (y ++ sep ++ join sep ((z :: l) ++ [x])).
  rewrite IH. rewrite join_cons2, !app_assoc_string. reflexivity.
Qed.

Lemma endsWithSlash_spec_yml (t : string) : endsWithSlash (t ++ "/spec.yml") = false.
Proof.
  unfold endsWithSlash. rewrite list_of_app, rev_app_distr. reflexivity.
Qed.

Lemma eqb_app_spec_yml (pre : string) : (pre ++ "spec.yml" =? "") = false.
Proof. destruct pre; reflexivity. Qed.

(** Joining any directory with [spec.yml] gives a path whose last
    component is [spec.yml]. *)
Lemma pathJoin_spec_yml (t : string) :
  exists pre, slashEnded pre /\ pathJoin t "spec.yml" = pre ++ "spec.yml".
Proof.
  unfold pathJoin. simpl. destruct (t =? "") eqn:Ht; simpl.
  - exists "". split; [now left | reflexivity].
  - unfold join. simpl String.concat.
    change (t ++ "/" ++ "spec.yml") with (t ++ String "/" "spec.yml").
    unfold normalize.
    assert (Hnon : (t ++ String "/" "spec.yml" =? "") = false).
    { destruct t; reflexivity. }
    rewrite Hnon.
    change (t ++ String "/" "spec.yml") with (t ++ "/spec.yml") at 2.
    rewrite endsWithSlash_spec_yml.
    unfold normalizeString. rewrite split_app_sep.
    change (split "/" "spec.yml") with ["spec.yml"].
    destruct (normalizeSegments_snoc (negb (isAbsolute (t ++ String "/" "spec.yml")))
                "spec.yml" (split "/" t) []) as (l & ->); try reflexivity.
    rewrite join_snoc.
    set (q := match l with [] => "spec.yml" | _ :: _ => join "/" l ++ "/" ++ "spec.yml" end).
    assert (Hq : exists pre, slashEnded pre /\ q = pre ++ "spec.yml").
    { subst q. destruct l as [|y l].
      - exists "". split; [now left | reflexivity].
      - exists (join "/" (y :: l) ++ "/"). split; [right; now eexists|].
        now rewrite app_assoc_string. }
    destruct Hq as (pre & Hpre & ->). rewrite eqb_app_spec_yml.
    destruct (isAbsolute _).
    + exists ("/" ++ pre). split; [|reflexivity].
      destruct Hpre as [-> | (p0 & ->)]; right; [now exists "" | now exists ("/" ++ p0)].
    + now exists pre.
Qed.

Lemma basename_pathJoin_spec_yml (t : string) :
  basename (pathJoin t "spec.yml") = "spec.yml".
Proof.
  destruct (pathJoin_spec_yml t) as (pre & Hpre & ->). now apply basename_spec_yml.
Qed.

End PathFacts.

Section Discovery.

Import Service.

Lemma sameButConsole_refl (w : World) : sameButConsole w w.
Proof. repeat split. Qed.

Lemma sameButConsole_trans (w1 w2 w3 : World) :
  sameButConsole w1 w2 -> sameButConsole w2 w3 -> sameButConsole w1 w3.
Proof.
  unfold sameButConsole. intros (?&?&?&?&?) (?&?&?&?&?). repeat split; congruence.
Qed.

(** The source paths are made absolute without any external call. *)
Lemma absoluteSourcePaths_run (env : Env) (cwd workspacePath : string)
    (sourcePaths : list string) (w : World) :
  exists w1,
    forEach (toAbsolute cwd workspacePath) sourcePaths env w
    = (Return (map (absolutePath cwd workspacePath) sourcePaths), w1)
    /\ sameButConsole w w1.
Proof.
  revert w. induction sourcePaths as [|p ps IH]; intros w; simpl.
  - exists w. split; [reflexivity | apply sameButConsole_refl].
  - rewrite run_bind. unfold toAbsolute at 1, absolutePath at 1.
    destruct (negb (startsWith p "/")); unfoldM; simpl.
    + match goal with
      | |- context [forEach _ ps env ?w0] => destruct (IH w0) as (w1 & Heq & Hs)
      end.
      rewrite Heq. exists w1. split; [reflexivity | exact Hs].
    + destruct (IH w) as (w1 & -> & Hs). exists w1. split; [reflexivity | exact Hs].
Qed.

(** The output file chosen for [/spec.yml]: the temp directory joined
    with [spec.yml]. *)
Lemma chooseOutputFile_root (env : Env) (workspacePath : string) (w : World) :
  exists w1,
    chooseOutputFile "/spec.yml" workspacePath env w
    = (Return (Path.pathJoin (env_tmpdir env) "spec.yml"), w1)
    /\ sameButConsole w w1.
Proof.
  unfold chooseOutputFile. unfoldM. simpl. eexists. split; [reflexivity|].
  repeat split.
Qed.

(** The writability test keeps a file of the temp directory named
    [spec.yml] where it is. *)
Lemma vetOutputFile_redirected (env : Env) (w : World) :
  exists w1,
    vetOutputFile (Path.pathJoin (env_tmpdir env) "spec.yml") env w
    = (Return (Path.pathJoin (env_tmpdir env) "spec.yml"), w1)
    /\ sameButConsole w w1.
Proof.
  unfold vetOutputFile. unfoldM. cbv beta.
  destruct (env_writable env _); cbv beta iota.
  - eexists. split; [reflexivity | repeat split].
  - rewrite basename_pathJoin_spec_yml. eexists. split; [reflexivity | repeat split].
Qed.

Lemma discoverApi_root_run (env : Env) (w : World) (sourcePaths : list string)
    (options : DiscoverOptions) (format : OutputFormat) (projectPath : string) :
  da_output options = "/spec.yml" ->
  truthyLang (da_lang options) = true ->
  events (snd (discoverApi sourcePaths options format projectPath env w))
  = (events w
     ++ [EvExec (commandLine (token w)
                   (discoverArgs (map (absolutePath (env_cwd env) projectPath) sourcePaths)
                      options (Path.pathJoin (env_tmpdir env) "spec.yml"))
                   format false)])%list
  /\ forall out,
       fst (discoverApi sourcePaths options format projectPath env w) = Return out ->
       exists result,
         out = result ++ nl ++ "OpenAPI Specification File: "
                      ++ Path.pathJoin (env_tmpdir env) "spec.yml".
Proof.
  intros Hout Hlang. unfold discoverApi. rewrite Hout, Hlang.
  unfoldM. cbv beta iota.
  match goal with
  | |- context [forEach _ sourcePaths env ?w0] =>
      destruct (absoluteSourcePaths_run env (env_cwd env) projectPath sourcePaths w0)
        as (w1 & Heq1 & Hs1)
  end.
  rewrite Heq1. change (negb true) with false. cbv beta iota.
  destruct (chooseOutputFile_root env projectPath w1) as (w2 & Heq2 & Hs2).
  rewrite Heq2. cbv beta iota.
  destruct (vetOutputFile_redirected env w2) as (w3 & Heq3 & Hs3).
  rewrite Heq3. cbv beta iota.
  pose proof (sameButConsole_trans _ _ _ (sameButConsole_trans _ _ _ Hs1 Hs2) Hs3) as Hs.
  destruct Hs as (Htok & _ & _ & Hev & _). simpl in Htok, Hev.
  pose proof (executeCommand_events env w3
                (discoverArgs (map (absolutePath (env_cwd env) projectPath) sourcePaths)
                   options (Path.pathJoin (env_tmpdir env) "spec.yml"))
                format false) as Hexec.
  rewrite Htok, Hev in Hexec.
  destruct (executeCommand _ format false env w3) as [[result|e] w4].
  - cbv beta iota. simpl in Hexec |- *. split; [exact Hexec|].
    intros out Hret. injection Hret as <-. now exists result.
  - cbv beta iota. simpl in Hexec.
    destruct (includes (message e) "0 paths discovered");
      [|destruct (includes (message e) "read-only file system"
                  || includes (message e) "permission denied"
                  || includes (message e) "no such file or directory")%bool;
        [|destruct (includes (message e) "maxBuffer length exceeded")]];
      cbv beta iota; (split; [exact Hexec | intros out Hret; discriminate Hret]).
Qed.

End Discovery.

(** Where the output file stands among the arguments of the extraction
    command. *)
Lemma discoverArgs_output (absoluteSourcePaths : list string)
    (options : Service.DiscoverOptions) (outputFile : string) :
  Service.discoverArgs absoluteSourcePaths options outputFile
  = ((["swagger"; "extract"] ++ absoluteSourcePaths
      ++ ["--lang"; Service.showLang (Service.da_lang options)]
      ++ (if truthyS (Service.da_target options)
          then ["--target"; default "" (Service.da_target options)] else [])
      ++ (if truthyS (Service.da_target_id options)
          then ["--target-id"; default "" (Service.da_target_id options)] else [])
      ++ (if truthyS (Service.da_project options)
          then ["--project"; default "" (Service.da_project options)] else [])
      ++ (if truthyS (Service.da_project_id options)
          then ["--project-id"; default "" (Service.da_project_id options)] else []))
     ++ ["--output"; outputFile]
     ++ ((if truthyS (Service.da_exclude options)
          then ["--exclude"; default "" (Service.da_exclude options)] else [])
         ++ (if truthyS (Service.da_version options)
             then ["--version"; default "" (Service.da_version options)] else [])
         ++ (match Service.da_no_upload options with
             | Some false => []
             | _ => ["--no-upload"]
             end)
         ++ (if truthyB (Service.da_dump_code options) then ["--dump-code"] else [])))%list.
Proof.
  unfold Service.discoverArgs.
  repeat (rewrite <- (List.app_assoc _ _ _)). reflexivity.
Qed.

(** Claim C9.  For every call of [discoverApi] with output [/spec.yml],
    whose directory is the root, the command issued carries, after the
    [--output] flag, the platform temp directory joined with the same base
    file name [spec.yml]; and the text returned on success holds that
    redirected path. *)
Theorem discoverApi_redirects_root_output (env : Env) (w : World)
    (sourcePaths : list string) (options : Service.DiscoverOptions)
    (format : OutputFormat) (projectPath : string) :
  Service.da_output options = "/spec.yml" ->
  Service.truthyLang (Service.da_lang options) = true ->
  (exists args before after,
     events (snd (Service.discoverApi sourcePaths options format projectPath env w))
     = (events w ++ [EvExec (Service.commandLine (token w) args format false)])%list
     /\ args = (before
                ++ ["--output"; Path.pathJoin (env_tmpdir env) (Path.basename "/spec.yml")]
                ++ after)%list)
  /\ (forall out,
        fst (Service.discoverApi sourcePaths options format projectPath env w) = Return out ->
        occursIn (Path.pathJoin (env_tmpdir env) (Path.basename "/spec.yml")) out).
Proof.
  intros Hout Hlang.
  destruct (discoverApi_root_run env w sourcePaths options format projectPath Hout Hlang)
    as (Hev & Hret).
  split.
  - eexists. eexists. eexists. split; [exact Hev|].
    apply discoverArgs_output.
  - intros out Hout'. destruct (Hret out Hout') as (result & ->).
    exists (result ++ nl ++ "OpenAPI Specification File: "), "".
    change (Path.basename "/spec.yml") with "spec.yml".
    rewrite app_empty_r, !app_assoc_string. reflexivity.
Qed.

(** The redirection theorem at a discovery of a Python code base. *)
Lemma discoverApi_redirects_root_output_witness :
  Service.da_output rootOutputOptions = "/spec.yml"
  /\ Service.truthyLang (Service.da_lang rootOutputOptions) = true
  /\ (forall out,
        fst (Service.discoverApi ["src"] rootOutputOptions FText "/work/app"
               quietEnv freshWorld) = Return out ->
        occursIn (Path.pathJoin (env_tmpdir quietEnv) (Path.basename "/spec.yml")) out).
Proof.
  split; [reflexivity|]. split; [reflexivity|].
  apply (discoverApi_redirects_root_output quietEnv freshWorld ["src"] rootOutputOptions
           FText "/work/app"); reflexivity.
Defined.

(* ================================================================== *)
(** * 18. The credential check of the handlers                         *)
(* ================================================================== *)

Section CredentialCheck.

Import Tools.

Variable svc : TrafficService.
Variable env : Env.
Variable w : World.
Hypothesis Htok : token w = None.

Lemma list_targets_guard (args : ListTargetsArgs) :
  list_targets args env w = (Return notAuthenticated, w).
Proof. unfold list_targets. credentialCheck Htok. Qed.

Lemma get_target_details_guard (args : GetTargetDetailsArgs) :
  get_target_details args env w = (Return notAuthenticated, w).
Proof. unfold get_target_details. credentialCheck Htok. Qed.

Lemma create_target_guard (args : CreateTargetArgs) :
  create_target args env w = (Return notAuthenticated, w).
Proof. unfold create_target. credentialCheck Htok. Qed.

Lemma delete_target_guard (args : DeleteTargetArgs) :
  delete_target args env w = (Return notAuthenticated, w).
Proof. unfold delete_target. credentialCheck Htok. Qed.

Lemma start_scan_guard (args : StartScanArgs) :
  start_scan args env w = (Return notAuthenticated, w).
Proof. unfold start_scan. credentialCheck Htok. Qed.

Lemma list_scans_guard (args : ListScansArgs) :
  list_scans args env w = (Return notAuthenticated, w).
Proof. unfold list_scans. credentialCheck Htok. Qed.

Lemma get_scan_status_guard (args : GetScanStatusArgs) :
  get_scan_status args env w = (Return notAuthenticated, w).
Proof. unfold get_scan_status. credentialCheck Htok. Qed.

Lemma get_scan_checks_guard (args : GetScanChecksArgs) :
  get_scan_checks args env w = (Return notAuthenticated, w).
Proof. unfold get_scan_checks. credentialCheck Htok. Qed.

Lemma get_scan_paths_guard (args : GetScanPathsArgs) :
  get_scan_paths args env w = (Return notAuthenticated, w).
Proof. unfold get_scan_paths. credentialCheck Htok. Qed.

Lemma discover_api_with_path_guard (args : DiscoverWithPathArgs) :
  discover_api_with_path args env w = (Return notAuthenticated, w).
Proof. unfold discover_api_with_path. credentialCheck Htok. Qed.

Lemma discover_api_guard (args : DiscoverArgs) :
  discover_api args env w = (Return notAuthenticated, w).
Proof. unfold discover_api. credentialCheck Htok. Qed.

Lemma create_nuclei_template_guard (args : CreateNucleiTemplateArgs) :
  create_nuclei_template args env w = (Return notAuthenticated, w).
Proof. unfold create_nuclei_template. credentialCheck Htok. Qed.

Lemma upload_nuclei_template_guard (args : UploadNucleiTemplateArgs) :
  upload_nuclei_template args env w = (Return notAuthenticated, w).
Proof. unfold upload_nuclei_template. credentialCheck Htok. Qed.

Lemma list_nuclei_templates_guard (args : ListNucleiTemplatesArgs) :
  list_nuclei_templates args env w = (Return notAuthenticated, w).
Proof. unfold list_nuclei_templates. credentialCheck Htok. Qed.

Lemma list_projects_guard (args : ListProjectsArgs) :
  list_projects args env w = (Return notAuthenticated, w).
Proof. unfold list_projects. credentialCheck Htok. Qed.

Lemma get_project_details_guard (args : GetProjectDetailsArgs) :
  get_project_details args env w = (Return notAuthenticated, w).
Proof. unfold get_project_details. credentialCheck Htok. Qed.

Lemma record_traffic_guard (args : TrafficArgs) :
  record_traffic svc args env w = (Return notAuthenticated, w).
Proof. unfold record_traffic. credentialCheck Htok. Qed.

Lemma list_traffic_guard (args : TrafficArgs) :
  list_traffic svc args env w = (Return notAuthenticated, w).
Proof. unfold list_traffic. credentialCheck Htok. Qed.

Lemma download_traffic_guard (args : TrafficArgs) :
  download_traffic svc args env w = (Return notAuthenticated, w).
Proof. unfold download_traffic. credentialCheck Htok. Qed.

End CredentialCheck.

(** Claim C1, as amended.  Every registered tool handler other than
    [authenticate] and the prompting first phase of [discover-api], when it
    is invoked while the token of the service is null, returns the
    error-flagged response whose text is the authentication-required
    message, and leaves the world as it was: no subprocess and no HTTP
    request is attempted. *)
Theorem guarded_tools_require_credential (svc : Tools.TrafficService)
    (call : Tools.ToolCall) (env : Env) (w : World) :
  Tools.guarded call = true ->
  token w = None ->
  Tools.handle svc call env w = (Return notAuthenticated, w)
  /\ errorFlagged notAuthenticated = true
  /\ (exists text, content notAuthenticated = [text]
                   /\ includes text "Not authenticated" = true)
  /\ events (snd (Tools.handle svc call env w)) = events w.
Proof.
  intros Hguarded Htok.
  assert (Hrun : Tools.handle svc call env w = (Return notAuthenticated, w)).
  { destruct call; simpl in Hguarded; try discriminate Hguarded; simpl.
    - now apply list_targets_guard.
    - now apply get_target_details_guard.
    - now apply create_target_guard.
    - now apply delete_target_guard.
    - now apply start_scan_guard.
    - now apply list_scans_guard.
    - now apply get_scan_status_guard.
    - now apply get_scan_checks_guard.
    - now apply get_scan_paths_guard.
    - now apply discover_api_with_path_guard.
    - now apply discover_api_guard.
    - now apply create_nuclei_template_guard.
    - now apply upload_nuclei_template_guard.
    - now apply list_nuclei_templates_guard.
    - now apply list_projects_guard.
    - now apply get_project_details_guard.
    - now apply record_traffic_guard.
    - now apply list_traffic_guard.
    - now apply download_traffic_guard.
  }
  split; [exact Hrun|]. split; [reflexivity|].
  split; [eexists; split; reflexivity|].
  now rewrite Hrun.
Qed.

(** The credential theorem at a scan that is started before any
    authentication. *)
Lemma guarded_tools_require_credential_witness :
  Tools.guarded (Tools.StartScan (mkStartScanArgs "web" None None None (Some "demo") None None))
  = true
  /\ token freshWorld = None
  /\ Tools.handle idleTraffic
       (Tools.StartScan (mkStartScanArgs "web" None None None (Some "demo") None None))
       quietEnv freshWorld
     = (Return notAuthenticated, freshWorld).
Proof.
  split; [reflexivity|]. split; [reflexivity|].
  apply (guarded_tools_require_credential idleTraffic
           (Tools.StartScan (mkStartScanArgs "web" None None None (Some "demo") None None))
           quietEnv freshWorld); reflexivity.
Defined.

(** Claim C1 as stated fails on the [authenticate] tool: invoked without
    arguments while no credential is held, it answers with a response that
    is not error-flagged; invoked to create a token, it starts subprocesses
    although no credential is held. *)
Lemma authenticate_without_credential :
  token freshWorld = None
  /\ (exists response,
        fst (Tools.handle idleTraffic (Tools.Authenticate (mkAuthenticateArgs None None None))
               quietEnv freshWorld) = Return response
        /\ errorFlagged response = false)
  /\ events (snd (Tools.handle idleTraffic
                    (Tools.Authenticate (mkAuthenticateArgs None (Some true) None))
                    quietEnv freshWorld))
     <> events freshWorld.
Proof.
  split; [reflexivity|]. split.
  - eexists. split; reflexivity.
  - vm_compute. discriminate.
Qed.

(* ================================================================== *)
(** * 19. The background launch of a scan                              *)
(* ================================================================== *)

Section BackgroundLaunch.

Import Service.

Lemma onlyLogged_refl (w : World) : onlyLogged w w [].
Proof.
  split; [now rewrite app_nil_r|]. split; [exists []; now rewrite app_nil_r|].
  repeat split.
Qed.

Lemma onlyLogged_withLine (l : string) (w w' : World) (calls : list Event) :
  onlyLogged w w' calls -> onlyLogged w (withLine l w') calls.
Proof.
  intros (Hev & (lines & Hlines) & Hsame). split; [exact Hev|]. split; [|exact Hsame].
  exists (lines ++ [l])%list. simpl. rewrite Hlines. now rewrite <- List.app_assoc.
Qed.

Lemma onlyLogged_withEvent (e : Event) (w w' : World) :
  onlyLogged w w' [] -> onlyLogged w (withEvent e w') [e].
Proof.
  intros (Hev & Hlines & Hsame). split; [|split; [exact Hlines | exact Hsame]].
  simpl. rewrite Hev. now rewrite app_nil_r.
Qed.

(** [executeCommand] attempts its one subprocess and writes to the console. *)
Lemma executeCommand_onlyLogged (env : Env) (w : World) (args : list string)
    (format : OutputFormat) (skip : bool) :
  onlyLogged w (snd (executeCommand args format skip env w))
    [EvExec (commandLine (token w) args format skip)].
Proof.
  assert (Hbase : onlyLogged w
                    (withEvent (EvExec (commandLine (token w) args format skip))
                       (withLine ("Executing: " ++ commandLine (token w) args format skip) w))
                    [EvExec (commandLine (token w) args format skip)]).
  { apply onlyLogged_withEvent, onlyLogged_withLine, onlyLogged_refl. }
  unfold executeCommand. unfoldM. cbv beta iota zeta.
  change (token (withLine ("Executing: " ++ commandLine (token w) args format skip) w))
    with (token w).
  destruct (env_exec env _ _) as [out err|m]; cbv beta iota.
  - destruct (nonBlank err); cbv beta iota; destruct (isSwaggerExtract args);
      cbn [andb snd]; repeat apply onlyLogged_withLine; exact Hbase.
  - cbn [snd]. repeat apply onlyLogged_withLine. exact Hbase.
Qed.



End BackgroundLaunch.



(** The timer phase runs the oldest scheduled callback, later than the
    turn that scheduled it. *)
Lemma runNextTimer_runs_oldest (env : Env) (w : World) (task : Task) (rest : list Task) :
  timers w = task :: rest ->
  Tools.runNextTimer env w = Tools.runTask task env (withTimers rest w).
Proof. intros Hq. unfold Tools.runNextTimer. now rewrite Hq. Qed.

(* ================================================================== *)
(** * 20. Stepping through the operations                              *)
(* ================================================================== *)

Section Stepping.

Import Service.

Lemma run_consoleError {B : Type} (line : string) (k : unit -> M B) (env : Env) (w : World) :
  (consoleError line ≫= k) env w = k tt env (withLine line w).
Proof. reflexivity. Qed.

Lemma run_setToken {B : Type} (t : option string) (k : unit -> M B) (env : Env) (w : World) :
  (setToken t ≫= k) env w = k tt env (withToken t w).
Proof. reflexivity. Qed.

(** A handler whose [catch] clause returns makes the whole [try] return. *)
Lemma tryCatch_returns {A : Type} (body : M A) (handler : JsError -> M A) :
  (forall e env w, exists a w', handler e env w = (Return a, w')) ->
  forall env w, exists a w', tryCatch body handler env w = (Return a, w').
Proof.
  intros Hh env w. unfold tryCatch.
  destruct (body env w) as [[a|e] w1]; [now exists a, w1 | apply Hh].
Qed.

(** One run of [apiRequest]. *)
Lemma apiRequest_run (env : Env) (w : World) (endpoint : string) (method : HttpMethod)
    (params : gmap string Json) (data : Body) (isFormData : bool) :
  apiRequest endpoint method params data isFormData env w
  = let request := mkApiRequest method (CURRENT_API_URL ++ endpoint)
                     (apiHeaders (token w) isFormData) params data in
    match env_http env (events w) request with
    | HttpOk response => (Return response, withEvent (EvHttp request) w)
    | HttpFail e => (Throw (apiFailure e), withEvent (EvHttp request) w)
    end.
Proof.
  unfold apiRequest, getApiHeaders, getApiBaseUrl, apiHeaders, apiFailure. unfoldM.
  cbv beta iota zeta.
  destruct isFormData; cbv beta iota;
    (destruct (env_http env _ _) as [d|e]; cbv beta iota;
     [|destruct (isAxiosError e)]; reflexivity).
Qed.

(** With [skipToken], the command line does not depend on the token held. *)
Lemma commandLine_skipToken (tok : option string) (args : list string) (format : OutputFormat) :
  commandLine tok args format true = commandLine None args format true.
Proof.
  unfold commandLine, commandWords, commandArgs.
  rewrite andb_false_r. reflexivity.
Qed.

(** What [executeCommand] returns or throws. *)
Lemma executeCommand_result (env : Env) (w : World) (args : list string)
    (format : OutputFormat) (skip : bool) :
  fst (executeCommand args format skip env w)
  = match env_exec env (events w) (commandLine (token w) args format skip) with
    | ExecOk stdout stderr =>
        Return (if (isSwaggerExtract args && nonBlank stderr)%bool
                then stdout ++ (if (stdout =? "") then "" else nl) ++ stderr
                else stdout)
    | ExecFail m => Throw (PlainError ("NightVision command failed: " ++ m))
    end.
Proof.
  unfold executeCommand. unfoldM. cbv beta iota zeta. cbn [events withLine].
  destruct (env_exec env _ _) as [out err|m]; cbv beta iota; [|reflexivity].
  destruct (nonBlank err); cbv beta iota;
    destruct (isSwaggerExtract args); reflexivity.
Qed.

(** One run of [executeCommand]. *)
Lemma executeCommand_step (env : Env) (w : World) (args : list string)
    (format : OutputFormat) (skip : bool) :
  exists w1,
    executeCommand args format skip env w
    = (match env_exec env (events w) (commandLine (token w) args format skip) with
       | ExecOk stdout stderr =>
           Return (if (isSwaggerExtract args && nonBlank stderr)%bool
                   then stdout ++ (if (stdout =? "") then "" else nl) ++ stderr
                   else stdout)
       | ExecFail m => Throw (PlainError ("NightVision command failed: " ++ m))
       end, w1)
    /\ onlyLogged w w1 [EvExec (commandLine (token w) args format skip)].
Proof.
  pose proof (executeCommand_result env w args format skip) as Hres.
  pose proof (executeCommand_onlyLogged env w args format skip) as Hlog.
  destruct (executeCommand args format skip env w) as [c w1].
  cbn [fst snd] in Hres, Hlog. exists w1. now rewrite Hres.
Qed.

Lemma isSwaggerExtract_tokenCreate (expiryDate : option string) :
  isSwaggerExtract (tokenCreateArgs expiryDate) = false.
Proof. reflexivity. Qed.

Lemma isSwaggerExtract_scanArgs (targetName : string) (options : ScanOptions) :
  isSwaggerExtract (scanArgs targetName options) = false.
Proof. reflexivity. Qed.

(** A successful scan command makes [executeCommand] return its output. *)
Lemma startScan_run (env : Env) (w : World) (targetName : string) (options : ScanOptions)
    (format : OutputFormat) (out err : string) :
  env_exec env (events w) (commandLine (token w) (scanArgs targetName options) format false)
  = ExecOk out err ->
  exists w1,
    executeCommand (scanArgs targetName options) format false env w = (Return out, w1).
Proof.
  intros Hexec.
  pose proof (executeCommand_result env w (scanArgs targetName options) format false) as Hout.
  rewrite Hexec, isSwaggerExtract_scanArgs in Hout. cbn [andb] in Hout.
  destruct (executeCommand _ _ _ env w) as [c w1]. cbn [fst] in Hout. subst c.
  now exists w1.
Qed.

Lemma lookup_setIf_eq (c : bool) (k : string) (v : Json) (m : gmap string Json) :
  setIf c k v m !! k = if c then Some v else m !! k.
Proof. unfold setIf. destruct c; [apply lookup_insert_eq | reflexivity]. Qed.

Lemma Stateless_scanRow (scan : Json) : Stateless (scanRow scan).
Proof.
  unfold scanRow. apply Stateless_bind; [apply Stateless_member | intros; apply Stateless_ask].
Qed.

(** Lookup in an object after an assignment to one of its properties. *)
Lemma assoc_setField_eq (k : string) (v : Json) (fields : list (string * Json)) :
  assoc k (setField k v fields) = v.
Proof.
  induction fields as [|[k' v'] fields IH]; cbn [setField assoc].
  - now rewrite String.eqb_refl.
  - destruct (String.eqb_spec k' k) as [->|Hne]; cbn [assoc].
    + now rewrite String.eqb_refl.
    + destruct (String.eqb_spec k' k); [congruence | exact IH].
Qed.

Lemma assoc_setField_ne (k k' : string) (v : Json) (fields : list (string * Json)) :
  k' <> k -> assoc k' (setField k v fields) = assoc k' fields.
Proof.
  intros Hne. induction fields as [|[k0 v0] fields IH]; cbn [setField assoc].
  - destruct (String.eqb_spec k k'); [congruence | reflexivity].
  - destruct (String.eqb_spec k0 k) as [->|Hk0]; cbn [assoc].
    + destruct (String.eqb_spec k k'); [congruence | reflexivity].
    + now rewrite IH.
Qed.

(** Writing the token file with a disk that does not fail. *)
Lemma saveToken_run (env : Env) (w : World) (t : string) :
  env_fsError env OpMkdir = None ->
  env_fsError env OpWrite = None ->
  TokenStore.saveToken t env w
  = (Return tt, withTokenFile (Some t) (if configDir w then w else withConfigDir true w)).
Proof.
  intros Hmk Hwr. unfold TokenStore.saveToken, TokenStore.configDirExists, TokenStore.fsDo.
  unfoldM. cbv beta iota zeta.
  destruct (configDir w); cbv beta iota; rewrite ?Hmk; cbv beta iota; rewrite Hwr; reflexivity.
Qed.

(** [targets.find] finds nothing among objects of other names. *)
Lemma findByName_absent (env : Env) (w : World) (name : string) (items : list Json) :
  Forall (fun t => exists fields, t = JObj fields /\ assoc "name" fields <> JStr name) items ->
  Tools.findByName name items env w = (Return JUndefined, w).
Proof.
  induction 1 as [|t items (fields & -> & Hname) _ IH]; [reflexivity|].
  cbn [Tools.findByName]. rewrite run_bind. cbn [member prop]. unfold mret, M_ret, ret at 1.
  cbv beta iota. destruct (assoc "name" fields) as [| | | |s| |] eqn:Hn; try exact IH.
  destruct (String.eqb_spec s name) as [->|Hne]; [congruence | exact IH].
Qed.

End Stepping.

(* ================================================================== *)
(** * 21. The token store                                              *)
(* ================================================================== *)

Section TokenStoreFacts.

Import TokenStore.

(** A directory that cannot be created: the token is not written, the
    failure is written to the console and the caller is not told. *)
Lemma saveToken_without_directory (env : Env) (w : World) (t m : string) :
  configDir w = false ->
  env_fsError env OpMkdir = Some m ->
  saveToken t env w = (Return tt, withLine ("Failed to save token: Error: " ++ m) w).
Proof.
  intros Hdir Hmk.
  unfold saveToken, configDirExists, fsDo. unfoldM. cbv beta iota zeta.
  rewrite Hdir. cbv beta iota. rewrite Hmk. reflexivity.
Qed.

End TokenStoreFacts.

(** X1.  The three operations of the token store never throw, whatever the
    disk does: [loadToken], [saveToken] and [clearToken] always return.
    None of them touches the token held in the process or makes an external
    call, and [loadToken] leaves the token file as it is. *)
Theorem token_store_never_throws (env : Env) (w : World) (t : string) :
  (exists r w', TokenStore.loadToken env w = (Return r, w')
                /\ token w' = token w /\ tokenFile w' = tokenFile w
                /\ events w' = events w)
  /\ (exists w', TokenStore.saveToken t env w = (Return tt, w')
                 /\ token w' = token w /\ events w' = events w)
  /\ (exists w', TokenStore.clearToken env w = (Return tt, w')
                 /\ token w' = token w /\ events w' = events w).
Proof.
  unfold TokenStore.loadToken, TokenStore.saveToken, TokenStore.clearToken,
    TokenStore.tokenFileExists, TokenStore.configDirExists, TokenStore.readTokenFile,
    TokenStore.fsDo.
  unfoldM. cbv beta iota zeta.
  split; [|split].
  - destruct (tokenFile w) eqn:Hf; cbv beta iota; rewrite ?Hf; cbv beta iota.
    + destruct (env_fsError env OpRead); cbv beta iota;
        (eexists; eexists; split; [reflexivity | repeat split; exact Hf]).
    + eexists; eexists; split; [reflexivity | repeat split; exact Hf].
  - destruct (configDir w); cbv beta iota;
      repeat match goal with
             | |- context [env_fsError env ?op] => destruct (env_fsError env op); cbv beta iota
             end;
      (eexists; split; [reflexivity | split; reflexivity]).
  - destruct (tokenFile w); cbv beta iota;
      repeat match goal with
             | |- context [env_fsError env ?op] => destruct (env_fsError env op); cbv beta iota
             end;
      (eexists; split; [reflexivity | split; reflexivity]).
Qed.

(** X2.  When the deletion of the token file does not fail, [loadToken]
    after [clearToken] returns [null], whether or not there was a token
    file; nothing but the token file has changed. *)
Theorem clearToken_then_loadToken (env : Env) (w : World) :
  env_fsError env OpUnlink = None ->
  TokenStore.loadToken env (snd (TokenStore.clearToken env w))
  = (Return None, withTokenFile None w).
Proof.
  intros Hun.
  unfold TokenStore.loadToken, TokenStore.clearToken, TokenStore.tokenFileExists,
    TokenStore.readTokenFile, TokenStore.fsDo.
  unfoldM. cbv beta iota zeta.
  destruct (tokenFile w) eqn:Hf; cbv beta iota.
  - rewrite Hun. reflexivity.
  - cbn [snd]. rewrite ?Hf. cbv beta iota. destruct w; cbn in *; subst; reflexivity.
Qed.

Lemma clearToken_then_loadToken_witness :
  TokenStore.loadToken quietEnv (snd (TokenStore.clearToken quietEnv signedInWorld))
  = (Return None, withTokenFile None signedInWorld).
Proof.
  apply (clearToken_then_loadToken quietEnv signedInWorld).
  reflexivity.
Defined.

(* ================================================================== *)
(** * 22. The executor                                                 *)
(* ================================================================== *)

(** X3.  [apiRequest] never lets an error of the HTTP client through: an
    error it throws is not an axios error and carries no response status,
    so no caller can branch on the status of a failed request. *)
Theorem apiRequest_failure_is_plain_error (env : Env) (w : World) (endpoint : string)
    (method : HttpMethod) (params : gmap string Json) (data : Body) (isFormData : bool)
    (e : JsError) :
  fst (Service.apiRequest endpoint method params data isFormData env w) = Throw e ->
  isAxiosError e = false /\ responseStatus e = None.
Proof.
  unfold Service.apiRequest, Service.getApiHeaders, Service.getApiBaseUrl.
  unfoldM. cbv beta iota zeta.
  destruct isFormData; cbv beta iota;
    (destruct (env_http env _ _) as [d|e0]; cbv beta iota; [discriminate|];
     destruct e0; cbn; intros [= <-]; split; reflexivity).
Qed.

Lemma apiRequest_failure_is_plain_error_witness :
  isAxiosError (PlainError "API request failed (404): Not found.") = false
  /\ responseStatus (PlainError "API request failed (404): Not found.") = None.
Proof.
  apply (apiRequest_failure_is_plain_error notFoundEnv freshWorld "user/me/" GET ∅ NoBody
           false (PlainError "API request failed (404): Not found.")).
  reflexivity.
Defined.

(** X4.  [apiRequest] makes exactly one HTTP request, to the base URL
    followed by the endpoint.  Its [Authorization] header is [Token]
    followed by the token when a non-empty token is held and is empty
    otherwise; the [Content-Type] header is sent unless the body is form
    data.  The token is left as it is and nothing is written to the
    console. *)
Theorem apiRequest_request_shape (env : Env) (w : World) (endpoint : string)
    (method : HttpMethod) (params : gmap string Json) (data : Body) (isFormData : bool) :
  let w' := snd (Service.apiRequest endpoint method params data isFormData env w) in
  events w'
  = (events w
     ++ [EvHttp (mkApiRequest method (CURRENT_API_URL ++ endpoint)
                   (("Authorization",
                     if truthyS (token w) then ("Token " ++ default "" (token w))%string else "")
                    :: (if isFormData then [] else [("Content-Type", "application/json")]))
                   params data)])%list
  /\ token w' = token w /\ console w' = console w.
Proof.
  unfold Service.apiRequest, Service.getApiHeaders, Service.getApiBaseUrl,
    Service.authorization.
  unfoldM. cbv beta iota zeta.
  destruct isFormData; cbv beta iota;
    (destruct (env_http env _ _) as [d|e0]; cbv beta iota;
     [|destruct (isAxiosError e0)]; repeat split; reflexivity).
Qed.

(** X5.  [executeCommand] returns the standard output of the command when
    it succeeds, followed by its standard error only for a
    [swagger extract] command whose standard error is not blank, and
    throws an error whose message is [NightVision command failed: ]
    followed by the message of the failure otherwise.  Either way it
    attempts the one command and changes nothing but the console. *)
Theorem executeCommand_outcome (env : Env) (w : World) (args : list string)
    (format : OutputFormat) (skip : bool) :
  fst (Service.executeCommand args format skip env w)
  = match env_exec env (events w) (Service.commandLine (token w) args format skip) with
    | ExecOk stdout stderr =>
        Return (if (Service.isSwaggerExtract args && Service.nonBlank stderr)%bool
                then stdout ++ (if (stdout =? "") then "" else nl) ++ stderr
                else stdout)
    | ExecFail m => Throw (PlainError ("NightVision command failed: " ++ m))
    end
  /\ onlyLogged w (snd (Service.executeCommand args format skip env w))
       [EvExec (Service.commandLine (token w) args format skip)].
Proof.
  split.
  - unfold Service.executeCommand. unfoldM. cbv beta iota zeta. cbn [events withLine].
    destruct (env_exec env _ _) as [out err|m]; cbv beta iota; [|reflexivity].
    destruct (Service.nonBlank err); cbv beta iota;
      destruct (Service.isSwaggerExtract args); reflexivity.
  - apply executeCommand_onlyLogged.
Qed.

(** X6.  [isInstalled] never throws: it returns [true] when the [version]
    command of the command-line tool succeeds and [false] when it fails. *)
Theorem isInstalled_reports_version_command (env : Env) (w : World) :
  fst (Service.isInstalled env w)
  = Return (match env_exec env (events w)
                    (Service.commandLine (token w) ["version"] FText false) with
            | ExecOk _ _ => true
            | ExecFail _ => false
            end).
Proof.
  unfold Service.isInstalled. unfold tryCatch at 1. rewrite run_bind.
  pose proof (executeCommand_result env w ["version"] FText false) as Hout.
  destruct (Service.executeCommand ["version"] FText false env w) as [[out|e] w1];
    cbn [fst] in Hout;
    destruct (env_exec env _ _); try discriminate; reflexivity.
Qed.

(* ================================================================== *)
(** * 23. Creating and validating a credential                         *)
(* ================================================================== *)

Section CredentialFacts.

Import Service.

(** X7.  [createToken] always attempts two commands, in this order: the
    interactive login, then the token creation, whether or not the login
    succeeded.  The token creation command never carries the token held by
    the process, and neither that token nor the token file is changed. *)
Theorem createToken_runs_login_then_create (env : Env) (w : World)
    (expiryDate : option string) :
  let w' := snd (createToken expiryDate env w) in
  events w'
  = (events w
     ++ [EvExec loginCommand;
         EvExec (commandLine None (tokenCreateArgs expiryDate) FText true)])%list
  /\ token w' = token w /\ tokenFile w' = tokenFile w.
Proof.
  cbv zeta. remember (createToken expiryDate env w) as run eqn:Hrun.
  unfold createToken in Hrun. fold (tokenCreateArgs expiryDate) in Hrun.
  fold loginCommand in Hrun.
  unfold tryCatch at 1 in Hrun. rewrite run_bind in Hrun. unfold tryCatch at 1 in Hrun.
  rewrite run_bind in Hrun. unfold consoleError at 1 in Hrun. cbv beta iota in Hrun.
  rewrite run_bind in Hrun. unfold execAsync at 1 in Hrun. cbv beta iota zeta in Hrun.
  destruct (env_exec env _ loginCommand) as [out0 err0|m0]; cbv beta iota in Hrun;
    unfold consoleError at 1 in Hrun; cbv beta iota in Hrun; rewrite run_bind in Hrun;
    match type of Hrun with
    | context [executeCommand ?a ?f ?s env ?w0] =>
        pose proof (executeCommand_onlyLogged env w0 a f s) as Hlog;
        destruct (executeCommand a f s env w0) as [[output|e] w2]
    end; cbn [snd] in Hlog; destruct Hlog as (Hev & _ & Htok & _ & Hfile & _);
    rewrite commandLine_skipToken in Hev; cbn [events withLine withEvent] in Hev;
    cbn [token tokenFile withLine withEvent] in Htok, Hfile;
    rewrite <- (List.app_assoc _ _ _) in Hev; cbv beta iota in Hrun.
  all: try (destruct (lastLineTrimmed output =? ""); cbv beta iota in Hrun).
  all: unfoldM; try (destruct (String.length (lastLineTrimmed output) <? 20)%nat);
    subst run; cbn [fst snd events token tokenFile withLine]; repeat split; assumption.
Qed.

(** X8.  The result of [createToken] is decided by the token creation
    command alone; a failed login is tolerated.  When the command succeeds,
    the new token is the last line of its trimmed output, trimmed; an empty
    last line and a failed command throw an error whose message ends with
    the instructions for a manual login. *)
Theorem createToken_outcome (env : Env) (w : World) (expiryDate : option string) :
  fst (createToken expiryDate env w)
  = match env_exec env (events w ++ [EvExec loginCommand])
            (commandLine None (tokenCreateArgs expiryDate) FText true) with
    | ExecOk stdout _ =>
        if (lastLineTrimmed stdout =? "")
        then Throw (PlainError
               (("Failed to create new token. Please manually run: nightvision login --api-url "
                 ++ CURRENT_API_URL) ++ manualLogin))
        else Return (lastLineTrimmed stdout)
    | ExecFail m =>
        Throw (PlainError (("NightVision command failed: " ++ m) ++ manualLogin))
    end.
Proof.
  remember (createToken expiryDate env w) as run eqn:Hrun.
  unfold createToken in Hrun. fold (tokenCreateArgs expiryDate) in Hrun.
  fold loginCommand in Hrun.
  unfold tryCatch at 1 in Hrun. rewrite run_bind in Hrun. unfold tryCatch at 1 in Hrun.
  rewrite run_bind in Hrun. unfold consoleError at 1 in Hrun. cbv beta iota in Hrun.
  rewrite run_bind in Hrun. unfold execAsync at 1 in Hrun. cbv beta iota zeta in Hrun.
  destruct (env_exec env _ loginCommand) as [out0 err0|m0]; cbv beta iota in Hrun;
    unfold consoleError at 1 in Hrun; cbv beta iota in Hrun; rewrite run_bind in Hrun;
    match type of Hrun with
    | context [executeCommand ?a ?f ?s env ?w0] =>
        pose proof (executeCommand_result env w0 a f s) as Hout;
        destruct (executeCommand a f s env w0) as [[output|e] w2]
    end; cbn [fst] in Hout;
    rewrite commandLine_skipToken in Hout; cbn [events withLine withEvent] in Hout;
    rewrite isSwaggerExtract_tokenCreate in Hout; cbn [andb] in Hout;
    cbv beta iota in Hrun;
    destruct (env_exec env _ (commandLine None _ _ _)) as [stdout stderr|m];
    try discriminate; injection Hout as Hout; subst.
  all: try (destruct (lastLineTrimmed stdout =? ""); cbv beta iota).
  all: unfoldM; try (destruct (String.length (lastLineTrimmed stdout) <? 20)%nat);
    reflexivity.
Qed.

(** X9.  [verifyProductionAuth] never throws.  Without a token it returns
    [false] and makes no request; with one it makes the single request
    [GET user/me/] with that token and returns [true] exactly when the
    response has a truthy [user.id]; a failed request gives [false].  The
    token held is never changed. *)
Theorem verifyProductionAuth_outcome (env : Env) (w : World) :
  let request :=
    mkApiRequest GET (CURRENT_API_URL ++ "user/me/")
      [("Authorization", "Token " ++ default "" (token w));
       ("Content-Type", "application/json")] ∅ NoBody in
  let run := verifyProductionAuth env w in
  fst run
  = Return (if truthyS (token w)
            then match env_http env (events w) request with
                 | HttpOk response =>
                     (truthy (prop response "user")
                      && truthy (prop (prop response "user") "id"))%bool
                 | HttpFail _ => false
                 end
            else false)
  /\ events (snd run)
     = (if truthyS (token w) then events w ++ [EvHttp request] else events w)%list
  /\ token (snd run) = token w.
Proof.
  cbv zeta.
  unfold verifyProductionAuth, apiRequest, getApiHeaders, getApiBaseUrl, authorization,
    member.
  unfoldM. cbv beta iota zeta.
  destruct (truthyS (token w)) eqn:Htok; cbv beta iota; rewrite ?Htok;
    [|repeat split; reflexivity].
  destruct (env_http env _ _) as [d|e]; cbv beta iota;
    [destruct d; repeat split; reflexivity|].
  destruct e; repeat split; reflexivity.
Qed.

(** X10.  [ensureProductionAuth] only reports: it returns what
    [verifyProductionAuth] returns and makes the same external calls; it
    never attempts a login and never changes the token. *)
Theorem ensureProductionAuth_only_reports (env : Env) (w : World) :
  fst (ensureProductionAuth env w) = fst (verifyProductionAuth env w)
  /\ events (snd (ensureProductionAuth env w)) = events (snd (verifyProductionAuth env w))
  /\ token (snd (ensureProductionAuth env w)) = token w.
Proof.
  destruct (verifyProductionAuth_run env w) as (b & w1 & Hrun & Htok & _).
  unfold ensureProductionAuth. rewrite !run_bind. rewrite Hrun.
  destruct b; cbn; repeat split; assumption.
Qed.

End CredentialFacts.

(* ================================================================== *)
(** * 24. The scan operations                                          *)
(* ================================================================== *)

Section ScanFacts.

Import Service.

(** X11.  When the scan command succeeds, [startScan] returns its output
    unchanged if the format is not JSON, and also if the output does not
    parse as JSON: a parse failure is written to the console, not thrown. *)
Theorem startScan_returns_raw_output (env : Env) (w : World) (targetName : string)
    (options : ScanOptions) (format : OutputFormat) (out err : string) :
  env_exec env (events w) (commandLine (token w) (scanArgs targetName options) format false)
  = ExecOk out err ->
  isFormat format FJson = false \/ (exists e, JSON_parse env out = Throw e) ->
  fst (startScan targetName options format env w) = Return out.
Proof.
  intros Hexec Hcase.
  destruct (startScan_run env w targetName options format out err Hexec) as (w1 & Hrun).
  unfold startScan. rewrite run_bind, Hrun.
  destruct Hcase as [Hfmt|[e He]].
  - rewrite Hfmt. reflexivity.
  - destruct (isFormat format FJson); [|reflexivity].
    unfold tryCatch. rewrite run_bind. unfold lift at 1. rewrite He. reflexivity.
Qed.

Lemma startScan_returns_raw_output_witness :
  fst (startScan "shop" (mkScanOptions None None None (Some "main") None) FJson
         quietEnv freshWorld) = Return "".
Proof.
  apply (startScan_returns_raw_output quietEnv freshWorld "shop"
           (mkScanOptions None None None (Some "main") None) FJson "" "").
  - reflexivity.
  - right. eexists. reflexivity.
Defined.

(** X12.  When the scan command succeeds in JSON format and its output
    parses as an object with a truthy [id], [startScan] returns the
    serialisation of that object with [extracted_id] set to the [id]; every
    other property of the object is as it was parsed. *)
Theorem startScan_adds_extracted_id (env : Env) (w : World) (targetName : string)
    (options : ScanOptions) (out err : string) (fields : list (string * Json)) :
  env_exec env (events w) (commandLine (token w) (scanArgs targetName options) FJson false)
  = ExecOk out err ->
  JSON_parse env out = Return (JObj fields) ->
  truthy (assoc "id" fields) = true ->
  exists fields',
    fst (startScan targetName options FJson env w)
    = Return (JSON_stringify2 env (JObj fields'))
    /\ assoc "extracted_id" fields' = assoc "id" fields
    /\ forall k, k <> "extracted_id" -> assoc k fields' = assoc k fields.
Proof.
  intros Hexec Hparse Hid.
  destruct (startScan_run env w targetName options FJson out err Hexec) as (w1 & Hrun).
  exists (setField "extracted_id" (assoc "id" fields) fields). split; [|split].
  - unfold startScan. rewrite run_bind, Hrun. cbn [isFormat].
    unfold tryCatch. rewrite run_bind. unfold lift at 1. rewrite Hparse.
    cbv beta iota. rewrite run_bind. cbn [member prop]. unfold mret, M_ret, ret at 1.
    cbv beta iota. rewrite Hid. rewrite run_bind. reflexivity.
  - apply assoc_setField_eq.
  - intros k Hk. now apply assoc_setField_ne.
Qed.

Lemma startScan_adds_extracted_id_witness :
  exists fields',
    fst (startScan "shop" (mkScanOptions None None None (Some "main") None) FJson
           scanStartedEnv freshWorld)
    = Return (JSON_stringify2 scanStartedEnv (JObj fields'))
    /\ assoc "extracted_id" fields'
       = assoc "id" [("id", JStr "scan-1"); ("status", JStr "queued")]
    /\ forall k, k <> "extracted_id" ->
         assoc k fields' = assoc k [("id", JStr "scan-1"); ("status", JStr "queued")].
Proof.
  apply (startScan_adds_extracted_id scanStartedEnv freshWorld "shop"
           (mkScanOptions None None None (Some "main") None) "{}" ""
           [("id", JStr "scan-1"); ("status", JStr "queued")]); reflexivity.
Defined.

(** X13.  [listScans] makes exactly one request, [GET scans/], whatever the
    format and the outcome.  A filter is sent under the key [target_name],
    [project_name], [project_id] or [limit] exactly when the option is
    truthy (an empty string and a limit of zero are left out), and [status]
    is sent exactly when the option is a non-empty string other than
    [all]. *)
Theorem listScans_request (env : Env) (w : World) (options : ListScansOptions)
    (format : OutputFormat) :
  (exists headers,
     events (snd (listScans options format env w))
     = (events w
        ++ [EvHttp (mkApiRequest GET (CURRENT_API_URL ++ "scans/") headers
                      (listScansParams options) NoBody)])%list)
  /\ listScansParams options !! "target_name"
     = (if truthyS (ls_target options) then JStr <$> ls_target options else None)
  /\ listScansParams options !! "project_name"
     = (if truthyS (ls_project options) then JStr <$> ls_project options else None)
  /\ listScansParams options !! "project_id"
     = (if truthyS (ls_project_id options) then JStr <$> ls_project_id options else None)
  /\ listScansParams options !! "limit"
     = (if truthyZ (ls_limit options) then JNum <$> ls_limit options else None)
  /\ listScansParams options !! "status"
     = (match ls_status options with
        | Some s => if ((s =? "") || (s =? "all"))%bool then None else Some (JStr s)
        | None => None
        end).
Proof.
  split.
  - destruct (apiRequest_events env (withLine "Listing scans via API endpoint..." w)
                "scans/" GET (listScansParams options) NoBody false) as (headers & Hev).
    exists headers. unfold listScans.
    unfold tryCatch at 1. unfold mbind, M_bind, bind at 1. unfold consoleError at 1.
    unfold bind at 1.
    destruct (apiRequest _ _ _ _ _ env _) as [[response|e] w1]; cbn [snd] in Hev |- *;
      [|exact Hev].
    destruct format.
    + exact Hev.
    + exact Hev.
    + assert (Hs : Stateless
                (results ← member response "results";
                 items ← arrayOf results "map";
                 rows ← forEach scanRow items;
                 mret (join nl ([join tab ["ID"; "Target"; "Status"; "Created"; "Project"];
                                 join tab (map (fun _ => "----")
                                             ["ID"; "Target"; "Status"; "Created"; "Project"])]
                                ++ rows)%list) : M string)).
      { apply Stateless_bind; [apply Stateless_member | intros results].
        apply Stateless_bind; [apply Stateless_arrayOf | intros items].
        apply Stateless_bind; [apply Stateless_forEach, Stateless_scanRow | intros rows].
        apply Stateless_ret. }
      specialize (Hs env w1). cbv zeta.
      match goal with
      | |- context [match ?m env w1 with _ => _ end] =>
          change (snd (m env w1) = w1) in Hs; destruct (m env w1) as [[t|e] w2]
      end; cbn [snd] in Hs; subst w2; exact Hev.
  - unfold listScansParams. cbv zeta.
    destruct options as [target project project_id limit status].
    cbn [ls_target ls_project ls_project_id ls_limit ls_status].
    repeat split;
      rewrite ?lookup_setIf_ne by discriminate; rewrite lookup_setIf_eq;
      rewrite ?lookup_setIf_ne by discriminate; rewrite ?lookup_empty.
    + destruct target; reflexivity.
    + destruct project; reflexivity.
    + destruct project_id; reflexivity.
    + destruct limit; reflexivity.
    + destruct status as [s|]; [|reflexivity].
      change (default "" (Some s)) with s. cbn [truthyS].
      destruct (s =? ""); cbn [negb andb orb]; [reflexivity|].
      destruct (s =? "all"); reflexivity.
Qed.

(** X14.  When the API answers with an error response, each of the four
    scan reads throws an error whose message is its own prefix followed by
    the message of [apiRequest]: the status in parentheses, then the detail
    of the response or, without one, the message of the HTTP client. *)
Theorem scan_reads_wrap_api_failures (env : Env) (w : World) (st : option Z)
    (detail : option string) (msg scanId : string) (format : OutputFormat)
    (scans : ListScansOptions) (checks : ChecksOptions) (paths : PathsOptions) :
  (forall calls request, env_http env calls request = HttpFail (AxiosError st detail msg)) ->
  fst (listScans scans format env w)
  = Throw (PlainError ("Failed to list scans: " ++ apiMessage st detail msg))
  /\ fst (getScanStatus scanId format env w)
     = Throw (PlainError ("Failed to get scan status: " ++ apiMessage st detail msg))
  /\ fst (getScanChecks scanId checks format env w)
     = Throw (PlainError ("Failed to get scan checks: " ++ apiMessage st detail msg))
  /\ fst (getScanPaths scanId paths format env w)
     = Throw (PlainError ("Failed to get scan paths: " ++ apiMessage st detail msg)).
Proof.
  intros Hhttp. repeat split.
  - unfold listScans. unfold tryCatch at 1; rewrite run_bind; unfold consoleError at 1; cbv beta iota;
      rewrite run_bind; rewrite apiRequest_run; cbv zeta. rewrite Hhttp. reflexivity.
  - unfold getScanStatus. unfold tryCatch at 1; rewrite run_bind; unfold consoleError at 1; cbv beta iota;
      rewrite run_bind; rewrite apiRequest_run; cbv zeta. rewrite Hhttp. reflexivity.
  - unfold getScanChecks. unfold tryCatch at 1; rewrite run_bind; unfold consoleError at 1; cbv beta iota;
      rewrite run_bind; rewrite apiRequest_run; cbv zeta. rewrite Hhttp. reflexivity.
  - unfold getScanPaths. unfold tryCatch at 1; rewrite run_bind; unfold consoleError at 1; cbv beta iota;
      rewrite run_bind; rewrite apiRequest_run; cbv zeta. rewrite Hhttp. reflexivity.
Qed.

Lemma scan_reads_wrap_api_failures_witness :
  fst (listScans (mkListScansOptions None None None None None) FJson notFoundEnv freshWorld)
  = Throw (PlainError ("Failed to list scans: "
                       ++ apiMessage (Some 404%Z) (Some "Not found.")
                            "Request failed with status code 404"))
  /\ fst (getScanStatus "s1" FJson notFoundEnv freshWorld)
     = Throw (PlainError ("Failed to get scan status: "
                          ++ apiMessage (Some 404%Z) (Some "Not found.")
                               "Request failed with status code 404"))
  /\ fst (getScanChecks "s1" (mkChecksOptions None None None None ["high"] [0%Z]) FJson
            notFoundEnv freshWorld)
     = Throw (PlainError ("Failed to get scan checks: "
                          ++ apiMessage (Some 404%Z) (Some "Not found.")
                               "Request failed with status code 404"))
  /\ fst (getScanPaths "s1" (mkPathsOptions None None None) FJson notFoundEnv freshWorld)
     = Throw (PlainError ("Failed to get scan paths: "
                          ++ apiMessage (Some 404%Z) (Some "Not found.")
                               "Request failed with status code 404")).
Proof.
  apply (scan_reads_wrap_api_failures notFoundEnv freshWorld (Some 404%Z) (Some "Not found.")
           "Request failed with status code 404" "s1" FJson).
  intros calls request. reflexivity.
Defined.

(** X15.  A page without a [results] array is not an error for the text
    and table formats of [getScanChecks] and [getScanPaths]: they return
    the fixed sentence that nothing was found or that the response format
    is invalid. *)
Theorem scan_pages_without_results (env : Env) (w : World) (page : Json) (scanId : string)
    (format : OutputFormat) (checks : ChecksOptions) (paths : PathsOptions) :
  (forall calls request, env_http env calls request = HttpOk page) ->
  resultsOf page = None ->
  isFormat format FJson = false ->
  fst (getScanChecks scanId checks format env w)
  = Return "No vulnerabilities found or invalid response format."
  /\ fst (getScanPaths scanId paths format env w)
     = Return "No paths found or invalid response format.".
Proof.
  intros Hhttp Hres Hfmt. split.
  - unfold getScanChecks. unfold tryCatch at 1; rewrite run_bind; unfold consoleError at 1; cbv beta iota;
      rewrite run_bind; rewrite apiRequest_run; cbv zeta. rewrite Hhttp. cbv beta iota.
    unfold formatChecksAsText, formatChecksAsTable. rewrite Hres.
    destruct format; [reflexivity | discriminate | reflexivity].
  - unfold getScanPaths. unfold tryCatch at 1; rewrite run_bind; unfold consoleError at 1; cbv beta iota;
      rewrite run_bind; rewrite apiRequest_run; cbv zeta. rewrite Hhttp. cbv beta iota.
    unfold formatPathsAsText, formatPathsAsTable. rewrite Hres.
    destruct format; [reflexivity | discriminate | reflexivity].
Qed.

Lemma scan_pages_without_results_witness :
  fst (getScanChecks "s1" (mkChecksOptions None None None None ["high"] [0%Z]) FTable
         quietEnv freshWorld)
  = Return "No vulnerabilities found or invalid response format."
  /\ fst (getScanPaths "s1" (mkPathsOptions None None None) FTable quietEnv freshWorld)
     = Return "No paths found or invalid response format.".
Proof.
  apply (scan_pages_without_results quietEnv freshWorld (JObj []) "s1" FTable).
  - intros calls request. reflexivity.
  - reflexivity.
  - reflexivity.
Defined.

End ScanFacts.

(* ================================================================== *)
(** * 25. Projects and templates                                       *)
(* ================================================================== *)

Section TemplateFacts.

Import Service.

(** X16.  When the API answers the lookup of a project by name with a page
    whose first result is truthy, [getProjectByName] returns that first
    result, however many results there are.  The name is put into the path
    of the one request as it is given. *)
Theorem getProjectByName_returns_first_match (env : Env) (w : World) (projectName : string)
    (response project : Json) (others : list Json) :
  (forall calls request, env_http env calls request = HttpOk response) ->
  prop response "results" = JArr (project :: others) ->
  truthy project = true ->
  fst (getProjectByName projectName env w) = Return project
  /\ exists headers,
       events (snd (getProjectByName projectName env w))
       = (events w
          ++ [EvHttp (mkApiRequest GET
                        (CURRENT_API_URL ++ "projects/name/" ++ projectName ++ "/")
                        headers ∅ NoBody)])%list.
Proof.
  intros Hhttp Hres Hproj.
  assert (Htruthy : truthy response = true).
  { destruct response; try discriminate. reflexivity. }
  remember (getProjectByName projectName env w) as run eqn:Hrun.
  unfold getProjectByName in Hrun.
  unfold tryCatch at 1 in Hrun. rewrite run_bind in Hrun.
  unfold consoleError at 1 in Hrun. cbv beta iota in Hrun.
  rewrite run_bind in Hrun. rewrite apiRequest_run in Hrun. cbv zeta in Hrun.
  rewrite Hhttp in Hrun. cbv beta iota in Hrun.
  rewrite Htruthy, Hres in Hrun. cbn [truthy first negb orb] in Hrun. rewrite Hproj in Hrun.
  cbn [negb] in Hrun. subst run. split; [reflexivity|].
  eexists. reflexivity.
Qed.

Lemma getProjectByName_returns_first_match_witness :
  fst (getProjectByName "main" projectsEnv freshWorld) = Return (JObj [("name", JStr "main")])
  /\ exists headers,
       events (snd (getProjectByName "main" projectsEnv freshWorld))
       = (events freshWorld
          ++ [EvHttp (mkApiRequest GET (CURRENT_API_URL ++ "projects/name/" ++ "main" ++ "/")
                        headers ∅ NoBody)])%list.
Proof.
  apply (getProjectByName_returns_first_match projectsEnv freshWorld "main"
           (JObj [("count", JNum 2);
                  ("results", JArr [JObj [("name", JStr "main")];
                                    JObj [("name", JStr "main-copy")]])])
           (JObj [("name", JStr "main")]) [JObj [("name", JStr "main-copy")]]).
  - intros calls request. reflexivity.
  - reflexivity.
  - reflexivity.
Defined.

(** X17.  [uploadNucleiTemplate] validates before it uploads: when the
    file does not exist, or when its content lacks [id:] or [info:], the
    operation throws and no request has been made. *)
Theorem uploadNucleiTemplate_validates_before_upload (env : Env) (w : World)
    (templateId filePath : string) (format : OutputFormat) :
  env_existsSync env filePath = false
  \/ (exists content, env_readFile env filePath = Return content
                      /\ (includes content "id:" && includes content "info:")%bool = false) ->
  (exists e, fst (uploadNucleiTemplate templateId filePath format env w) = Throw e)
  /\ events (snd (uploadNucleiTemplate templateId filePath format env w)) = events w.
Proof.
  intros Hcase.
  remember (uploadNucleiTemplate templateId filePath format env w) as run eqn:Hrun.
  unfold uploadNucleiTemplate in Hrun.
  unfold tryCatch at 1 in Hrun. rewrite run_bind in Hrun.
  unfold consoleError at 1 in Hrun. cbv beta iota in Hrun.
  rewrite run_bind in Hrun. unfold ask at 1 in Hrun. cbv beta iota in Hrun.
  destruct Hcase as [Hmissing|(content & Hread & Hbad)].
  - rewrite Hmissing in Hrun. cbn [negb] in Hrun. unfold throw at 1 in Hrun.
    cbv beta iota in Hrun. rewrite run_bind in Hrun. unfold consoleError at 1 in Hrun.
    cbv beta iota in Hrun.
    repeat match type of Hrun with
           | context [if ?c then _ else _] => destruct c
           end; subst run; (split; [eexists; reflexivity | reflexivity]).
  - destruct (env_existsSync env filePath); cbn [negb] in Hrun.
    + rewrite run_bind in Hrun. unfold lift at 1 in Hrun. rewrite Hread in Hrun.
      cbv beta iota in Hrun.
      replace (negb (includes content "id:") || negb (includes content "info:"))%bool
        with true in Hrun
        by (destruct (includes content "id:"), (includes content "info:");
            cbn in Hbad |- *; congruence).
      unfold throw at 1 in Hrun. cbv beta iota in Hrun. rewrite run_bind in Hrun.
      unfold consoleError at 1 in Hrun. cbv beta iota in Hrun.
      repeat match type of Hrun with
             | context [if ?c then _ else _] => destruct c
             end; subst run; (split; [eexists; reflexivity | reflexivity]).
    + unfold throw at 1 in Hrun. cbv beta iota in Hrun. rewrite run_bind in Hrun.
      unfold consoleError at 1 in Hrun. cbv beta iota in Hrun.
      repeat match type of Hrun with
             | context [if ?c then _ else _] => destruct c
             end; subst run; (split; [eexists; reflexivity | reflexivity]).
Qed.

Lemma uploadNucleiTemplate_validates_before_upload_witness :
  (exists e, fst (uploadNucleiTemplate "t1" "/tmp/check.yaml" FJson quietEnv freshWorld)
             = Throw e)
  /\ events (snd (uploadNucleiTemplate "t1" "/tmp/check.yaml" FJson quietEnv freshWorld))
     = events freshWorld.
Proof.
  apply (uploadNucleiTemplate_validates_before_upload quietEnv freshWorld "t1"
           "/tmp/check.yaml" FJson).
  right. exists "". split; reflexivity.
Defined.

(** X18.  [createNucleiTemplate] rejects a blank name, and then a blank
    project id, before any request: the error thrown carries the message of
    the check itself, unprefixed, and no request has been made. *)
Theorem createNucleiTemplate_requires_name_and_project (env : Env) (w : World)
    (name projectId : string) (description : option string) (format : OutputFormat) :
  Tools.blank name = true \/ Tools.blank projectId = true ->
  fst (createNucleiTemplate name description projectId format env w)
  = Throw (PlainError (if Tools.blank name then "Template name is required"
                       else "Project ID is required"))
  /\ events (snd (createNucleiTemplate name description projectId format env w)) = events w.
Proof.
  intros Hcase. unfold Tools.blank in *.
  unfold createNucleiTemplate. unfold tryCatch.
  destruct ((name =? "") || (trim name =? ""))%bool; [split; reflexivity|].
  destruct Hcase as [Hn|Hp]; [discriminate|]. rewrite Hp. split; reflexivity.
Qed.

Lemma createNucleiTemplate_requires_name_and_project_witness :
  fst (createNucleiTemplate "  " None "p1" FJson quietEnv freshWorld)
  = Throw (PlainError (if Tools.blank "  " then "Template name is required"
                       else "Project ID is required"))
  /\ events (snd (createNucleiTemplate "  " None "p1" FJson quietEnv freshWorld))
     = events freshWorld.
Proof.
  apply (createNucleiTemplate_requires_name_and_project quietEnv freshWorld "  " "p1" None
           FJson).
  left. reflexivity.
Defined.

(** X19.  [assignNucleiTemplate] rejects a blank target id, and then a
    blank template id, before any request; unlike the checks of
    [createNucleiTemplate], the message of the check comes back behind the
    prefix of the operation. *)
Theorem assignNucleiTemplate_requires_ids (env : Env) (w : World)
    (targetId templateId : string) (format : OutputFormat) :
  Tools.blank targetId = true \/ Tools.blank templateId = true ->
  fst (assignNucleiTemplate targetId templateId format env w)
  = Throw (PlainError ("Failed to assign nuclei template to target: "
                       ++ (if Tools.blank targetId then "Target ID is required"
                           else "Template ID is required")))
  /\ events (snd (assignNucleiTemplate targetId templateId format env w)) = events w.
Proof.
  intros Hcase. unfold Tools.blank in *.
  unfold assignNucleiTemplate. unfold tryCatch. rewrite run_bind.
  unfold consoleError at 1. cbv beta iota.
  destruct ((targetId =? "") || (trim targetId =? ""))%bool; [split; reflexivity|].
  destruct Hcase as [Hn|Hp]; [discriminate|]. rewrite Hp. split; reflexivity.
Qed.

Lemma assignNucleiTemplate_requires_ids_witness :
  fst (assignNucleiTemplate "target-1" "" FJson quietEnv freshWorld)
  = Throw (PlainError ("Failed to assign nuclei template to target: "
                       ++ (if Tools.blank "target-1" then "Target ID is required"
                           else "Template ID is required")))
  /\ events (snd (assignNucleiTemplate "target-1" "" FJson quietEnv freshWorld))
     = events freshWorld.
Proof.
  apply (assignNucleiTemplate_requires_ids quietEnv freshWorld "target-1" "" FJson).
  right. reflexivity.
Defined.

(** X20.  With both ids given, [assignNucleiTemplate] posts the template
    id, as the one element of [nuclei_templates], to the assignment
    endpoint of the target; an error response of status 404 comes back as
    the fixed message that the target or the template was not found. *)
Theorem assignNucleiTemplate_not_found (env : Env) (w : World)
    (targetId templateId : string) (format : OutputFormat)
    (detail : option string) (msg : string) :
  Tools.blank targetId = false ->
  Tools.blank templateId = false ->
  (forall calls request,
     env_http env calls request = HttpFail (AxiosError (Some 404%Z) detail msg)) ->
  fst (assignNucleiTemplate targetId templateId format env w)
  = Throw (PlainError "Target ID or Template ID not found. Please check that both exist and you have access to them.")
  /\ exists headers,
       events (snd (assignNucleiTemplate targetId templateId format env w))
       = (events w
          ++ [EvHttp (mkApiRequest POST
                        (CURRENT_API_URL ++ "targets/" ++ targetId
                         ++ "/nuclei-templates/assign/")
                        headers ∅
                        (JsonBody (JObj [("nuclei_templates", JArr [JStr templateId])])))])%list.
Proof.
  intros Htarget Htemplate Hhttp. unfold Tools.blank in *.
  remember (assignNucleiTemplate targetId templateId format env w) as run eqn:Hrun.
  unfold assignNucleiTemplate in Hrun.
  unfold tryCatch at 1 in Hrun. rewrite run_bind in Hrun.
  unfold consoleError at 1 in Hrun. cbv beta iota in Hrun.
  rewrite Htarget, Htemplate in Hrun. cbv zeta in Hrun. rewrite run_bind in Hrun.
  rewrite apiRequest_run in Hrun. cbv zeta in Hrun. rewrite Hhttp in Hrun.
  cbv beta iota in Hrun. subst run. split; [reflexivity|]. eexists. reflexivity.
Qed.

Lemma assignNucleiTemplate_not_found_witness :
  fst (assignNucleiTemplate "target-1" "template-1" FJson notFoundEnv freshWorld)
  = Throw (PlainError "Target ID or Template ID not found. Please check that both exist and you have access to them.")
  /\ exists headers,
       events (snd (assignNucleiTemplate "target-1" "template-1" FJson notFoundEnv freshWorld))
       = (events freshWorld
          ++ [EvHttp (mkApiRequest POST
                        (CURRENT_API_URL ++ "targets/" ++ "target-1"
                         ++ "/nuclei-templates/assign/")
                        headers ∅
                        (JsonBody (JObj [("nuclei_templates", JArr [JStr "template-1"])])))])%list.
Proof.
  apply (assignNucleiTemplate_not_found notFoundEnv freshWorld "target-1" "template-1" FJson
           (Some "Not found.") "Request failed with status code 404").
  - reflexivity.
  - reflexivity.
  - intros calls request. reflexivity.
Defined.

(** X21.  A page of templates whose [results] are missing or empty gives,
    in the text and table formats of [listNucleiTemplates], the fixed
    sentence that no template was found. *)
Theorem listNucleiTemplates_without_results (env : Env) (w : World) (response : Json)
    (options : ListTemplatesOptions) (format : OutputFormat) :
  (forall calls request, env_http env calls request = HttpOk response) ->
  truthy response = true ->
  noResults (prop response "results") = true ->
  isFormat format FJson = false ->
  fst (listNucleiTemplates options format env w) = Return "No nuclei templates found.".
Proof.
  intros Hhttp Htruthy Hnone Hfmt.
  unfold listNucleiTemplates. unfold tryCatch at 1; rewrite run_bind; unfold consoleError at 1; cbv beta iota;
      rewrite run_bind; rewrite apiRequest_run; cbv zeta.
  rewrite Hhttp. cbv beta iota.
  assert (Hmember : forall w0, member response "results" env w0
                               = (Return (prop response "results"), w0)).
  { intros w0. destruct response; try discriminate; reflexivity. }
  destruct format; [|discriminate|]; rewrite run_bind, Hmember; cbv beta iota;
    rewrite Hnone; reflexivity.
Qed.

Lemma listNucleiTemplates_without_results_witness :
  fst (listNucleiTemplates (mkListTemplatesOptions None None None None) FTable
         quietEnv freshWorld) = Return "No nuclei templates found.".
Proof.
  apply (listNucleiTemplates_without_results quietEnv freshWorld (JObj [])).
  - intros calls request. reflexivity.
  - reflexivity.
  - reflexivity.
  - reflexivity.
Defined.

End TemplateFacts.

(* ================================================================== *)
(** * 26. API discovery                                                *)
(* ================================================================== *)

Section DiscoveryFacts.

Import Service.

(** X22.  Without a language, [discoverApi] throws the error that a
    language is required, behind the prefix of the operation, and runs no
    command. *)
Theorem discoverApi_requires_language (env : Env) (w : World) (sourcePaths : list string)
    (options : DiscoverOptions) (format : OutputFormat) (projectPath : string) :
  truthyLang (da_lang options) = false ->
  fst (discoverApi sourcePaths options format projectPath env w)
  = Throw (PlainError
             "Failed to discover API endpoints: Language is required for API discovery")
  /\ events (snd (discoverApi sourcePaths options format projectPath env w)) = events w.
Proof.
  intros Hlang.
  remember (discoverApi sourcePaths options format projectPath env w) as run eqn:Hrun.
  unfold discoverApi in Hrun. rewrite Hlang in Hrun.
  unfoldM. cbv beta iota in Hrun.
  match type of Hrun with
  | context [forEach _ sourcePaths env ?w0] =>
      destruct (absoluteSourcePaths_run env (env_cwd env) projectPath sourcePaths w0)
        as (w1 & Heq1 & Hs1)
  end.
  rewrite Heq1 in Hrun. change (negb false) with true in Hrun. cbv beta iota in Hrun.
  destruct Hs1 as (_ & _ & _ & Hev & _). cbn [events withLine] in Hev.
  subst run. split; [reflexivity | exact Hev].
Qed.

Lemma discoverApi_requires_language_witness :
  fst (discoverApi ["src"]
         (mkDiscoverOptions (OneLang "") None None None None "spec.yml" None None None None
            None)
         FText "/work" quietEnv freshWorld)
  = Throw (PlainError
             "Failed to discover API endpoints: Language is required for API discovery")
  /\ events (snd (discoverApi ["src"]
                    (mkDiscoverOptions (OneLang "") None None None None "spec.yml" None None
                       None None None)
                    FText "/work" quietEnv freshWorld)) = events freshWorld.
Proof.
  apply (discoverApi_requires_language quietEnv freshWorld ["src"]
           (mkDiscoverOptions (OneLang "") None None None None "spec.yml" None None None None
              None)
           FText "/work").
  reflexivity.
Defined.

(** The extraction command carries [--no-upload] unless [no_upload] is
    [false], and does not depend on the [verbose] option. *)
Lemma discoverArgs_upload_and_verbosity (absoluteSourcePaths : list string)
    (options : DiscoverOptions) (outputFile : string) (verbose : option bool) :
  ("--no-upload" ∈ discoverArgs absoluteSourcePaths options outputFile
   \/ da_no_upload options = Some false)
  /\ discoverArgs absoluteSourcePaths
       (mkDiscoverOptions (da_lang options) (da_target options) (da_target_id options)
          (da_project options) (da_project_id options) (da_output options)
          (da_exclude options) (da_version options) (da_no_upload options)
          (da_dump_code options) verbose)
       outputFile
     = discoverArgs absoluteSourcePaths options outputFile.
Proof.
  split; [|reflexivity].
  destruct (da_no_upload options) as [[|]|] eqn:Hup; [left | right; reflexivity | left];
    unfold discoverArgs; rewrite Hup;
    rewrite !elem_of_app; do 10 right; left; apply list_elem_of_here.
Qed.

End DiscoveryFacts.

(* ================================================================== *)
(** * 27. The handlers                                                 *)
(* ================================================================== *)

Section HandlerFacts.

Import Tools.

(** X23.  No handler throws: whatever the call, the environment and the
    state of the process, every handler returns a response, so a failure
    can only reach the client as a response. *)
Theorem handlers_never_throw (svc : TrafficService) (call : ToolCall) (env : Env)
    (w : World) :
  exists response w', handle svc call env w = (Return response, w').
Proof.
  destruct call; cbn [handle];
    match goal with
    | |- exists _ _, ?h _ env w = _ => unfold h
    | |- exists _ _, ?h _ _ env w = _ => unfold h
    end;
    apply tryCatch_returns; intros e env0 w0; eexists; eexists; reflexivity.
Qed.

(** X24.  With a token held, a call that fails the argument check of its
    handler (no project for a scan or a target, neither scan id nor target
    name for a status, no severity or status list for checks, no scan id
    for paths, a blank name or project id for a template, a blank project
    name, no output file for a discovery) gets an error-flagged response,
    and nothing has happened: no external call, nothing scheduled, nothing
    written to the console. *)
Theorem missing_arguments_leave_no_trace (svc : TrafficService) (call : ToolCall)
    (env : Env) (w : World) :
  truthyS (token w) = true ->
  lacksRequiredArguments call = true ->
  exists response,
    handle svc call env w = (Return response, w) /\ errorFlagged response = true.
Proof.
  intros Htok Hargs.
  destruct call; try discriminate Hargs; cbn [handle lacksRequiredArguments] in *;
    match goal with
    | |- exists _, ?h _ env w = _ /\ _ => unfold h
    end;
    unfold tryCatch at 1; unfold mbind, M_bind; unfold bind at 1; unfold getToken at 1;
    cbv beta iota zeta; rewrite Htok; cbn [negb].
  - rewrite Hargs. eexists. split; reflexivity.
  - rewrite Hargs. eexists. split; reflexivity.
  - rewrite Hargs. eexists. split; reflexivity.
  - destruct (missingList (gc_severity args)); [eexists; split; reflexivity|].
    cbn [orb] in Hargs. rewrite Hargs. eexists. split; reflexivity.
  - rewrite Hargs. eexists. split; reflexivity.
  - rewrite Hargs. eexists. split; reflexivity.
  - destruct (blank (cn_name args)); [eexists; split; reflexivity|].
    cbn [orb] in Hargs. rewrite Hargs. eexists. split; reflexivity.
  - rewrite Hargs. eexists. split; reflexivity.
Qed.

Lemma missing_arguments_leave_no_trace_witness :
  exists response,
    handle idleTraffic
      (StartScan (mkStartScanArgs "shop" None None None None None None))
      quietEnv signedInWorld
    = (Return response, signedInWorld)
    /\ errorFlagged response = true.
Proof.
  apply (missing_arguments_leave_no_trace idleTraffic
           (StartScan (mkStartScanArgs "shop" None None None None None None))
           quietEnv signedInWorld); reflexivity.
Defined.

(** X25.  [authenticate] with a given token that the API accepts, on a
    disk that does not fail: the handler reports success, the token is the
    one held by the process and it is the content of the token file. *)
Theorem authenticate_valid_token_is_persisted (env : Env) (w : World) (t : string)
    (expiry : option string) (response : Json) :
  truthyS (Some t) = true ->
  env_fsError env OpMkdir = None ->
  env_fsError env OpWrite = None ->
  (forall calls request, env_http env calls request = HttpOk response) ->
  truthy (prop response "user") = true ->
  truthy (prop (prop response "user") "id") = true ->
  let run := authenticate (mkAuthenticateArgs (Some t) None expiry) env w in
  fst run = Return (textOk ("Successfully authenticated. Token starts with: "
                            ++ take 8 t ++ "..."))
  /\ token (snd run) = Some t
  /\ tokenFile (snd run) = Some t.
Proof.
  intros Ht Hmk Hwr Hhttp Huser Hid. cbv zeta.
  assert (Hmember : member response "user" = mret (prop response "user"))
    by (destruct response; try reflexivity; discriminate Huser).
  remember (authenticate (mkAuthenticateArgs (Some t) None expiry) env w) as run eqn:Hrun.
  unfold authenticate in Hrun. cbn [au_create_new au_token truthyB] in Hrun.
  rewrite Ht in Hrun. cbv beta iota zeta in Hrun.
  unfold tryCatch at 1 in Hrun. rewrite run_bind in Hrun.
  unfold setToken at 1 in Hrun. cbv beta iota in Hrun. rewrite run_bind in Hrun.
  rewrite (saveToken_run env _ _ Hmk Hwr) in Hrun. cbv beta iota in Hrun.
  change (default "" (Some t)) with t in Hrun.
  change (configDir (withToken (Some t) w)) with (configDir w) in Hrun.
  destruct (configDir w).
  all: unfold tryCatch at 1 in Hrun; rewrite run_bind in Hrun.
  all: unfold Service.verifyProductionAuth in Hrun.
  all: unfold tryCatch at 1 in Hrun; rewrite run_bind in Hrun.
  all: unfold getToken at 1 in Hrun; cbv beta iota in Hrun.
  all: cbn [token withTokenFile withConfigDir withToken] in Hrun; rewrite Ht in Hrun.
  all: unfold tryCatch at 1 in Hrun; rewrite run_bind in Hrun.
  all: rewrite apiRequest_run in Hrun; cbv zeta in Hrun; rewrite Hhttp in Hrun.
  all: cbv beta iota in Hrun; rewrite Hmember, run_bind in Hrun.
  all: unfold mret, M_ret in Hrun; unfold ret at 1 in Hrun; cbv beta iota in Hrun.
  all: unfold ret at 1 in Hrun; cbv beta iota in Hrun.
  all: rewrite Huser, Hid in Hrun; cbn [andb negb] in Hrun; cbv beta iota in Hrun.
  all: subst run; repeat split.
Qed.

Lemma authenticate_valid_token_is_persisted_witness :
  let run := authenticate (mkAuthenticateArgs (Some "nvtok-0123456789abcdefghij") None None)
               acceptingEnv freshWorld in
  fst run = Return (textOk ("Successfully authenticated. Token starts with: "
                            ++ take 8 "nvtok-0123456789abcdefghij" ++ "..."))
  /\ token (snd run) = Some "nvtok-0123456789abcdefghij"
  /\ tokenFile (snd run) = Some "nvtok-0123456789abcdefghij".
Proof.
  apply (authenticate_valid_token_is_persisted acceptingEnv freshWorld
           "nvtok-0123456789abcdefghij" None (JObj [("user", JObj [("id", JNum 7)])]));
    reflexivity.
Defined.

(** X26.  [delete-target] deletes even when it could not check that the
    target exists: when the listing of the targets fails, the handler goes
    on to run the delete command for the name, without any project
    option. *)
Theorem delete_target_attempts_deletion_after_failed_check (env : Env) (w : World)
    (name m : string) (format : option OutputFormat) :
  truthyS (token w) = true ->
  env_exec env (events w) (listAllTargets (token w)) = ExecFail m ->
  events (snd (delete_target (mkDeleteTargetArgs name format) env w))
  = (events w
     ++ [EvExec (listAllTargets (token w));
         EvExec (Service.commandLine (token w) ["target"; "delete"; name]
                   (default FJson format) false)])%list.
Proof.
  intros Htok Hlist. unfold listAllTargets in *.
  remember (delete_target (mkDeleteTargetArgs name format) env w) as run eqn:Hrun.
  unfold delete_target in Hrun. cbn [dt_name dt_format] in Hrun. cbv zeta in Hrun.
  unfold tryCatch at 1 in Hrun. rewrite run_bind in Hrun.
  unfold getToken at 1 in Hrun. cbv beta iota in Hrun. rewrite Htok in Hrun.
  cbn [negb] in Hrun. rewrite run_bind in Hrun.
  unfold findTargetProject in Hrun. unfold tryCatch at 1 in Hrun.
  rewrite run_bind in Hrun. unfold Service.listTargets in Hrun.
  cbn [truthyB app] in Hrun.
  destruct (executeCommand_step env w ["target"; "list"; "-a"] FJson false)
    as (w1 & Hstep1 & Hlog1).
  rewrite Hstep1, Hlist in Hrun. cbv beta iota in Hrun.
  rewrite run_bind in Hrun. unfold consoleError at 1 in Hrun. cbv beta iota in Hrun.
  unfold mret, M_ret, ret at 1 in Hrun. cbv beta iota in Hrun.
  rewrite run_bind in Hrun.
  unfold deleteTargetFound in Hrun. cbn [stringOption truthy] in Hrun.
  unfold Service.deleteTarget in Hrun. cbn [truthyS app] in Hrun.
  match type of Hrun with
  | context [Service.executeCommand ?a ?f ?s env ?w0] =>
      destruct (executeCommand_step env w0 a f s) as (w2 & Hstep2 & Hlog2);
      rewrite Hstep2 in Hrun
  end.
  destruct Hlog1 as (Hev1 & _ & Htok1 & _).
  destruct Hlog2 as (Hev2 & _ & _).
  cbn [events token withLine] in Hev2. rewrite Htok1, Hev1 in Hev2.
  rewrite <- (List.app_assoc _ _ _) in Hev2. cbn [app] in Hev2.
  cbn [events token withLine] in Hrun.
  destruct (env_exec env _ (Service.commandLine _ ["target"; "delete"; name] _ _))
    as [out err|m2]; cbv beta iota in Hrun.
  - cbn [Service.isSwaggerExtract andb] in Hrun.
    destruct (isJson format).
    + unfold tryCatch at 1 in Hrun. rewrite run_bind in Hrun. unfold lift at 1 in Hrun.
      destruct (JSON_parse env _) as [v|e]; cbv beta iota in Hrun;
        subst run; exact Hev2.
    + subst run. exact Hev2.
  - subst run. exact Hev2.
Qed.

Lemma delete_target_attempts_deletion_after_failed_check_witness :
  events (snd (delete_target (mkDeleteTargetArgs "blog" None) failingCliEnv signedInWorld))
  = (events signedInWorld
     ++ [EvExec (listAllTargets (token signedInWorld));
         EvExec (Service.commandLine (token signedInWorld) ["target"; "delete"; "blog"]
                   (default FJson None) false)])%list.
Proof.
  apply (delete_target_attempts_deletion_after_failed_check failingCliEnv signedInWorld "blog"
           "spawn nightvision ENOENT" None); reflexivity.
Defined.

(** X27.  [delete-target] does not run the delete command for a name that
    the listing does not know: when the listing succeeds and parses as an
    array of objects none of which has the name, the handler answers that
    the target was not found and the listing is the only command run. *)
Theorem delete_target_keeps_unknown_target (env : Env) (w : World) (name out err : string)
    (format : option OutputFormat) (items : list Json) :
  truthyS (token w) = true ->
  env_exec env (events w) (listAllTargets (token w)) = ExecOk out err ->
  out <> "" ->
  JSON_parse env out = Return (JArr items) ->
  Forall (fun t => exists fields, t = JObj fields /\ assoc "name" fields <> JStr name) items ->
  fst (delete_target (mkDeleteTargetArgs name format) env w)
  = Return (textError ("Target " ++ dquote ++ name ++ dquote
                       ++ " not found. Please check the name and try again."))
  /\ events (snd (delete_target (mkDeleteTargetArgs name format) env w))
     = (events w ++ [EvExec (listAllTargets (token w))])%list.
Proof.
  intros Htok Hlist Hout Hparse Habsent. unfold listAllTargets in *.
  remember (delete_target (mkDeleteTargetArgs name format) env w) as run eqn:Hrun.
  unfold delete_target in Hrun. cbn [dt_name dt_format] in Hrun. cbv zeta in Hrun.
  unfold tryCatch at 1 in Hrun. rewrite run_bind in Hrun.
  unfold getToken at 1 in Hrun. cbv beta iota in Hrun. rewrite Htok in Hrun.
  cbn [negb] in Hrun. rewrite run_bind in Hrun.
  unfold findTargetProject in Hrun. unfold tryCatch at 1 in Hrun.
  rewrite run_bind in Hrun. unfold Service.listTargets in Hrun.
  cbn [truthyB app] in Hrun.
  destruct (executeCommand_step env w ["target"; "list"; "-a"] FJson false)
    as (w1 & Hstep1 & Hlog1).
  rewrite Hstep1, Hlist in Hrun. cbv beta iota in Hrun.
  cbn [Service.isSwaggerExtract] in Hrun.
  change (("target" =? "swagger") && ("list" =? "extract"))%bool with false in Hrun.
  cbn [andb] in Hrun.
  apply String.eqb_neq in Hout. rewrite Hout in Hrun.
  rewrite run_bind in Hrun. unfold tryCatch at 1 in Hrun. rewrite run_bind in Hrun.
  unfold lift at 1 in Hrun. rewrite Hparse in Hrun. cbv beta iota in Hrun.
  unfold mret, M_ret, ret at 1 in Hrun. cbv beta iota in Hrun.
  rewrite run_bind in Hrun. cbn [Service.arrayOf] in Hrun.
  unfold mret, M_ret, ret at 1 in Hrun. cbv beta iota in Hrun.
  rewrite run_bind in Hrun. rewrite (findByName_absent env w1 name items Habsent) in Hrun.
  cbv beta iota in Hrun. cbn [truthy negb] in Hrun.
  unfold mret, M_ret, ret in Hrun. cbv beta iota in Hrun.
  destruct Hlog1 as (Hev1 & _). subst run. split; [reflexivity | exact Hev1].
Qed.

Lemma delete_target_keeps_unknown_target_witness :
  fst (delete_target (mkDeleteTargetArgs "blog" None) targetsEnv signedInWorld)
  = Return (textError ("Target " ++ dquote ++ "blog" ++ dquote
                       ++ " not found. Please check the name and try again."))
  /\ events (snd (delete_target (mkDeleteTargetArgs "blog" None) targetsEnv signedInWorld))
     = (events signedInWorld ++ [EvExec (listAllTargets (token signedInWorld))])%list.
Proof.
  apply (delete_target_keeps_unknown_target targetsEnv signedInWorld "blog" "[...]" "" None
           [JObj [("name", JStr "shop"); ("project_name", JStr "main")]]).
  - reflexivity.
  - reflexivity.
  - discriminate.
  - reflexivity.
  - repeat constructor. eexists. split; [reflexivity | discriminate].
Defined.

(** X28.  A scan that fails to launch in the background is only written to
    the console: the callback scheduled by [start-scan] returns, its last
    console line is the failure, and neither the token nor the timer queue
    is touched. *)
Theorem runTask_only_logs_failed_launch (env : Env) (w : World) (targetName m : string)
    (options : ScanOptions) (format : OutputFormat) :
  env_exec env (events w)
    (Service.commandLine (token w) (Service.scanArgs targetName options) format false)
  = ExecFail m ->
  exists w',
    runTask (LaunchScan targetName options format) env w = (Return tt, w')
    /\ last (console w')
       = Some ("Error in background scan execution: NightVision command failed: " ++ m)
    /\ token w' = token w /\ timers w' = timers w.
Proof.
  intros Hexec. unfold runTask. unfold tryCatch at 1. rewrite run_bind.
  unfold Service.startScan. rewrite run_bind.
  destruct (executeCommand_step env w (Service.scanArgs targetName options) format false)
    as (w1 & Hstep & Hlog).
  rewrite Hstep, Hexec. cbv beta iota. unfold consoleError. cbn [message].
  eexists. split; [reflexivity|].
  destruct Hlog as (_ & _ & Htok & _ & _ & Htimers).
  cbn [console token timers withLine]. rewrite last_snoc. repeat split; assumption.
Qed.

Lemma runTask_only_logs_failed_launch_witness :
  exists w',
    runTask (LaunchScan "shop" (mkScanOptions None None None (Some "main") None) FJson)
      failingCliEnv signedInWorld = (Return tt, w')
    /\ last (console w')
       = Some ("Error in background scan execution: NightVision command failed: "
               ++ "spawn nightvision ENOENT")
    /\ token w' = token signedInWorld /\ timers w' = timers signedInWorld.
Proof.
  apply (runTask_only_logs_failed_launch failingCliEnv signedInWorld "shop"
           "spawn nightvision ENOENT" (mkScanOptions None None None (Some "main") None) FJson).
  reflexivity.
Defined.

End HandlerFacts.

(* ================================================================== *)
(** * 28. Start-up                                                     *)
(* ================================================================== *)

(** X29.  Without the command-line tool, [main] exits with code 1 after
    the one attempt to run its [version] command: the token file is not
    read, no request is made and the SDK is not called. *)
Theorem main_exits_without_cli (sdk : Sdk) (env : Env) (w : World) (m : string) :
  env_exec env (events w) (Service.commandLine (token w) ["version"] FText false)
  = ExecFail m ->
  fst (main sdk env w) = Return (Exited 1)
  /\ onlyLogged w (snd (main sdk env w))
       [EvExec (Service.commandLine (token w) ["version"] FText false)].
Proof.
  intros Hexec.
  remember (main sdk env w) as run eqn:Hrun.
  unfold main in Hrun. unfold tryCatch at 1 in Hrun. rewrite run_bind in Hrun.
  unfold Service.isInstalled in Hrun. unfold tryCatch at 1 in Hrun.
  rewrite run_bind in Hrun.
  destruct (executeCommand_step env w ["version"] FText false) as (w1 & Hstep & Hlog).
  rewrite Hstep, Hexec in Hrun. cbv beta iota in Hrun.
  unfold mret, M_ret, ret at 1 in Hrun. cbv beta iota in Hrun. cbn [negb] in Hrun.
  rewrite run_bind in Hrun. unfold consoleError at 1 in Hrun. cbv beta iota in Hrun.
  unfold mret, M_ret, ret in Hrun. subst run. split; [reflexivity|].
  cbn [snd]. apply onlyLogged_withLine. exact Hlog.
Qed.

Lemma main_exits_without_cli_witness :
  fst (main idleSdk failingCliEnv freshWorld) = Return (Exited 1)
  /\ onlyLogged freshWorld (snd (main idleSdk failingCliEnv freshWorld))
       [EvExec (Service.commandLine (token freshWorld) ["version"] FText false)].
Proof.
  apply (main_exits_without_cli idleSdk failingCliEnv freshWorld "spawn nightvision ENOENT").
  reflexivity.
Defined.

(** X30.  A token found on disk at start-up is kept whether or not the API
    accepts it.  When the command-line tool is installed and the token file
    can be read and is not blank, [main] leaves the trimmed content of the
    file as the token of the process and leaves the file as it is, provided
    the calls into the SDK do not touch the credential: a token that fails
    the validation is only reported on the console. *)
Theorem main_keeps_loaded_token (sdk : Sdk) (env : Env) (w : World)
    (out err content : string) :
  env_exec env (events w) (Service.commandLine (token w) ["version"] FText false)
  = ExecOk out err ->
  tokenFile w = Some content ->
  env_fsError env OpRead = None ->
  trim content <> "" ->
  keepsCredential (registerTools sdk) ->
  keepsCredential (connect sdk) ->
  token (snd (main sdk env w)) = Some (trim content)
  /\ tokenFile (snd (main sdk env w)) = Some content.
Proof.
  intros Hexec Hfile Hread Hcontent Hreg Hconn.
  remember (main sdk env w) as run eqn:Hrun.
  unfold main in Hrun. unfold tryCatch at 1 in Hrun. rewrite run_bind in Hrun.
  unfold Service.isInstalled in Hrun. unfold tryCatch at 1 in Hrun.
  rewrite run_bind in Hrun.
  destruct (executeCommand_step env w ["version"] FText false) as (w1 & Hstep & Hlog).
  rewrite Hstep, Hexec in Hrun. cbv beta iota in Hrun.
  unfold mret, M_ret, ret at 1 in Hrun. cbv beta iota in Hrun. cbn [negb] in Hrun.
  destruct Hlog as (_ & _ & _ & _ & Hfile1 & _). rewrite Hfile in Hfile1.
  rewrite run_bind in Hrun.
  assert (Hload : TokenStore.loadToken env w1 = (Return (Some (trim content)), w1)).
  { unfold TokenStore.loadToken, TokenStore.tokenFileExists, TokenStore.readTokenFile.
    unfoldM. cbv beta iota. rewrite Hfile1, Hread. cbv beta iota. now rewrite Hfile1. }
  rewrite Hload in Hrun. cbv beta iota in Hrun.
  assert (Htruthy : truthyS (Some (trim content)) = true).
  { cbn [truthyS]. apply String.eqb_neq in Hcontent. now rewrite Hcontent. }
  rewrite Htruthy in Hrun. rewrite run_bind in Hrun.
  rewrite run_setToken, run_consoleError in Hrun. rewrite run_bind in Hrun.
  match type of Hrun with
  | context [Service.verifyProductionAuth env ?w0] =>
      destruct (verifyProductionAuth_run env w0) as (b & w2 & Hverify & Htok2 & _ & Hfile2 & _);
      rewrite Hverify in Hrun
  end.
  cbn [token tokenFile withLine withToken] in Htok2, Hfile2. rewrite Hfile1 in Hfile2.
  cbv beta iota in Hrun.
  assert (Hwarned : exists w3,
             (if negb b
              then consoleError "WARNING: Your authentication token appears to be invalid or expired.";;
                   consoleError ("If you encounter authentication issues, please run: nightvision login --api-url "
                                 ++ CURRENT_API_URL)
              else consoleError "Successfully verified authentication.") env w2
             = (Return tt, w3)
             /\ token w3 = Some (trim content) /\ tokenFile w3 = Some content).
  { destruct b; cbn [negb]; eexists; (split; [reflexivity | split; assumption]). }
  destruct Hwarned as (w3 & Hwarn & Htok3 & Hfile3). rewrite Hwarn in Hrun.
  cbv beta iota in Hrun. rewrite run_bind in Hrun.
  destruct (Hreg env w3) as (Htok4 & Hfile4). rewrite Htok3 in Htok4. rewrite Hfile3 in Hfile4.
  destruct (registerTools sdk env w3) as [[[]|e4] w4]; cbn [snd] in Htok4, Hfile4;
    cbv beta iota in Hrun.
  2:{ unfold consoleError, mret, M_ret, ret in Hrun. subst run.
      cbn [snd token tokenFile withLine]. split; assumption. }
  unfold connectServer in Hrun. rewrite !run_bind in Hrun.
  destruct (Hconn env w4) as (Htok5 & Hfile5). rewrite Htok4 in Htok5. rewrite Hfile4 in Hfile5.
  destruct (connect sdk env w4) as [[[]|e5] w5]; cbn [snd] in Htok5, Hfile5;
    cbv beta iota in Hrun;
    unfold consoleError, mret, M_ret, ret in Hrun; subst run;
    cbn [snd token tokenFile withLine]; split; assumption.
Qed.

Lemma main_keeps_loaded_token_witness :
  token (snd (main idleSdk rejectingEnv restartedWorld))
  = Some (trim ("nvtok-0123456789abcdefghij" ++ nl))
  /\ tokenFile (snd (main idleSdk rejectingEnv restartedWorld))
     = Some ("nvtok-0123456789abcdefghij" ++ nl).
Proof.
  apply (main_keeps_loaded_token idleSdk rejectingEnv restartedWorld
           ("Token created:" ++ nl ++ "nvtok-0123456789abcdefghij" ++ nl) ""
           ("nvtok-0123456789abcdefghij" ++ nl)).
  - reflexivity.
  - reflexivity.
  - reflexivity.
  - discriminate.
  - intros env w. split; reflexivity.
  - intros env w. split; reflexivity.
Defined.
